(** * The debugging loop of data_to_paper (base_steps/debugger.py)

    A shallow embedding of [DebuggerConverser]: the conversation with the
    model, the choice between the three ways of editing that conversation
    after a failed attempt, the classifiers that turn a failure of the
    executed code into a [RunIssue], and the bounded loop [run_debugging].

    The controller is a Python object whose methods read and mutate [self];
    the embedding threads the controller through a small state-and-exception
    monad.  Everything the controller does to the outside (asking the model,
    building a runner, running code, removing files, editing the
    conversation) is also written to a trace, so that the order of these
    effects can be stated. *)

From Stdlib Require Import ZArith String Ascii List Bool Lia DecimalString.
From stdpp Require Import base gmap strings list.

Local Open Scope Z_scope.

(** ** Python text *)

Definition dquote : string := String "034"%char EmptyString.
Definition newline : string := String "010"%char EmptyString.

Fixpoint join (sep : string) (parts : list string) : string :=
  match parts with
  | [] => EmptyString
  | [p] => p
  | p :: rest => p +:+ sep +:+ join sep rest
  end.

(** A triple-quoted literal, given line by line: the first entry is what
    follows the opening quotes on their line, the last one what precedes the
    closing quotes. *)
Definition triple_quote (lines : list string) : string := join newline lines.

(** [str(n)] for a Python int. *)
Definition str_int (n : Z) : string := NilZero.string_of_int (Z.to_int n).

(** [s1 in s2] for two Python strings. *)
Definition occurs_in (piece text : string) : Prop :=
  exists before after, text = before +:+ piece +:+ after.

(** ** Exceptions of the controller itself

    What the methods of the controller can raise on their own account (as
    opposed to the exceptions of the executed code, which the runner wraps). *)
Inductive PyError :=
| TypeError
| KeyError (key : string)
| IndexError
| ValueError
| OsFileNotFoundError (file : string).

(** [d[k]] on a dictionary kept as an association list. *)
Fixpoint getitem {K V} `{EqDecision K} (d : list (K * V)) (k : K) : option V :=
  match d with
  | [] => None
  | (k', v) :: rest => if decide (k' = k) then Some v else getitem rest k
  end.

(** ** [str.format]

    The part of Python's format-string syntax that debugger.py uses: literal
    text, the doubled braces that stand for one brace, the automatically
    numbered field [{}] and the named field [{name}].  A template is first
    cut into pieces, a single brace being a [ValueError]; then the fields are
    filled from left to right, a field without a value being an [IndexError]
    or a [KeyError]. *)
Inductive Piece :=
| Char (c : ascii)
| Auto
| Named (name : string).

Inductive Scan :=
| Outside
| Opened
| Closed
| Inside (name : string).

Definition open_brace : ascii := "{"%char.
Definition close_brace : ascii := "}"%char.

Definition push (p : Piece) (rest : option (list Piece)) : option (list Piece) :=
  match rest with
  | Some ps => Some (p :: ps)
  | None => None
  end.

Fixpoint scan (mode : Scan) (template : string) : option (list Piece) :=
  match template with
  | EmptyString =>
      match mode with
      | Outside => Some []
      | _ => None
      end
  | String c rest =>
      match mode with
      | Outside =>
          if Ascii.eqb c open_brace then scan Opened rest
          else if Ascii.eqb c close_brace then scan Closed rest
          else push (Char c) (scan Outside rest)
      | Opened =>
          if Ascii.eqb c open_brace then push (Char open_brace) (scan Outside rest)
          else if Ascii.eqb c close_brace then push Auto (scan Outside rest)
          else scan (Inside (String c EmptyString)) rest
      | Closed =>
          if Ascii.eqb c close_brace then push (Char close_brace) (scan Outside rest)
          else None
      | Inside name =>
          if Ascii.eqb c close_brace then push (Named name) (scan Outside rest)
          else if Ascii.eqb c open_brace then None
          else scan (Inside (name +:+ String c EmptyString)) rest
      end
  end.

Definition parse (template : string) : option (list Piece) := scan Outside template.

Fixpoint fill (pieces : list Piece) (args : list string) (kwargs : list (string * string))
  : PyError + string :=
  match pieces with
  | [] => inr EmptyString
  | Char c :: rest =>
      match fill rest args kwargs with
      | inr text => inr (String c text)
      | inl e => inl e
      end
  | Auto :: rest =>
      match args with
      | [] => inl IndexError
      | a :: args' =>
          match fill rest args' kwargs with
          | inr text => inr (a +:+ text)
          | inl e => inl e
          end
      end
  | Named name :: rest =>
      match getitem kwargs name with
      | None => inl (KeyError name)
      | Some v =>
          match fill rest args kwargs with
          | inr text => inr (v +:+ text)
          | inl e => inl e
          end
      end
  end.

(** [template.format( *args, **kwargs)] *)
Definition str_format (template : string) (args : list string) (kwargs : list (string * string))
  : PyError + string :=
  match parse template with
  | Some pieces => fill pieces args kwargs
  | None => inl ValueError
  end.

Definition is_field (p : Piece) : bool :=
  match p with
  | Char _ => false
  | _ => true
  end.

(** The replacement fields of a template, in order. *)
Definition fields (template : string) : option (list Piece) :=
  match parse template with
  | Some pieces => Some (List.filter is_field pieces)
  | None => None
  end.

(** Text helpers that debugger.py imports from modules outside src/
    (data_to_paper.utils, utils.text_extractors, servers.chatgpt) and the
    Python built-ins [repr] and [str.strip].  They are taken as they come.
    Of [dedent_triple_quote_str], which re-indents a triple-quoted literal,
    one thing is taken for granted, as debugger.py does when it calls
    [.format] on the result: the replacement fields of the literal are still
    there, in their order. *)
Class Text := {
  dedent_triple_quote_str : string -> string;
  dedent_triple_quote_str_fields :
    forall template, fields (dedent_triple_quote_str template) = fields template;
  (** [repr(s)] of a str, as it appears inside a printed list or tuple *)
  repr : string -> string;
  line_count : string -> Z;
  (** [count_number_of_tokens_in_message(content, max(ModelEngine))] *)
  count_number_of_tokens_in_message : string -> Z;
  extract_to_nearest_newline : string -> Z -> string;
  (** [content.strip()] *)
  strip : string -> string
}.

Section PythonContainers.
Context `{the_text : Text}.

(** [str(l)] of a list of str. *)
Definition str_list (l : list string) : string :=
  "[" +:+ join ", " (map repr l) +:+ "]".

(** [str(t)] of a tuple of str; a one-element tuple prints a trailing comma. *)
Definition str_tuple (t : list string) : string :=
  match t with
  | [x] => "(" +:+ repr x +:+ ",)"
  | _ => "(" +:+ join ", " (map repr t) +:+ ")"
  end.

End PythonContainers.

(** ** Classification of a problem

    Modelled from the spec: [CodeProblem] is declared in
    run_gpt_code/types.py, which is not under src/.  The spec gives its
    members in order of severity,
    NoCode < NotSingleBlock < IncompleteBlock < StaticCheck < RuntimeError
    < OutputFileContent. *)
Inductive CodeProblem :=
| NoCode
| NotSingleBlock
| IncompleteBlock
| StaticCheck
| RuntimeError
| OutputFileContent.

#[export] Instance CodeProblem_eq_dec : EqDecision CodeProblem.
Proof. solve_decision. Defined.

Definition severity (p : CodeProblem) : Z :=
  match p with
  | NoCode => 0
  | NotSingleBlock => 1
  | IncompleteBlock => 2
  | StaticCheck => 3
  | RuntimeError => 4
  | OutputFileContent => 5
  end.

(** [a > b] on classifications. *)
Definition CodeProblem_gt (a b : CodeProblem) : bool := severity b <? severity a.

(** [a <= b] on classifications. *)
Definition CodeProblem_le (a b : CodeProblem) : bool := severity a <=? severity b.

(** ** Issues *)

(** [RunIssue(issue=..., comment=..., end_with=...)]; [end_with] is left out
    by every classifier but the one for forbidden imports. *)
Record RunIssue := {
  issue : string;
  comment : string;
  end_with : option string
}.

(** ** Exceptions raised by the executed code

    Python dispatches on the class of an exception with [isinstance], which
    looks the class up among the classes the object is an instance of.  An
    exception therefore carries that list of classes; the attributes are the
    ones the classifiers read. *)
Inductive ExcClass :=
| ImportError
| TimeoutError
| UnAllowedFilesCreated
| FileNotFoundError
| CodeUsesForbiddenFunctions
| UnAllowedDataframeMethodCall
| CodeImportForbiddenModule
| CodeWriteForbiddenFile
| CodeReadForbiddenFile
| DataFrameSeriesChange
| RunUtilsError
| Warning
| OtherClass (name : string).

#[export] Instance ExcClass_eq_dec : EqDecision ExcClass.
Proof. solve_decision. Defined.

Record PyException := {
  classes : list ExcClass;
  (** [str(e)] *)
  exc_str : string;
  (** [e.fromlist]: [None] when the exception has no such attribute
      ([hasattr(e, 'fromlist')] is false), [Some None] when the attribute is
      Python's [None], [Some (Some names)] when it is a sequence of names. *)
  fromlist : option (option (list string));
  func : string;
  method_name : string;
  module : string;
  file : string;
  un_allowed_files : list string;
  changed_series : string;
  message : string
}.

Definition isinstance (e : PyException) (c : ExcClass) : bool :=
  bool_decide (c ∈ classes e).

(** [FailedRunningCode]: what [run_code] raises, wrapping the exception of
    the executed code.  [get_traceback_message] takes the number of lines the
    runner put in front of the code. *)
Record FailedRunningCode := {
  exception : PyException;
  failure_classes : list ExcClass;
  get_traceback_message : Z -> string
}.

(** ** Output requirements and the result of a run *)

Record OutputFileRequirement := {
  filename : string;
  minimal_count : Z;
  is_wildcard : bool;
  (** [isinstance(requirement, ContentOutputFileRequirement)] *)
  is_content : bool;
  max_tokens : Z
}.

#[export] Instance OutputFileRequirement_eq_dec : EqDecision OutputFileRequirement.
Proof. solve_decision. Defined.

Record DataframeOperations := {
  get_read_changed_but_unsaved_ids : list Z;
  get_read_filenames_from_ids : list Z -> list string
}.

(** What debugger.py reads from a [CodeAndOutput].  The dictionaries are kept
    as association lists: [.keys()] comes in insertion order. *)
Record CodeAndOutput := {
  requirements_to_output_files_to_contents :
    list (OutputFileRequirement * list (string * string));
  dataframe_operations : DataframeOperations;
  (** [get_created_content_files_to_contents(is_clean=True)] *)
  get_created_content_files_to_contents : list (string * string);
  get_created_data_files : list string
}.

(** ** The code runner *)

Inductive Extraction :=
| Extracted (code : string)
| IncompleteBlockFailedExtractingBlock
| FailedExtractingBlock (str_e : string).

Inductive RunOutcome :=
| Ran (code_and_output : CodeAndOutput) (issues : list RunIssue)
| Failed (e : FailedRunningCode).

(** A [CodeRunner] built for one response.  [run_code] may write files into
    the data folder, so it maps the folder's file names to the new ones. *)
Record CodeRunner := {
  extract_code : Extraction;
  run_code : gset string -> RunOutcome * gset string;
  lines_added_in_front_of_code : Z
}.

(** ** The conversation *)

Inductive Role := SYSTEM | USER | ASSISTANT | SURROGATE.

Module Message.
Record t := {
  role : Role;
  content : string;
  comment : option string;
  ignore : bool
}.
End Message.

(** ** Effects, in the order they happen *)

Inductive Event :=
| GetAssistantMessage (response : string)
| BuildRunner (response : string)
| ExtractCode
| RunCode (code : string)
| OsRemove (file : string)
| AppendUserMessage (content : string)
| AppendSurrogateMessage (content : string)
| DeleteMessages (indices : list Z)
| RewindToFirstResponse.

(** ** Model engines

    [ModelEngine], its order and [get_next] are declared in
    servers/openai_models.py and [MAX_MODEL_ENGINE] in env.py; neither is
    under src/. *)
Class Engine := {
  ModelEngine : Type;
  engine_lt : ModelEngine -> ModelEngine -> bool;
  get_next : ModelEngine -> ModelEngine;
  MAX_MODEL_ENGINE : ModelEngine;
  (** how an engine prints inside an f-string *)
  engine_str : ModelEngine -> string
}.

(** ** The controller *)

Section Controller.
Context `{the_text : Text} `{the_engine : Engine}.

(** The fields of the dataclass [DebuggerConverser] that debugger.py uses,
    the conversation it inherits, and the two things outside the object that
    its methods change: the files of the data folder and the trace. *)
Record DebuggerConverser := {
  data_folder : string;
  data_filenames : list string;
  output_file_requirements : list OutputFileRequirement;
  allow_dataframes_to_change_existing_series : bool;
  enforce_saving_altered_dataframes : bool;
  supported_packages : list string;
  prompt_to_append_at_end_of_response : string;
  max_debug_iterations : Z;
  debug_iteration : Z;
  previous_code : option string;
  _requesting_small_change : bool;
  _previous_code_problem : option CodeProblem;
  model_engine : ModelEngine;
  conversation : list Message.t;
  _conversation_len_before_first_response : Z;
  working_directory : gset string;
  trace : list Event
}.

Definition set_debug_iteration (i : Z) (s : DebuggerConverser) : DebuggerConverser :=
  {| data_folder := data_folder s;
     data_filenames := data_filenames s;
     output_file_requirements := output_file_requirements s;
     allow_dataframes_to_change_existing_series := allow_dataframes_to_change_existing_series s;
     enforce_saving_altered_dataframes := enforce_saving_altered_dataframes s;
     supported_packages := supported_packages s;
     prompt_to_append_at_end_of_response := prompt_to_append_at_end_of_response s;
     max_debug_iterations := max_debug_iterations s;
     debug_iteration := i;
     previous_code := previous_code s;
     _requesting_small_change := _requesting_small_change s;
     _previous_code_problem := _previous_code_problem s;
     model_engine := model_engine s;
     conversation := conversation s;
     _conversation_len_before_first_response := _conversation_len_before_first_response s;
     working_directory := working_directory s;
     trace := trace s |}.

Definition set_previous_code (c : option string) (s : DebuggerConverser) : DebuggerConverser :=
  {| data_folder := data_folder s;
     data_filenames := data_filenames s;
     output_file_requirements := output_file_requirements s;
     allow_dataframes_to_change_existing_series := allow_dataframes_to_change_existing_series s;
     enforce_saving_altered_dataframes := enforce_saving_altered_dataframes s;
     supported_packages := supported_packages s;
     prompt_to_append_at_end_of_response := prompt_to_append_at_end_of_response s;
     max_debug_iterations := max_debug_iterations s;
     debug_iteration := debug_iteration s;
     previous_code := c;
     _requesting_small_change := _requesting_small_change s;
     _previous_code_problem := _previous_code_problem s;
     model_engine := model_engine s;
     conversation := conversation s;
     _conversation_len_before_first_response := _conversation_len_before_first_response s;
     working_directory := working_directory s;
     trace := trace s |}.

Definition set_requesting_small_change (b : bool) (s : DebuggerConverser) : DebuggerConverser :=
  {| data_folder := data_folder s;
     data_filenames := data_filenames s;
     output_file_requirements := output_file_requirements s;
     allow_dataframes_to_change_existing_series := allow_dataframes_to_change_existing_series s;
     enforce_saving_altered_dataframes := enforce_saving_altered_dataframes s;
     supported_packages := supported_packages s;
     prompt_to_append_at_end_of_response := prompt_to_append_at_end_of_response s;
     max_debug_iterations := max_debug_iterations s;
     debug_iteration := debug_iteration s;
     previous_code := previous_code s;
     _requesting_small_change := b;
     _previous_code_problem := _previous_code_problem s;
     model_engine := model_engine s;
     conversation := conversation s;
     _conversation_len_before_first_response := _conversation_len_before_first_response s;
     working_directory := working_directory s;
     trace := trace s |}.

Definition set_previous_code_problem (p : option CodeProblem) (s : DebuggerConverser) : DebuggerConverser :=
  {| data_folder := data_folder s;
     data_filenames := data_filenames s;
     output_file_requirements := output_file_requirements s;
     allow_dataframes_to_change_existing_series := allow_dataframes_to_change_existing_series s;
     enforce_saving_altered_dataframes := enforce_saving_altered_dataframes s;
     supported_packages := supported_packages s;
     prompt_to_append_at_end_of_response := prompt_to_append_at_end_of_response s;
     max_debug_iterations := max_debug_iterations s;
     debug_iteration := debug_iteration s;
     previous_code := previous_code s;
     _requesting_small_change := _requesting_small_change s;
     _previous_code_problem := p;
     model_engine := model_engine s;
     conversation := conversation s;
     _conversation_len_before_first_response := _conversation_len_before_first_response s;
     working_directory := working_directory s;
     trace := trace s |}.

Definition set_model_engine (e : ModelEngine) (s : DebuggerConverser) : DebuggerConverser :=
  {| data_folder := data_folder s;
     data_filenames := data_filenames s;
     output_file_requirements := output_file_requirements s;
     allow_dataframes_to_change_existing_series := allow_dataframes_to_change_existing_series s;
     enforce_saving_altered_dataframes := enforce_saving_altered_dataframes s;
     supported_packages := supported_packages s;
     prompt_to_append_at_end_of_response := prompt_to_append_at_end_of_response s;
     max_debug_iterations := max_debug_iterations s;
     debug_iteration := debug_iteration s;
     previous_code := previous_code s;
     _requesting_small_change := _requesting_small_change s;
     _previous_code_problem := _previous_code_problem s;
     model_engine := e;
     conversation := conversation s;
     _conversation_len_before_first_response := _conversation_len_before_first_response s;
     working_directory := working_directory s;
     trace := trace s |}.

Definition set_conversation (c : list Message.t) (s : DebuggerConverser) : DebuggerConverser :=
  {| data_folder := data_folder s;
     data_filenames := data_filenames s;
     output_file_requirements := output_file_requirements s;
     allow_dataframes_to_change_existing_series := allow_dataframes_to_change_existing_series s;
     enforce_saving_altered_dataframes := enforce_saving_altered_dataframes s;
     supported_packages := supported_packages s;
     prompt_to_append_at_end_of_response := prompt_to_append_at_end_of_response s;
     max_debug_iterations := max_debug_iterations s;
     debug_iteration := debug_iteration s;
     previous_code := previous_code s;
     _requesting_small_change := _requesting_small_change s;
     _previous_code_problem := _previous_code_problem s;
     model_engine := model_engine s;
     conversation := c;
     _conversation_len_before_first_response := _conversation_len_before_first_response s;
     working_directory := working_directory s;
     trace := trace s |}.

Definition set_working_directory (d : gset string) (s : DebuggerConverser) : DebuggerConverser :=
  {| data_folder := data_folder s;
     data_filenames := data_filenames s;
     output_file_requirements := output_file_requirements s;
     allow_dataframes_to_change_existing_series := allow_dataframes_to_change_existing_series s;
     enforce_saving_altered_dataframes := enforce_saving_altered_dataframes s;
     supported_packages := supported_packages s;
     prompt_to_append_at_end_of_response := prompt_to_append_at_end_of_response s;
     max_debug_iterations := max_debug_iterations s;
     debug_iteration := debug_iteration s;
     previous_code := previous_code s;
     _requesting_small_change := _requesting_small_change s;
     _previous_code_problem := _previous_code_problem s;
     model_engine := model_engine s;
     conversation := conversation s;
     _conversation_len_before_first_response := _conversation_len_before_first_response s;
     working_directory := d;
     trace := trace s |}.

Definition set_trace (t : list Event) (s : DebuggerConverser) : DebuggerConverser :=
  {| data_folder := data_folder s;
     data_filenames := data_filenames s;
     output_file_requirements := output_file_requirements s;
     allow_dataframes_to_change_existing_series := allow_dataframes_to_change_existing_series s;
     enforce_saving_altered_dataframes := enforce_saving_altered_dataframes s;
     supported_packages := supported_packages s;
     prompt_to_append_at_end_of_response := prompt_to_append_at_end_of_response s;
     max_debug_iterations := max_debug_iterations s;
     debug_iteration := debug_iteration s;
     previous_code := previous_code s;
     _requesting_small_change := _requesting_small_change s;
     _previous_code_problem := _previous_code_problem s;
     model_engine := model_engine s;
     conversation := conversation s;
     _conversation_len_before_first_response := _conversation_len_before_first_response s;
     working_directory := working_directory s;
     trace := t |}.

(** *** Collaborators

    What the controller calls and src/ does not contain: the model behind
    [apply_get_and_append_assistant_message], the runner class, the issue
    collector of run_gpt_code/runtime_issues_collector.py, the helper of
    run_gpt_code/types.py that picks the single content file, and the
    inherited [initialize_conversation_if_needed].  A list of issues may hold
    [None] (see the static check below), so the collector takes optional
    issues. *)
Class World := {
  chatgpt : DebuggerConverser -> string;
  runner_cls : string -> list string -> list OutputFileRequirement -> bool ->
               option string -> string -> CodeRunner;
  get_message_and_comment : list (option RunIssue) -> string -> string * string;
  do_all_issues_request_small_change : list (option RunIssue) -> bool;
  get_single_content_file_from_requirements :
    list OutputFileRequirement -> option string;
  initialize_conversation : DebuggerConverser -> DebuggerConverser
}.

Context `{the_world : World}.

(** *** The monad of the controller's methods

    A method returns a value or raises; in both cases it leaves a controller
    behind. *)
Inductive Outcome (A : Type) :=
| Returned (a : A) (s : DebuggerConverser)
| Raised (e : PyError) (s : DebuggerConverser).
Arguments Returned {A} a s.
Arguments Raised {A} e s.

Definition M (A : Type) : Type := DebuggerConverser -> Outcome A.

Definition ret {A} (a : A) : M A := fun s => Returned a s.

Definition bind {A B} (m : M A) (k : A -> M B) : M B :=
  fun s =>
    match m s with
    | Returned a s' => k a s'
    | Raised e s' => Raised e s'
    end.

Definition raise {A} (e : PyError) : M A := fun s => Raised e s.

(** Read [self]. *)
Definition self : M DebuggerConverser := fun s => Returned s s.

Definition modify (f : DebuggerConverser -> DebuggerConverser) : M unit :=
  fun s => Returned tt (f s).

Notation "x <- m ;; k" := (bind m (fun x => k))
  (at level 100, m at next level, right associativity).
Notation "m ;;; k" := (bind m (fun _ => k))
  (at level 100, right associativity).

Definition log (ev : Event) : M unit :=
  modify (fun s => set_trace (trace s ++ [ev]) s).

(** [for x in xs: body(x)] *)
Fixpoint for_each {A} (xs : list A) (body : A -> M unit) : M unit :=
  match xs with
  | [] => ret tt
  | x :: rest => body x ;;; for_each rest body
  end.

(** The state a method leaves, returned or raised. *)
Definition final {A} (o : Outcome A) : DebuggerConverser :=
  match o with
  | Returned _ s => s
  | Raised _ s => s
  end.

(** *** The inherited conversation methods

    Modelled from the spec: the methods that edit the conversation belong to
    the base class [BackgroundProductsConverser], which is not under src/.
    The spec (sections 4.5 and 6) describes them: append a message tagged by
    role and comment, fetch and append the model's next response, delete
    messages by index, rewind to immediately after the first model response.
    [_conversation_len_before_first_response] is the saved position that
    [_get_response_count] reads. *)

Definition append_message (m : Message.t) : M unit :=
  modify (fun s => set_conversation (conversation s ++ [m]) s).

Definition apply_append_user_message
    (content : string) (comment : option string) (ignore : bool) : M unit :=
  log (AppendUserMessage content) ;;;
  append_message
    {| Message.role := USER; Message.content := content;
       Message.comment := comment; Message.ignore := ignore |}.

Definition apply_append_surrogate_message
    (content : string) (comment : option string) : M unit :=
  log (AppendSurrogateMessage content) ;;;
  append_message
    {| Message.role := SURROGATE; Message.content := content;
       Message.comment := comment; Message.ignore := false |}.

(** Returns the [content] of the message it appends. *)
Definition apply_get_and_append_assistant_message
    (previous_code : option string) : M string :=
  s <- self ;;
  let response := chatgpt s in
  log (GetAssistantMessage response) ;;;
  append_message
    {| Message.role := ASSISTANT; Message.content := response;
       Message.comment := None; Message.ignore := false |} ;;;
  ret response.

(** A Python index into a sequence of [len] elements: negative ones count
    from the end. *)
Definition python_index (len i : Z) : Z := if i <? 0 then len + i else i.

Fixpoint delete_from (doomed : list Z) (i : Z) (c : list Message.t) : list Message.t :=
  match c with
  | [] => []
  | m :: rest =>
      if bool_decide (i ∈ doomed)
      then delete_from doomed (i + 1) rest
      else m :: delete_from doomed (i + 1) rest
  end.

Definition delete_messages (indices : list Z) (c : list Message.t) : list Message.t :=
  delete_from (map (python_index (Z.of_nat (length c))) indices) 0 c.

Definition apply_delete_messages (indices : list Z) : M unit :=
  log (DeleteMessages indices) ;;;
  modify (fun s => set_conversation (delete_messages indices (conversation s)) s).

(** The conversation up to and including the first model response. *)
Definition rewound (s : DebuggerConverser) : list Message.t :=
  firstn (Z.to_nat (_conversation_len_before_first_response s + 1)) (conversation s).

Definition _rewind_conversation_to_first_response : M unit :=
  log RewindToFirstResponse ;;;
  modify (fun s => set_conversation (rewound s) s).

Definition initialize_conversation_if_needed : M unit :=
  modify initialize_conversation.

(** [template.format(...)] inside a method. *)
Definition format (template : string) (args : list string) (kwargs : list (string * string))
  : M string :=
  match str_format template args kwargs with
  | inr text => ret text
  | inl e => raise e
  end.

(** *** Properties *)

Definition output_filename (s : DebuggerConverser) : option string :=
  get_single_content_file_from_requirements (output_file_requirements s).

Definition iteration_str (s : DebuggerConverser) : string :=
  "Debug iteration " +:+ str_int (debug_iteration s) +:+ "/" +:+
  str_int (max_debug_iterations s).

Definition description_of_allowed_output_files : M string :=
  s <- self ;;
  let requirements := output_file_requirements s in
  if (Z.of_nat (length requirements) =? 0)
  then ret "Your code should not write to any file."%string
  else format "Your code should only write to these files: {}."
         [join ", " (map (fun r => dquote +:+ filename r +:+ dquote) requirements)] [].

(** *** Choosing and applying the edit of the conversation *)

Inductive Action := repost | leave | regenerate.

#[export] Instance Action_eq_dec : EqDecision Action.
Proof. solve_decision. Defined.

(** [(len(self.conversation) - self._conversation_len_before_first_response - 1) // 2] *)
Definition _get_response_count (s : DebuggerConverser) : Z :=
  (Z.of_nat (length (conversation s)) - _conversation_len_before_first_response s - 1) `div` 2.

(** [str(code)] inside [.format]: [None] prints as its name. *)
Definition str_optional (code : option string) : string :=
  match code with
  | Some c => c
  | None => "None"
  end.

Definition fresh_code_template : string :=
  "Here is the code to perform the requested analysis:" +:+ newline +:+
  "```python" +:+ newline +:+ "{}" +:+ newline +:+ "```".

Definition _post_code_as_fresh
    (code : option string) (code_problem : option CodeProblem) : M unit :=
  _rewind_conversation_to_first_response ;;;
  content <- format fresh_code_template [str_optional code] [] ;;
  apply_append_surrogate_message content
    (Some "Code is freshly re-posted, as if it was the immediate response.") ;;;
  modify (set_previous_code code) ;;;
  modify (set_previous_code_problem code_problem).

(** The first statement of [_respond_to_issues]: the decision.  Comparing
    [None] with a classification raises. *)
Definition choose_action
    (response_count : Z) (code_problem : option CodeProblem) : M Action :=
  if response_count =? 0 then
    if bool_decide (code_problem = Some IncompleteBlock) then ret regenerate
    else if bool_decide (code_problem = Some NotSingleBlock) then ret leave
    else ret repost
  else
    match code_problem with
    | None => raise TypeError
    | Some p => if CodeProblem_gt p StaticCheck then ret repost else ret regenerate
    end.

(** [issues] is one issue or a list of them. *)
Definition as_list (issues : RunIssue + list (option RunIssue)) : list (option RunIssue) :=
  match issues with
  | inl i => [Some i]
  | inr l => l
  end.

Definition regenerate_mark (action : Action) : string :=
  if decide (action = regenerate) then newline +:+ newline +:+ "REGENERATE" else "".

Definition _respond_to_issues
    (issues : RunIssue + list (option RunIssue))
    (code : option string) (code_problem : option CodeProblem) : M unit :=
  s <- self ;;
  action <- choose_action (_get_response_count s) code_problem ;;
  (if decide (action = repost) then _post_code_as_fresh code code_problem else ret tt) ;;;
  let issues := as_list issues in
  s <- self ;;
  let message_comment :=
    get_message_and_comment issues (prompt_to_append_at_end_of_response s) in
  apply_append_user_message
    (message_comment.1 +:+ regenerate_mark action)
    (Some (iteration_str s +:+ ": " +:+ message_comment.2)) false ;;;
  (if decide (action = regenerate) then apply_delete_messages [-2; -1] else ret tt) ;;;
  modify (set_requesting_small_change (do_all_issues_request_small_change issues)).

(** *** Issues for failures of the executed code *)

Definition KNOWN_MIS_IMPORTS : gmap string string :=
  {[ "Mediation"%string := "statsmodels.stats.mediation"%string ]}.

(** [correct_package[:correct_package.index('.')] if '.' in correct_package
    else correct_package] *)
Definition package_base (correct_package : string) : string :=
  match String.index 0 "." correct_package with
  | Some i => String.substring 0 i correct_package
  | None => correct_package
  end.

Definition known_mis_import_template : string :=
  triple_quote
    [ "";
      "            I ran the code and got the following error message:";
      "            ```";
      "            {}";
      "            ```";
      "            Your code should only use these packages: {supported_packages}.";
      "            Note that there is a `{var}` in `{correct_package}`. Is this perhaps what you needed? ";
      "            " ].

(** [len(e.fromlist)] raises [TypeError] when the attribute is [None]. *)
Definition _get_issue_for_known_mis_imports (e : PyException) : M (option RunIssue) :=
  s <- self ;;
  match fromlist e with
  | None => ret None
  | Some None => raise TypeError
  | Some (Some names) =>
      match names with
      | [var] =>
          match KNOWN_MIS_IMPORTS !! var with
          | None => ret None
          | Some correct_package =>
              if bool_decide (package_base correct_package ∈ supported_packages s)
              then
                text <- format (dedent_triple_quote_str known_mis_import_template)
                          [exc_str e]
                          [("supported_packages"%string, str_tuple (supported_packages s));
                           ("var"%string, var);
                           ("correct_package"%string, correct_package)] ;;
                ret (Some {| issue := text;
                             comment := "ImportError detected in gpt code";
                             end_with := None |})
              else ret None
          end
      | _ => ret None
      end
  end.

Definition allowed_packages_template : string :=
  triple_quote
    [ "";
      "            I ran the code and got the following error message:";
      "            ```";
      "            {}";
      "            ```";
      "            Your code should only use these packages: {supported_packages}.";
      "            " ].

Definition _get_issue_for_allowed_packages (error : PyException) : M RunIssue :=
  respond_to_known_mis_imports <- _get_issue_for_known_mis_imports error ;;
  match respond_to_known_mis_imports with
  | Some known => ret known
  | None =>
      s <- self ;;
      text <- format (dedent_triple_quote_str allowed_packages_template)
                [exc_str error]
                [("supported_packages"%string, str_tuple (supported_packages s))] ;;
      ret {| issue := text;
             comment := "ImportError detected in gpt code";
             end_with := None |}
  end.

Definition file_not_found_template : string :=
  triple_quote
    [ "";
      "            I ran the code and got the following error message:";
      "            ```";
      "            {}";
      "            ```";
      "            As noted in the data description, we only have these files:";
      "            {}  ";
      "";
      "            Files are located in the same directory as the code. ";
      "            " ].

Definition _get_issue_for_file_not_found (error : PyException) : M RunIssue :=
  s <- self ;;
  text <- format (dedent_triple_quote_str file_not_found_template)
            [exc_str error; str_list (data_filenames s)] [] ;;
  ret {| issue := text;
         comment := "FileNotFound detected in code";
         end_with := None |}.

Definition regular_exception_template : string :=
  triple_quote
    [ "";
      "            I ran the code and got the following {} message:";
      "            ```";
      "            {}";
      "            ```";
      "            " ].

Definition _get_issue_for_regular_exception_or_warning
    (error : FailedRunningCode) (code_runner : CodeRunner) : M RunIssue :=
  let error_message := get_traceback_message error (lines_added_in_front_of_code code_runner) in
  text <- format (dedent_triple_quote_str regular_exception_template)
            [ (if bool_decide (Warning ∈ failure_classes error) then "warning" else "error")%string;
              error_message ] [] ;;
  ret {| issue := text;
         comment := "Runtime exception in code";
         end_with := None |}.

Definition _get_issue_for_timeout (error : PyException) : M RunIssue :=
  ret {| issue :=
           dedent_triple_quote_str
             (triple_quote
                [ "";
                  "            I ran the code, but it just ran forever... Perhaps got stuck in too long calculations.";
                  "            " ]);
         comment := "Code has timed out";
         end_with := None |}.

(** The one classifier that writes to [self]: below the strongest engine it
    moves to the next engine, and names the engine after the new one. *)
Definition _get_issue_for_incomplete_code : M RunIssue :=
  s <- self ;;
  text <-
    (if engine_lt (model_engine s) MAX_MODEL_ENGINE then
       modify (set_model_engine (get_next (model_engine s))) ;;;
       s <- self ;;
       ret ("Your sent incomplete code. Let's bump you up to " +:+
            engine_str (get_next (model_engine s)) +:+ " and retry!")
     else
       ret "Your sent incomplete code. Please regenerate response."%string) ;;
  ret {| issue := text; comment := "Code is incomplete"; end_with := None |}.

(** [e] is the [FailedExtractingBlock]; only [str(e)] is used. *)
Definition _get_issue_for_missing_or_multiple_code (str_e : string) : M RunIssue :=
  ret {| issue := str_e;
         comment := "Failed extracting code from gpt response";
         end_with := None |}.

Definition print_without_output_file : RunIssue :=
  {| issue :=
       dedent_triple_quote_str
         (triple_quote
            [ "";
              "                    Please do not use the `print` function.";
              "                    Your code should only save any new or modified dataframes; should have no other output.";
              "                    " ]);
     comment := "Code uses `print`";
     end_with := None |}.

Definition print_with_output_file (name : string) : RunIssue :=
  {| issue :=
       dedent_triple_quote_str
         (triple_quote
            [ "";
              "                    Please do not use the `print` function. ";
              "                    Anything you want to print must be written to the output file ("
                +:+ dquote +:+ name +:+ dquote +:+ "). ";
              "                    " ]);
     comment := "Code uses `print`";
     end_with := None |}.

(** [not self.output_filename] holds for [None] and for the empty string. *)
Definition _get_issue_for_forbidden_functions (error : PyException) : M RunIssue :=
  s <- self ;;
  let func := func error in
  if bool_decide (func = "print"%string) then
    match output_filename s with
    | None => ret print_without_output_file
    | Some name =>
        if bool_decide (name = EmptyString)
        then ret print_without_output_file
        else ret (print_with_output_file name)
    end
  else
    text <- format
              (dedent_triple_quote_str
                 (triple_quote
                    [ "";
                      "            Your code uses the function `{}`, which is not allowed.";
                      "            " ]))
              [func] [] ;;
    ret {| issue := text;
           comment := "Code uses forbidden function " +:+ func;
           end_with := None |}.

Definition _get_issue_for_forbidden_method (error : PyException) : M RunIssue :=
  let func := method_name error in
  text <- format
            (dedent_triple_quote_str
               (triple_quote
                  [ "";
                    "            Your code uses the dataframe method `{}`, which is not allowed.";
                    "            " ]))
            [func] [] ;;
  ret {| issue := text;
         comment := "Code uses forbidden method " +:+ func;
         end_with := None |}.

Definition _get_issue_for_forbidden_import (error : PyException) : M RunIssue :=
  let module := module error in
  ret {| issue :=
           dedent_triple_quote_str
             (triple_quote
                [ "";
                  "            Your code import the module `" +:+ module +:+ "`, which is not allowed.";
                  "            Please rewrite the complete code again without using this module. ";
                  "            " ]);
         comment := "Code imports forbidden module";
         end_with := Some EmptyString |}.

Definition _get_issues_for_static_code_check (code : string) : M (list (option RunIssue)) :=
  ret [].

Definition forbidden_write_template : string :=
  triple_quote
    [ "";
      "            Your code writes to the file " +:+ dquote +:+ "{}" +:+ dquote
        +:+ " which is not allowed.";
      "            {description_of_allowed_output_files}";
      "            " ].

Definition _get_issue_for_forbidden_write (error : PyException) : M RunIssue :=
  let file := file error in
  description <- description_of_allowed_output_files ;;
  text <- format (dedent_triple_quote_str forbidden_write_template)
            [file] [("description_of_allowed_output_files"%string, description)] ;;
  ret {| issue := text;
         comment := "Code writes to forbidden file";
         end_with := None |}.

Definition un_allowed_files_template : string :=
  triple_quote
    [ "";
      "            Your code creates the following files {} which is not allowed.";
      "            {description_of_allowed_output_files}";
      "            Please rewrite the complete code again so that it does not create un-allowed files.";
      "            " ].

(** Both values are passed by position. *)
Definition _get_issue_for_un_allowed_files_created (error : PyException) : M RunIssue :=
  description <- description_of_allowed_output_files ;;
  text <- format (dedent_triple_quote_str un_allowed_files_template)
            [str_list (un_allowed_files error); description] [] ;;
  ret {| issue := text;
         comment := "Code created forbidden files";
         end_with := None |}.

Definition forbidden_read_output_text (file : string) (data_filenames : list string) : string :=
  triple_quote
    [ "";
      "                Your code tries reading from the output file " +:+ dquote +:+ file
        +:+ dquote +:+ ".";
      "                The code should create and write to this output file, but should not read from it.";
      "                The only input files from which we can read the data are: ";
      "                " +:+ str_list data_filenames;
      "                " ].

Definition forbidden_read_template : string :=
  triple_quote
    [ "";
      "                Your code reads from the file " +:+ dquote +:+ "{}" +:+ dquote
        +:+ " which is not part of the dataset.";
      "                We only have these files:";
      "                {}";
      "";
      "                Note that these input files are located in the same directory as the code. ";
      "                " ].

Definition _get_issue_for_forbidden_read (error : PyException) : M RunIssue :=
  s <- self ;;
  let file := file error in
  if bool_decide (Some file = output_filename s) then
    ret {| issue :=
             dedent_triple_quote_str (forbidden_read_output_text file (data_filenames s));
           comment := "Code reads from output file";
           end_with := None |}
  else
    text <- format (dedent_triple_quote_str forbidden_read_template)
              [file; str_list (data_filenames s)] [] ;;
    ret {| issue := text;
           comment := "Code reads from forbidden file";
           end_with := None |}.

Definition _get_issue_for_dataframe_series_change (error : PyException) : M RunIssue :=
  let series := changed_series error in
  ret {| issue :=
           dedent_triple_quote_str
             (triple_quote
                [ "";
                  "            Your code changes the series " +:+ dquote +:+ series +:+ dquote
                    +:+ " of your dataframe.";
                  "            Instead of changing an existing dataframe series, please create a new series, and give it a "
                    +:+ "            new sensible name.";
                  "            " ]);
         comment := "Code modifies dataframe series";
         end_with := None |}.

Definition _get_issue_for_run_utils_error (error : PyException) : M RunIssue :=
  ret {| issue := message error;
         comment := "Code failed RunUtilsError";
         end_with := None |}.

(** *** Dispatch on the class of the failure *)

Definition Classifier : Type := PyException -> M RunIssue.

(** The dictionary of [_get_code_and_respond_to_issues], in its order. *)
Definition exceptions_to_funcs : list (ExcClass * Classifier) :=
  [ (ImportError, _get_issue_for_allowed_packages);
    (TimeoutError, _get_issue_for_timeout);
    (UnAllowedFilesCreated, _get_issue_for_un_allowed_files_created);
    (FileNotFoundError, _get_issue_for_file_not_found);
    (CodeUsesForbiddenFunctions, _get_issue_for_forbidden_functions);
    (UnAllowedDataframeMethodCall, _get_issue_for_forbidden_method);
    (CodeImportForbiddenModule, _get_issue_for_forbidden_import);
    (CodeWriteForbiddenFile, _get_issue_for_forbidden_write);
    (CodeReadForbiddenFile, _get_issue_for_forbidden_read);
    (DataFrameSeriesChange, _get_issue_for_dataframe_series_change);
    (RunUtilsError, _get_issue_for_run_utils_error) ].

(** The [for ... if isinstance ... break] loop: the function of the first
    entry whose class the exception is an instance of, if any. *)
Fixpoint first_match (table : list (ExcClass * Classifier)) (exc : PyException)
  : option Classifier :=
  match table with
  | [] => None
  | (e_type, func) :: rest =>
      if isinstance exc e_type then Some func else first_match rest exc
  end.

(** The loop with its [else] branch. *)
Definition classify_failure (e : FailedRunningCode) (code_runner : CodeRunner) : M RunIssue :=
  match first_match exceptions_to_funcs (exception e) with
  | Some func => func (exception e)
  | None => _get_issue_for_regular_exception_or_warning e code_runner
  end.

(** *** Issues found after a run that raised nothing *)

Definition output_file_empty_text (filename : string) : string :=
  triple_quote
    [ "";
      "                The code created the output file " +:+ dquote +:+ filename +:+ dquote
        +:+ ", but the file is just empty! ";
      "                " ].

Definition output_file_too_long_template : string :=
  triple_quote
    [ "";
      "                The code created the output file " +:+ dquote +:+ "{}" +:+ dquote
        +:+ ", but the file is too long!";
      "";
      "                Here, for context, is the beginning of the output:";
      "                ```output";
      "                {}";
      "                ```";
      "";
      "                Please rewrite the complete code so that only sensible length output is written to the file. ";
      "                " ].

Definition _get_issues_for_output_file_content
    (requirement : OutputFileRequirement) (filename content : string) : M (list RunIssue) :=
  let issue :=
    if bool_decide (strip content = EmptyString)
    then Some (dedent_triple_quote_str (output_file_empty_text filename))
    else None in
  issue <-
    (if max_tokens requirement <? count_number_of_tokens_in_message content then
       text <- format (dedent_triple_quote_str output_file_too_long_template)
                 [filename; extract_to_nearest_newline content (max_tokens requirement)] [] ;;
       ret (Some text)
     else ret issue) ;;
  match issue with
  | Some text =>
      ret [ {| issue := text; comment := "Output file content"; end_with := None |} ]
  | None => ret []
  end.

(** [for x in xs: issues.extend(...)] or [issues.append(...)], gathered. *)
Fixpoint gather {A B} (xs : list A) (body : A -> M (list B)) : M (list B) :=
  match xs with
  | [] => ret []
  | x :: rest =>
      found <- body x ;;
      more <- gather rest body ;;
      ret (found ++ more)
  end.

(** [list(d[requirement].keys())] *)
Definition output_files_of (code_and_output : CodeAndOutput) (requirement : OutputFileRequirement)
  : M (list string) :=
  match getitem (requirements_to_output_files_to_contents code_and_output) requirement with
  | Some files_to_contents => ret (map fst files_to_contents)
  | None => raise (KeyError (filename requirement))
  end.

Definition too_few_files_text (requirement : OutputFileRequirement) (created : Z) : string :=
  triple_quote
    [ "";
      "                        The code was supposed to create at least "
        +:+ str_int (minimal_count requirement) +:+ " files "
        +:+ "                        of " +:+ dquote +:+ filename requirement +:+ dquote +:+ ", "
        +:+ "                        but it only created " +:+ str_int created
        +:+ " files of this type.";
      "                        " ].

Definition file_not_generated_text (requirement : OutputFileRequirement) : string :=
  triple_quote
    [ "";
      "                        The code didn't generate the desired output file ("
        +:+ filename requirement +:+ ").";
      "                        " ].

Definition _get_issues_for_num_files_created (code_and_output : CodeAndOutput)
  : M (list RunIssue) :=
  s <- self ;;
  gather (output_file_requirements s) (fun requirement =>
    output_files <- output_files_of code_and_output requirement ;;
    if Z.of_nat (length output_files) <? minimal_count requirement then
      let text :=
        if is_wildcard requirement
        then dedent_triple_quote_str
               (too_few_files_text requirement (Z.of_nat (length output_files)))
        else dedent_triple_quote_str (file_not_generated_text requirement) in
      ret [ {| issue := text;
               comment := "Code did not create all required files";
               end_with := None |} ]
    else ret []).

Definition unsaved_dataframes_text (read_but_unsaved_filenames : list string) : string :=
  triple_quote
    [ "";
      "                Your code modifies some of the dataframes:";
      "                " +:+ str_list read_but_unsaved_filenames +:+ ".";
      "                I would like the code to save any such modified dataframe.  ";
      "                Please rewrite the complete code again adding `to_csv` to save any modified dataframe in a new file "
        +:+ "                in the same directory as the code.";
      "                " ].

Definition _get_issues_for_unsaved_dataframes (code_and_output : CodeAndOutput)
  : M (list RunIssue) :=
  s <- self ;;
  let dataframe_operations := dataframe_operations code_and_output in
  if enforce_saving_altered_dataframes s
     && negb (bool_decide (get_read_changed_but_unsaved_ids dataframe_operations = []))
  then
    let read_but_unsaved_filenames :=
      get_read_filenames_from_ids dataframe_operations
        (get_read_changed_but_unsaved_ids dataframe_operations) in
    ret [ {| issue := dedent_triple_quote_str (unsaved_dataframes_text read_but_unsaved_filenames);
             comment := "Not all modified dataframes were saved";
             end_with := None |} ]
  else ret [].

Definition _get_issues_for_created_output_files (code_and_output : CodeAndOutput)
  : M (list RunIssue) :=
  s <- self ;;
  let files_to_contents := get_created_content_files_to_contents code_and_output in
  gather (output_file_requirements s) (fun requirement =>
    output_files <- output_files_of code_and_output requirement ;;
    if is_content requirement then
      gather output_files (fun filename =>
        match getitem files_to_contents filename with
        | Some content => _get_issues_for_output_file_content requirement filename content
        | None => raise (KeyError filename)
        end)
    else ret []).

Definition not_a_modification_text : string :=
  triple_quote
    [ "";
      "                Your code does not seem to be a modification of the previous code.";
      "                Please rewrite the complete code again, making sure that the new code is a modification of the old code.";
      "                " ].

(** [line_count(new_code) < line_count(old_code) * 0.9], on whole numbers:
    nine tenths of a count is a whole number or at least a tenth away from
    one, so the comparison is that of [10 * new] with [9 * old].  The count
    of the lines of [None] raises. *)
Definition _get_issue_for_new_code_not_being_a_modification_of_old_code
    (new_code : string) (old_code : option string) : M (option RunIssue) :=
  match old_code with
  | None => raise TypeError
  | Some old_code =>
      if 10 * line_count new_code <? 9 * line_count old_code then
        ret (Some {| issue := dedent_triple_quote_str not_a_modification_text;
                     comment := "Code is not a modification of previous code.";
                     end_with := None |})
      else ret None
  end.

(** *** Running code *)

Definition _get_code_runner (response : string) : M CodeRunner :=
  s <- self ;;
  log (BuildRunner response) ;;;
  ret (runner_cls response (data_filenames s) (output_file_requirements s)
         (allow_dataframes_to_change_existing_series s) None (data_folder s)).

(** [code_runner.extract_code()] *)
Definition extract (code_runner : CodeRunner) : M Extraction :=
  log ExtractCode ;;;
  ret (extract_code code_runner).

(** [code_runner.run_code()], on the files of the data folder. *)
Definition run (code_runner : CodeRunner) (code : string) : M RunOutcome :=
  log (RunCode code) ;;;
  s <- self ;;
  let result := run_code code_runner (working_directory s) in
  modify (set_working_directory result.2) ;;;
  ret result.1.

(** [os.remove(file)] inside [run_in_directory(self.data_folder)] *)
Definition os_remove (file : string) : M unit :=
  s <- self ;;
  if bool_decide (file ∈ working_directory s) then
    log (OsRemove file) ;;;
    modify (set_working_directory (working_directory s ∖ {[ file ]}))
  else raise (OsFileNotFoundError file).

(** [_get_code_and_respond_to_issues] is given in its four stages, last one
    first; the comments of the source mark them.

    "The code ran without raising exceptions.  We now check for issues in
    the output files as well as issues collected during the run." *)
Definition check_outputs
    (code : string) (code_and_output : CodeAndOutput) (collected : list RunIssue)
  : M (option CodeAndOutput) :=
  missing_files <- _get_issues_for_num_files_created code_and_output ;;
  unsaved <- _get_issues_for_unsaved_dataframes code_and_output ;;
  bad_content <- _get_issues_for_created_output_files code_and_output ;;
  let output_issues := missing_files ++ collected ++ unsaved ++ bad_content in
  if negb (bool_decide (output_issues = [])) then
    for_each (get_created_data_files code_and_output) os_remove ;;;
    _respond_to_issues (inr (map Some output_issues)) (Some code)
      (Some OutputFileContent) ;;;
    ret None
  else ret (Some code_and_output).

(** "Code passes static checks.  We can now run the code." *)
Definition run_extracted (code_runner : CodeRunner) (code : string)
  : M (option CodeAndOutput) :=
  outcome <- run code_runner code ;;
  match outcome with
  | Failed e =>
      run_time_issue <- classify_failure e code_runner ;;
      _respond_to_issues (inl run_time_issue) (Some code) (Some RuntimeError) ;;;
      ret None
  | Ran code_and_output collected => check_outputs code code_and_output collected
  end.

(** "We were able to extract the code.  We now statically check the code
    before running it."  The issue appended to the list may be [None]. *)
Definition check_statically (code_runner : CodeRunner) (code : string)
  : M (option CodeAndOutput) :=
  s <- self ;;
  modification_issues <-
    (if _requesting_small_change s then
       not_a_modification <-
         _get_issue_for_new_code_not_being_a_modification_of_old_code code (previous_code s) ;;
       ret [not_a_modification]
     else ret []) ;;
  static_issues <- _get_issues_for_static_code_check code ;;
  let static_code_check_issues := modification_issues ++ static_issues in
  if negb (bool_decide (static_code_check_issues = [])) then
    _respond_to_issues (inr static_code_check_issues) (Some code) (Some StaticCheck) ;;;
    ret None
  else run_extracted code_runner code.

(** "Try to extract the code." *)
Definition _get_code_and_respond_to_issues : M (option CodeAndOutput) :=
  s <- self ;;
  response <- apply_get_and_append_assistant_message (previous_code s) ;;
  code_runner <- _get_code_runner response ;;
  extraction <- extract code_runner ;;
  match extraction with
  | IncompleteBlockFailedExtractingBlock =>
      incomplete <- _get_issue_for_incomplete_code ;;
      _respond_to_issues (inl incomplete) None (Some IncompleteBlock) ;;;
      ret None
  | FailedExtractingBlock str_e =>
      missing <- _get_issue_for_missing_or_multiple_code str_e ;;
      _respond_to_issues (inl missing) None (Some NotSingleBlock) ;;;
      ret None
  | Extracted code => check_statically code_runner code
  end.

(** [range(start, stop)] *)
Definition range (start stop : Z) : list Z :=
  map (fun k => start + Z.of_nat k) (seq 0 (Z.to_nat (stop - start))).

(** The [for self.debug_iteration in range(...)] loop; [None] when the range
    is used up. *)
Fixpoint debug_iterations (iterations : list Z) : M (option CodeAndOutput) :=
  match iterations with
  | [] => ret None
  | i :: rest =>
      modify (set_debug_iteration i) ;;;
      code_and_output <- _get_code_and_respond_to_issues ;;
      match code_and_output with
      | Some result => ret (Some result)
      | None => debug_iterations rest
      end
  end.

Definition restart_message : string :=
  "It seems like we are not converging. Let's try again from the start." +:+ newline +:+
  "Please provide a fresh new attempt of the code.".

Definition run_debugging : M (option CodeAndOutput) :=
  initialize_conversation_if_needed ;;;
  s <- self ;;
  code_and_output <- debug_iterations (range 1 (max_debug_iterations s + 1)) ;;
  match code_and_output with
  | Some result => ret (Some result)
  | None =>
      apply_append_user_message restart_message None true ;;;
      _rewind_conversation_to_first_response ;;;
      ret None
  end.

End Controller.

Arguments Returned {_ _} a s.
Arguments Raised {_ _} e s.

(** * Vocabulary of the statements *)

(** The values that [fill] puts into the fields of a template, in order. *)
Fixpoint supply (pieces : list Piece) (args : list string) (kwargs : list (string * string))
  : PyError + list string :=
  match pieces with
  | [] => inr []
  | Char _ :: rest => supply rest args kwargs
  | Auto :: rest =>
      match args with
      | [] => inl IndexError
      | a :: args' =>
          match supply rest args' kwargs with
          | inr values => inr (a :: values)
          | inl e => inl e
          end
      end
  | Named name :: rest =>
      match getitem kwargs name with
      | None => inl (KeyError name)
      | Some v =>
          match supply rest args kwargs with
          | inr values => inr (v :: values)
          | inl e => inl e
          end
      end
  end.


Section Vocabulary.
Context `{the_text : Text} `{the_engine : Engine} `{the_world : !World}.

(** What a method added to the trace. *)
Definition new_events (before after : DebuggerConverser) : list Event :=
  drop (length (trace before)) (trace after).

(** The edit that a run of [_respond_to_issues] performed, read off the
    conversation methods it called: a rewind first is a re-post, a user
    message followed by the deletion of the last two messages is a
    regeneration, a user message alone leaves the conversation as it is. *)
Definition performed (events : list Event) : option Action :=
  match events with
  | [RewindToFirstResponse; AppendSurrogateMessage _; AppendUserMessage _] => Some repost
  | [AppendUserMessage _; DeleteMessages [-2; -1]] => Some regenerate
  | [AppendUserMessage _] => Some leave
  | _ => None
  end.

Definition user_message (content : string) (comment : option string) (ignore : bool)
  : Message.t :=
  {| Message.role := USER; Message.content := content;
     Message.comment := comment; Message.ignore := ignore |}.

Definition surrogate_message (content : string) (comment : option string) : Message.t :=
  {| Message.role := SURROGATE; Message.content := content;
     Message.comment := comment; Message.ignore := false |}.

(** The corrective message that [_respond_to_issues] posts from [s]. *)
Definition corrective_text
    (s : DebuggerConverser) (issues : RunIssue + list (option RunIssue)) (action : Action)
  : string :=
  (get_message_and_comment (as_list issues) (prompt_to_append_at_end_of_response s)).1
  +:+ regenerate_mark action.

Definition corrective_message
    (s : DebuggerConverser) (issues : RunIssue + list (option RunIssue)) (action : Action)
  : Message.t :=
  user_message (corrective_text s issues action)
    (Some (iteration_str s +:+ ": " +:+
           (get_message_and_comment (as_list issues)
              (prompt_to_append_at_end_of_response s)).2))
    false.

(** The text with which code is re-posted. *)
Definition fresh_code_text (code : option string) : string :=
  "Here is the code to perform the requested analysis:" +:+ newline +:+
  "```python" +:+ newline +:+ str_optional code +:+ newline +:+ "```".

Definition fresh_code_message (code : option string) : Message.t :=
  surrogate_message (fresh_code_text code)
    (Some "Code is freshly re-posted, as if it was the immediate response."%string).

(** A method that stops with [r] and leaves the controller as it found it. *)
Definition stops_with {A} (r : PyError + A) : M A :=
  fun s =>
    match r with
    | inr a => Returned a s
    | inl e => Raised e s
    end.

(** A method that only reads the controller: whatever it returns or raises,
    the controller is the one it started from. *)
Definition reads_only {A} (m : M A) : Prop :=
  forall s, exists r, m s = stops_with r s.

(** A method that does not even read it. *)
Definition stateless {A} (m : M A) : Prop :=
  exists r, forall s, m s = stops_with r s.

(** Calling a method twice in a row and keeping both results. *)
Definition twice {A} (m : M A) : M (A * A) :=
  bind m (fun first => bind m (fun second => ret (first, second))).

(** Calling it once and taking the result for both. *)
Definition once_for_both {A} (m : M A) : M (A * A) :=
  bind m (fun result => ret (result, result)).


(** The issue that tells the model not to read its own output file back. *)
Definition reads_output_file_issue (s : DebuggerConverser) (file : string) : RunIssue :=
  {| issue := dedent_triple_quote_str (forbidden_read_output_text file (data_filenames s));
     comment := "Code reads from output file";
     end_with := None |}.

Definition no_read_back_sentence : string :=
  "The code should create and write to this output file, but should not read from it.".

(** *** One iteration *)

Definition assistant_message (response : string) : Message.t :=
  {| Message.role := ASSISTANT; Message.content := response;
     Message.comment := None; Message.ignore := false |}.

(** The runner that an iteration starting from [s] builds. *)
Definition runner_at (s : DebuggerConverser) : CodeRunner :=
  runner_cls (chatgpt s) (data_filenames s) (output_file_requirements s)
    (allow_dataframes_to_change_existing_series s) None (data_folder s).

(** The first three effects of an iteration. *)
Definition opening (s : DebuggerConverser) : list Event :=
  [GetAssistantMessage (chatgpt s); BuildRunner (chatgpt s); ExtractCode].

(** The controller with one more event in its trace, and with one more
    message in its conversation. *)
Definition logged (ev : Event) (s : DebuggerConverser) : DebuggerConverser :=
  set_trace (trace s ++ [ev]) s.

Definition with_message (m : Message.t) (s : DebuggerConverser) : DebuggerConverser :=
  set_conversation (conversation s ++ [m]) s.

(** The controller when the runner has been asked for the code. *)
Definition extracting (s : DebuggerConverser) : DebuggerConverser :=
  logged ExtractCode
    (logged (BuildRunner (chatgpt s))
       (with_message (assistant_message (chatgpt s))
          (logged (GetAssistantMessage (chatgpt s)) s))).

(** The controller when the code has run and left the files [files]. *)
Definition ran (s : DebuggerConverser) (code : string) (files : gset string)
  : DebuggerConverser :=
  set_working_directory files (logged (RunCode code) (extracting s)).

(** The iteration gets as far as running code: a block is extracted and no
    static check is due. *)
Definition reaches_run (s : DebuggerConverser) : bool :=
  match extract_code (runner_at s) with
  | Extracted _ => negb (_requesting_small_change s)
  | _ => false
  end.

Definition is_get_assistant_message (ev : Event) : bool :=
  match ev with GetAssistantMessage _ => true | _ => false end.

Definition is_build_runner (ev : Event) : bool :=
  match ev with BuildRunner _ => true | _ => false end.

Definition is_extract_code (ev : Event) : bool :=
  match ev with ExtractCode => true | _ => false end.

Definition is_run_code (ev : Event) : bool :=
  match ev with RunCode _ => true | _ => false end.

(** How many of the events satisfy [kind]. *)
Definition count (kind : Event -> bool) (events : list Event) : Z :=
  Z.of_nat (length (List.filter kind events)).

(** Events that are none of the four above: edits of the conversation and
    removals of files. *)
Definition quiet (events : list Event) : Prop :=
  Forall (fun ev => is_get_assistant_message ev = false /\ is_build_runner ev = false /\
                    is_extract_code ev = false /\ is_run_code ev = false) events.

(** A method that adds only such events to the trace and keeps the saved
    position of the first response. *)
Definition quiet_method {A} (m : M A) : Prop :=
  forall s, exists events,
    trace (final (m s)) = trace s ++ events /\ quiet events /\
    _conversation_len_before_first_response (final (m s)) =
    _conversation_len_before_first_response s.

(** *** The loop *)

(** An iteration fails: it returns without a result. *)
Definition fails (s : DebuggerConverser) : Prop :=
  exists s', _get_code_and_respond_to_issues s = Returned None s'.

(** The controller at the start of each of the next [k] iterations, the
    first of them numbered [i]. *)
Fixpoint iteration_starts (k : nat) (i : Z) (s : DebuggerConverser)
  : list DebuggerConverser :=
  match k with
  | O => []
  | S k' =>
      set_debug_iteration i s ::
      iteration_starts k' (i + 1)
        (final (_get_code_and_respond_to_issues (set_debug_iteration i s)))
  end.

(** The controller after them. *)
Fixpoint after_iterations (k : nat) (i : Z) (s : DebuggerConverser) : DebuggerConverser :=
  match k with
  | O => s
  | S k' =>
      after_iterations k' (i + 1)
        (final (_get_code_and_respond_to_issues (set_debug_iteration i s)))
  end.

(** *** What an iteration leaves alone *)

(** An iteration gives up: it returns without a result, so that the loop
    goes on. *)
Definition gives_up (o : Outcome (option CodeAndOutput)) : bool :=
  match o with
  | Returned None _ => true
  | _ => false
  end.

(** The part of the controller that is set when it is built. *)
Record Configuration := {
  the_data_folder : string;
  the_data_filenames : list string;
  the_output_file_requirements : list OutputFileRequirement;
  the_allow_dataframes_to_change_existing_series : bool;
  the_enforce_saving_altered_dataframes : bool;
  the_supported_packages : list string;
  the_prompt_to_append_at_end_of_response : string;
  the_max_debug_iterations : Z;
  the_conversation_len_before_first_response : Z
}.

Definition configuration (s : DebuggerConverser) : Configuration :=
  {| the_data_folder := data_folder s;
     the_data_filenames := data_filenames s;
     the_output_file_requirements := output_file_requirements s;
     the_allow_dataframes_to_change_existing_series :=
       allow_dataframes_to_change_existing_series s;
     the_enforce_saving_altered_dataframes := enforce_saving_altered_dataframes s;
     the_supported_packages := supported_packages s;
     the_prompt_to_append_at_end_of_response := prompt_to_append_at_end_of_response s;
     the_max_debug_iterations := max_debug_iterations s;
     the_conversation_len_before_first_response :=
       _conversation_len_before_first_response s |}.

(** A method that leaves it and the number of the iteration as they are,
    whether it returns or raises. *)
Definition keeps_configuration {A} (m : M A) : Prop :=
  forall s,
    configuration (final (m s)) = configuration s /\
    debug_iteration (final (m s)) = debug_iteration s.

(** *** The files of a requirement *)

(** The run created fewer files for the requirement than it asks for. *)
Definition falls_short (code_and_output : CodeAndOutput) (requirement : OutputFileRequirement)
  : bool :=
  match getitem (requirements_to_output_files_to_contents code_and_output) requirement with
  | Some files_to_contents =>
      Z.of_nat (length files_to_contents) <? minimal_count requirement
  | None => false
  end.

(** A file name as the descriptions quote it. *)
Definition quoted (name : string) : string := dquote +:+ name +:+ dquote.

End Vocabulary.

(** * A small world to run the controller in

    Concrete collaborators, used to evaluate the definitions: text helpers
    that leave the text alone, three engines in a row, a model that always
    gives the same reply, and a runner whose behaviour is fixed by that
    reply. *)

Module Demo.

#[export] Instance plain_text : Text :=
  {| dedent_triple_quote_str := fun text => text;
     dedent_triple_quote_str_fields := fun template => eq_refl;
     repr := fun text => "'" +:+ text +:+ "'";
     line_count := fun text => Z.of_nat (String.length text);
     count_number_of_tokens_in_message := fun text => Z.of_nat (String.length text);
     extract_to_nearest_newline := fun text budget => text;
     strip := fun text => text |}.

#[export] Instance three_engines : Engine :=
  {| ModelEngine := nat;
     engine_lt := Nat.ltb;
     get_next := S;
     MAX_MODEL_ENGINE := 2%nat;
     engine_str := fun engine => "engine-" +:+ str_int (Z.of_nat engine) |}.

Definition out_txt : OutputFileRequirement :=
  {| filename := "out.txt"; minimal_count := 1; is_wildcard := false;
     is_content := true; max_tokens := 100 |}.

(** An exception of a class that the dispatch table does not list. *)
Definition zero_division : PyException :=
  {| classes := [OtherClass "ZeroDivisionError"; OtherClass "ArithmeticError";
                 OtherClass "Exception"];
     exc_str := "division by zero";
     fromlist := None; func := ""; method_name := ""; module := ""; file := "";
     un_allowed_files := []; changed_series := ""; message := "" |}.

Definition failed_dividing : FailedRunningCode :=
  {| exception := zero_division;
     failure_classes := [OtherClass "FailedRunningCode"; OtherClass "Exception"];
     get_traceback_message := fun lines_added =>
       "line " +:+ str_int (7 - lines_added) +:+ ": ZeroDivisionError: division by zero" |}.


(** A read of the output file, and one of a file that is no input. *)
Definition read_of (name : string) : PyException :=
  {| classes := [CodeReadForbiddenFile; OtherClass "Exception"];
     exc_str := "forbidden read";
     fromlist := None; func := ""; method_name := ""; module := ""; file := name;
     un_allowed_files := []; changed_series := ""; message := "" |}.

(** A run that wrote a scratch file and not the required output. *)
Definition nothing_required : CodeAndOutput :=
  {| requirements_to_output_files_to_contents := [(out_txt, [])];
     dataframe_operations :=
       {| get_read_changed_but_unsaved_ids := [];
          get_read_filenames_from_ids := fun ids => [] |};
     get_created_content_files_to_contents := [];
     get_created_data_files := ["scratch.csv"%string] |}.

(** The runner: the reply decides what it finds and what running does. *)
Definition scripted_runner (response : string) : CodeRunner :=
  if decide (response = "incomplete"%string) then
    {| extract_code := IncompleteBlockFailedExtractingBlock;
       run_code := fun files => (Failed failed_dividing, files);
       lines_added_in_front_of_code := 0 |}
  else if decide (response = "two blocks"%string) then
    {| extract_code := FailedExtractingBlock "More than one code snippet were found.";
       run_code := fun files => (Failed failed_dividing, files);
       lines_added_in_front_of_code := 0 |}
  else if decide (response = "divide"%string) then
    {| extract_code := Extracted "print(1 / 0)";
       run_code := fun files => (Failed failed_dividing, files);
       lines_added_in_front_of_code := 2 |}
  else
    {| extract_code := Extracted "df.to_csv('scratch.csv')";
       run_code := fun files =>
         (Ran nothing_required [], files ∪ {[ "scratch.csv"%string ]});
       lines_added_in_front_of_code := 2 |}.

Definition issue_text (i : option RunIssue) : string :=
  match i with
  | Some found => issue found
  | None => "None"
  end.

Definition issue_comment (i : option RunIssue) : string :=
  match i with
  | Some found => comment found
  | None => "None"
  end.

(** The world in which the model always replies [reply]. *)
Definition replying (reply : string) : World :=
  {| chatgpt := fun s => reply;
     runner_cls := fun response allowed requirements allow_change script folder =>
       scripted_runner response;
     get_message_and_comment := fun issues end_with =>
       (join newline (map issue_text issues) +:+ newline +:+ end_with,
        join "; " (map issue_comment issues));
     do_all_issues_request_small_change := fun issues => false;
     get_single_content_file_from_requirements := fun requirements =>
       match List.filter is_content requirements with
       | [only] => Some (filename only)
       | _ => None
       end;
     initialize_conversation := fun s => s |}.

Definition request : list Message.t :=
  [ {| Message.role := SYSTEM; Message.content := "You are a scientist.";
       Message.comment := None; Message.ignore := false |};
    {| Message.role := USER; Message.content := "Please write the analysis code.";
       Message.comment := None; Message.ignore := false |} ].

(** A controller at the start of a session of [budget] iterations. *)
Definition fresh (budget : Z) : DebuggerConverser :=
  {| data_folder := "data";
     data_filenames := ["data.csv"%string];
     output_file_requirements := [out_txt];
     allow_dataframes_to_change_existing_series := true;
     enforce_saving_altered_dataframes := false;
     supported_packages := ["numpy"; "pandas"; "statsmodels"]%string;
     prompt_to_append_at_end_of_response := "Please rewrite the complete code again.";
     max_debug_iterations := budget;
     debug_iteration := 0;
     previous_code := None;
     _requesting_small_change := false;
     _previous_code_problem := Some NoCode;
     model_engine := 0%nat;
     conversation := request;
     _conversation_len_before_first_response := 2;
     working_directory := {[ "data.csv"%string ]};
     trace := [] |}.

Definition reply_message (content : string) : Message.t :=
  {| Message.role := ASSISTANT; Message.content := content;
     Message.comment := None; Message.ignore := false |}.

(** The same controller when the model has answered once, and twice. *)
Definition answered_once (budget : Z) : DebuggerConverser :=
  set_conversation (request ++ [reply_message "first answer"]) (fresh budget).

Definition answered_twice (budget : Z) : DebuggerConverser :=
  set_conversation
    (request ++ [reply_message "first answer";
                 {| Message.role := USER; Message.content := "There is a bug.";
                    Message.comment := None; Message.ignore := false |};
                 reply_message "second answer"])
    (fresh budget).

Definition some_issue : RunIssue :=
  {| issue := "Something is wrong."; comment := "demo"; end_with := None |}.

(** What a call returned, [default] when it raised. *)
Definition returned_or {A} (default : A) (o : Outcome A) : A :=
  match o with
  | Returned a _ => a
  | Raised _ _ => default
  end.

(** The worlds of the three kinds of reply. *)
Definition always_incomplete : World := replying "incomplete".
Definition always_dividing : World := replying "divide".
Definition always_saving : World := replying "save".

(** *** More replies *)

(** The failure of a run that left a file it may not create. *)
Definition files_without_permission : PyException :=
  {| classes := [UnAllowedFilesCreated; OtherClass "Exception"];
     exc_str := "notes.txt";
     fromlist := None; func := ""; method_name := ""; module := ""; file := "";
     un_allowed_files := ["notes.txt"%string]; changed_series := ""; message := "" |}.

Definition failed_littering : FailedRunningCode :=
  {| exception := files_without_permission;
     failure_classes := [OtherClass "FailedRunningCode"; OtherClass "Exception"];
     get_traceback_message := fun lines_added => "UnAllowedFilesCreated: notes.txt" |}.

Definition no_dataframes : DataframeOperations :=
  {| get_read_changed_but_unsaved_ids := [];
     get_read_filenames_from_ids := fun ids => [] |}.

(** A run that wrote the required output. *)
Definition written_output : CodeAndOutput :=
  {| requirements_to_output_files_to_contents :=
       [(out_txt, [("out.txt"%string, "mean = 3"%string)])];
     dataframe_operations := no_dataframes;
     get_created_content_files_to_contents := [("out.txt"%string, "mean = 3"%string)];
     get_created_data_files := [] |}.

(** A run that reports a data file it did not leave in the folder. *)
Definition ghost_output : CodeAndOutput :=
  {| requirements_to_output_files_to_contents := [(out_txt, [])];
     dataframe_operations := no_dataframes;
     get_created_content_files_to_contents := [];
     get_created_data_files := ["scratch.csv"; "ghost.csv"]%string |}.

Definition second_runner (response : string) : CodeRunner :=
  if decide (response = "litter"%string) then
    {| extract_code := Extracted "open('notes.txt', 'w')";
       run_code := fun files => (Failed failed_littering, files ∪ {[ "notes.txt"%string ]});
       lines_added_in_front_of_code := 2 |}
  else if decide (response = "write"%string) then
    {| extract_code := Extracted "open('out.txt', 'w').write('mean = 3')";
       run_code := fun files => (Ran written_output [], files ∪ {[ "out.txt"%string ]});
       lines_added_in_front_of_code := 2 |}
  else if decide (response = "ghost"%string) then
    {| extract_code := Extracted "df.to_csv('scratch.csv')";
       run_code := fun files => (Ran ghost_output [], files ∪ {[ "scratch.csv"%string ]});
       lines_added_in_front_of_code := 2 |}
  else scripted_runner response.

(** The world in which the reply depends on the controller. *)
Definition answering (reply : DebuggerConverser -> string) : World :=
  {| chatgpt := reply;
     runner_cls := fun response allowed requirements allow_change script folder =>
       second_runner response;
     get_message_and_comment := fun issues end_with =>
       (join newline (map issue_text issues) +:+ newline +:+ end_with,
        join "; " (map issue_comment issues));
     do_all_issues_request_small_change := fun issues => false;
     get_single_content_file_from_requirements := fun requirements =>
       match List.filter is_content requirements with
       | [only] => Some (filename only)
       | _ => None
       end;
     initialize_conversation := fun s => s |}.

Definition always_littering : World := answering (fun s => "litter"%string).
Definition always_writing : World := answering (fun s => "write"%string).
Definition leaving_a_ghost : World := answering (fun s => "ghost"%string).

(** A division by zero in the first iteration, the output from the second. *)
Definition improving : World :=
  answering (fun s => if debug_iteration s =? 1 then "divide"%string else "write"%string).



(** A controller that has asked for a small change of [old_code]. *)
Definition asked_for_a_small_change (old_code : string) : DebuggerConverser :=
  set_requesting_small_change true (set_previous_code (Some old_code) (answered_once 5)).

End Demo.

(** * Properties *)

(** ** Reading a field after an update

    One equation for each field and each update.  They are used as rewrite
    rules, so that an updated controller is never unfolded. *)

Section Fields.
Context `{the_engine : Engine}.
Implicit Type s : DebuggerConverser.

(** [set_debug_iteration] *)
Lemma data_folder_set_debug_iteration v s :
  data_folder (set_debug_iteration v s) = data_folder s.
Proof. reflexivity. Qed.
Lemma data_filenames_set_debug_iteration v s :
  data_filenames (set_debug_iteration v s) = data_filenames s.
Proof. reflexivity. Qed.
Lemma output_file_requirements_set_debug_iteration v s :
  output_file_requirements (set_debug_iteration v s) = output_file_requirements s.
Proof. reflexivity. Qed.
Lemma allow_dataframes_to_change_existing_series_set_debug_iteration v s :
  allow_dataframes_to_change_existing_series (set_debug_iteration v s) = allow_dataframes_to_change_existing_series s.
Proof. reflexivity. Qed.
Lemma enforce_saving_altered_dataframes_set_debug_iteration v s :
  enforce_saving_altered_dataframes (set_debug_iteration v s) = enforce_saving_altered_dataframes s.
Proof. reflexivity. Qed.
Lemma supported_packages_set_debug_iteration v s :
  supported_packages (set_debug_iteration v s) = supported_packages s.
Proof. reflexivity. Qed.
Lemma prompt_to_append_at_end_of_response_set_debug_iteration v s :
  prompt_to_append_at_end_of_response (set_debug_iteration v s) = prompt_to_append_at_end_of_response s.
Proof. reflexivity. Qed.
Lemma max_debug_iterations_set_debug_iteration v s :
  max_debug_iterations (set_debug_iteration v s) = max_debug_iterations s.
Proof. reflexivity. Qed.
Lemma debug_iteration_set_debug_iteration v s :
  debug_iteration (set_debug_iteration v s) = v.
Proof. reflexivity. Qed.
Lemma previous_code_set_debug_iteration v s :
  previous_code (set_debug_iteration v s) = previous_code s.
Proof. reflexivity. Qed.
Lemma requesting_small_change_set_debug_iteration v s :
  _requesting_small_change (set_debug_iteration v s) = _requesting_small_change s.
Proof. reflexivity. Qed.
Lemma previous_code_problem_set_debug_iteration v s :
  _previous_code_problem (set_debug_iteration v s) = _previous_code_problem s.
Proof. reflexivity. Qed.
Lemma model_engine_set_debug_iteration v s :
  model_engine (set_debug_iteration v s) = model_engine s.
Proof. reflexivity. Qed.
Lemma conversation_set_debug_iteration v s :
  conversation (set_debug_iteration v s) = conversation s.
Proof. reflexivity. Qed.
Lemma conversation_len_before_first_response_set_debug_iteration v s :
  _conversation_len_before_first_response (set_debug_iteration v s) = _conversation_len_before_first_response s.
Proof. reflexivity. Qed.
Lemma working_directory_set_debug_iteration v s :
  working_directory (set_debug_iteration v s) = working_directory s.
Proof. reflexivity. Qed.
Lemma trace_set_debug_iteration v s :
  trace (set_debug_iteration v s) = trace s.
Proof. reflexivity. Qed.

(** [set_previous_code] *)
Lemma data_folder_set_previous_code v s :
  data_folder (set_previous_code v s) = data_folder s.
Proof. reflexivity. Qed.
Lemma data_filenames_set_previous_code v s :
  data_filenames (set_previous_code v s) = data_filenames s.
Proof. reflexivity. Qed.
Lemma output_file_requirements_set_previous_code v s :
  output_file_requirements (set_previous_code v s) = output_file_requirements s.
Proof. reflexivity. Qed.
Lemma allow_dataframes_to_change_existing_series_set_previous_code v s :
  allow_dataframes_to_change_existing_series (set_previous_code v s) = allow_dataframes_to_change_existing_series s.
Proof. reflexivity. Qed.
Lemma enforce_saving_altered_dataframes_set_previous_code v s :
  enforce_saving_altered_dataframes (set_previous_code v s) = enforce_saving_altered_dataframes s.
Proof. reflexivity. Qed.
Lemma supported_packages_set_previous_code v s :
  supported_packages (set_previous_code v s) = supported_packages s.
Proof. reflexivity. Qed.
Lemma prompt_to_append_at_end_of_response_set_previous_code v s :
  prompt_to_append_at_end_of_response (set_previous_code v s) = prompt_to_append_at_end_of_response s.
Proof. reflexivity. Qed.
Lemma max_debug_iterations_set_previous_code v s :
  max_debug_iterations (set_previous_code v s) = max_debug_iterations s.
Proof. reflexivity. Qed.
Lemma debug_iteration_set_previous_code v s :
  debug_iteration (set_previous_code v s) = debug_iteration s.
Proof. reflexivity. Qed.
Lemma previous_code_set_previous_code v s :
  previous_code (set_previous_code v s) = v.
Proof. reflexivity. Qed.
Lemma requesting_small_change_set_previous_code v s :
  _requesting_small_change (set_previous_code v s) = _requesting_small_change s.
Proof. reflexivity. Qed.
Lemma previous_code_problem_set_previous_code v s :
  _previous_code_problem (set_previous_code v s) = _previous_code_problem s.
Proof. reflexivity. Qed.
Lemma model_engine_set_previous_code v s :
  model_engine (set_previous_code v s) = model_engine s.
Proof. reflexivity. Qed.
Lemma conversation_set_previous_code v s :
  conversation (set_previous_code v s) = conversation s.
Proof. reflexivity. Qed.
Lemma conversation_len_before_first_response_set_previous_code v s :
  _conversation_len_before_first_response (set_previous_code v s) = _conversation_len_before_first_response s.
Proof. reflexivity. Qed.
Lemma working_directory_set_previous_code v s :
  working_directory (set_previous_code v s) = working_directory s.
Proof. reflexivity. Qed.
Lemma trace_set_previous_code v s : trace (set_previous_code v s) = trace s.
Proof. reflexivity. Qed.

(** [set_requesting_small_change] *)
Lemma data_folder_set_requesting_small_change v s :
  data_folder (set_requesting_small_change v s) = data_folder s.
Proof. reflexivity. Qed.
Lemma data_filenames_set_requesting_small_change v s :
  data_filenames (set_requesting_small_change v s) = data_filenames s.
Proof. reflexivity. Qed.
Lemma output_file_requirements_set_requesting_small_change v s :
  output_file_requirements (set_requesting_small_change v s) = output_file_requirements s.
Proof. reflexivity. Qed.
Lemma allow_dataframes_to_change_existing_series_set_requesting_small_change v s :
  allow_dataframes_to_change_existing_series (set_requesting_small_change v s) = allow_dataframes_to_change_existing_series s.
Proof. reflexivity. Qed.
Lemma enforce_saving_altered_dataframes_set_requesting_small_change v s :
  enforce_saving_altered_dataframes (set_requesting_small_change v s) = enforce_saving_altered_dataframes s.
Proof. reflexivity. Qed.
Lemma supported_packages_set_requesting_small_change v s :
  supported_packages (set_requesting_small_change v s) = supported_packages s.
Proof. reflexivity. Qed.
Lemma prompt_to_append_at_end_of_response_set_requesting_small_change v s :
  prompt_to_append_at_end_of_response (set_requesting_small_change v s) = prompt_to_append_at_end_of_response s.
Proof. reflexivity. Qed.
Lemma max_debug_iterations_set_requesting_small_change v s :
  max_debug_iterations (set_requesting_small_change v s) = max_debug_iterations s.
Proof. reflexivity. Qed.
Lemma debug_iteration_set_requesting_small_change v s :
  debug_iteration (set_requesting_small_change v s) = debug_iteration s.
Proof. reflexivity. Qed.
Lemma previous_code_set_requesting_small_change v s :
  previous_code (set_requesting_small_change v s) = previous_code s.
Proof. reflexivity. Qed.
Lemma requesting_small_change_set_requesting_small_change v s :
  _requesting_small_change (set_requesting_small_change v s) = v.
Proof. reflexivity. Qed.
Lemma previous_code_problem_set_requesting_small_change v s :
  _previous_code_problem (set_requesting_small_change v s) = _previous_code_problem s.
Proof. reflexivity. Qed.
Lemma model_engine_set_requesting_small_change v s :
  model_engine (set_requesting_small_change v s) = model_engine s.
Proof. reflexivity. Qed.
Lemma conversation_set_requesting_small_change v s :
  conversation (set_requesting_small_change v s) = conversation s.
Proof. reflexivity. Qed.
Lemma conversation_len_before_first_response_set_requesting_small_change v s :
  _conversation_len_before_first_response (set_requesting_small_change v s) = _conversation_len_before_first_response s.
Proof. reflexivity. Qed.
Lemma working_directory_set_requesting_small_change v s :
  working_directory (set_requesting_small_change v s) = working_directory s.
Proof. reflexivity. Qed.
Lemma trace_set_requesting_small_change v s :
  trace (set_requesting_small_change v s) = trace s.
Proof. reflexivity. Qed.

(** [set_previous_code_problem] *)
Lemma data_folder_set_previous_code_problem v s :
  data_folder (set_previous_code_problem v s) = data_folder s.
Proof. reflexivity. Qed.
Lemma data_filenames_set_previous_code_problem v s :
  data_filenames (set_previous_code_problem v s) = data_filenames s.
Proof. reflexivity. Qed.
Lemma output_file_requirements_set_previous_code_problem v s :
  output_file_requirements (set_previous_code_problem v s) = output_file_requirements s.
Proof. reflexivity. Qed.
Lemma allow_dataframes_to_change_existing_series_set_previous_code_problem v s :
  allow_dataframes_to_change_existing_series (set_previous_code_problem v s) = allow_dataframes_to_change_existing_series s.
Proof. reflexivity. Qed.
Lemma enforce_saving_altered_dataframes_set_previous_code_problem v s :
  enforce_saving_altered_dataframes (set_previous_code_problem v s) = enforce_saving_altered_dataframes s.
Proof. reflexivity. Qed.
Lemma supported_packages_set_previous_code_problem v s :
  supported_packages (set_previous_code_problem v s) = supported_packages s.
Proof. reflexivity. Qed.
Lemma prompt_to_append_at_end_of_response_set_previous_code_problem v s :
  prompt_to_append_at_end_of_response (set_previous_code_problem v s) = prompt_to_append_at_end_of_response s.
Proof. reflexivity. Qed.
Lemma max_debug_iterations_set_previous_code_problem v s :
  max_debug_iterations (set_previous_code_problem v s) = max_debug_iterations s.
Proof. reflexivity. Qed.
Lemma debug_iteration_set_previous_code_problem v s :
  debug_iteration (set_previous_code_problem v s) = debug_iteration s.
Proof. reflexivity. Qed.
Lemma previous_code_set_previous_code_problem v s :
  previous_code (set_previous_code_problem v s) = previous_code s.
Proof. reflexivity. Qed.
Lemma requesting_small_change_set_previous_code_problem v s :
  _requesting_small_change (set_previous_code_problem v s) = _requesting_small_change s.
Proof. reflexivity. Qed.
Lemma previous_code_problem_set_previous_code_problem v s :
  _previous_code_problem (set_previous_code_problem v s) = v.
Proof. reflexivity. Qed.
Lemma model_engine_set_previous_code_problem v s :
  model_engine (set_previous_code_problem v s) = model_engine s.
Proof. reflexivity. Qed.
Lemma conversation_set_previous_code_problem v s :
  conversation (set_previous_code_problem v s) = conversation s.
Proof. reflexivity. Qed.
Lemma conversation_len_before_first_response_set_previous_code_problem v s :
  _conversation_len_before_first_response (set_previous_code_problem v s) = _conversation_len_before_first_response s.
Proof. reflexivity. Qed.
Lemma working_directory_set_previous_code_problem v s :
  working_directory (set_previous_code_problem v s) = working_directory s.
Proof. reflexivity. Qed.
Lemma trace_set_previous_code_problem v s :
  trace (set_previous_code_problem v s) = trace s.
Proof. reflexivity. Qed.

(** [set_model_engine] *)
Lemma data_folder_set_model_engine v s :
  data_folder (set_model_engine v s) = data_folder s.
Proof. reflexivity. Qed.
Lemma data_filenames_set_model_engine v s :
  data_filenames (set_model_engine v s) = data_filenames s.
Proof. reflexivity. Qed.
Lemma output_file_requirements_set_model_engine v s :
  output_file_requirements (set_model_engine v s) = output_file_requirements s.
Proof. reflexivity. Qed.
Lemma allow_dataframes_to_change_existing_series_set_model_engine v s :
  allow_dataframes_to_change_existing_series (set_model_engine v s) = allow_dataframes_to_change_existing_series s.
Proof. reflexivity. Qed.
Lemma enforce_saving_altered_dataframes_set_model_engine v s :
  enforce_saving_altered_dataframes (set_model_engine v s) = enforce_saving_altered_dataframes s.
Proof. reflexivity. Qed.
Lemma supported_packages_set_model_engine v s :
  supported_packages (set_model_engine v s) = supported_packages s.
Proof. reflexivity. Qed.
Lemma prompt_to_append_at_end_of_response_set_model_engine v s :
  prompt_to_append_at_end_of_response (set_model_engine v s) = prompt_to_append_at_end_of_response s.
Proof. reflexivity. Qed.
Lemma max_debug_iterations_set_model_engine v s :
  max_debug_iterations (set_model_engine v s) = max_debug_iterations s.
Proof. reflexivity. Qed.
Lemma debug_iteration_set_model_engine v s :
  debug_iteration (set_model_engine v s) = debug_iteration s.
Proof. reflexivity. Qed.
Lemma previous_code_set_model_engine v s :
  previous_code (set_model_engine v s) = previous_code s.
Proof. reflexivity. Qed.
Lemma requesting_small_change_set_model_engine v s :
  _requesting_small_change (set_model_engine v s) = _requesting_small_change s.
Proof. reflexivity. Qed.
Lemma previous_code_problem_set_model_engine v s :
  _previous_code_problem (set_model_engine v s) = _previous_code_problem s.
Proof. reflexivity. Qed.
Lemma model_engine_set_model_engine v s :
  model_engine (set_model_engine v s) = v.
Proof. reflexivity. Qed.
Lemma conversation_set_model_engine v s :
  conversation (set_model_engine v s) = conversation s.
Proof. reflexivity. Qed.
Lemma conversation_len_before_first_response_set_model_engine v s :
  _conversation_len_before_first_response (set_model_engine v s) = _conversation_len_before_first_response s.
Proof. reflexivity. Qed.
Lemma working_directory_set_model_engine v s :
  working_directory (set_model_engine v s) = working_directory s.
Proof. reflexivity. Qed.
Lemma trace_set_model_engine v s : trace (set_model_engine v s) = trace s.
Proof. reflexivity. Qed.

(** [set_conversation] *)
Lemma data_folder_set_conversation v s :
  data_folder (set_conversation v s) = data_folder s.
Proof. reflexivity. Qed.
Lemma data_filenames_set_conversation v s :
  data_filenames (set_conversation v s) = data_filenames s.
Proof. reflexivity. Qed.
Lemma output_file_requirements_set_conversation v s :
  output_file_requirements (set_conversation v s) = output_file_requirements s.
Proof. reflexivity. Qed.
Lemma allow_dataframes_to_change_existing_series_set_conversation v s :
  allow_dataframes_to_change_existing_series (set_conversation v s) = allow_dataframes_to_change_existing_series s.
Proof. reflexivity. Qed.
Lemma enforce_saving_altered_dataframes_set_conversation v s :
  enforce_saving_altered_dataframes (set_conversation v s) = enforce_saving_altered_dataframes s.
Proof. reflexivity. Qed.
Lemma supported_packages_set_conversation v s :
  supported_packages (set_conversation v s) = supported_packages s.
Proof. reflexivity. Qed.
Lemma prompt_to_append_at_end_of_response_set_conversation v s :
  prompt_to_append_at_end_of_response (set_conversation v s) = prompt_to_append_at_end_of_response s.
Proof. reflexivity. Qed.
Lemma max_debug_iterations_set_conversation v s :
  max_debug_iterations (set_conversation v s) = max_debug_iterations s.
Proof. reflexivity. Qed.
Lemma debug_iteration_set_conversation v s :
  debug_iteration (set_conversation v s) = debug_iteration s.
Proof. reflexivity. Qed.
Lemma previous_code_set_conversation v s :
  previous_code (set_conversation v s) = previous_code s.
Proof. reflexivity. Qed.
Lemma requesting_small_change_set_conversation v s :
  _requesting_small_change (set_conversation v s) = _requesting_small_change s.
Proof. reflexivity. Qed.
Lemma previous_code_problem_set_conversation v s :
  _previous_code_problem (set_conversation v s) = _previous_code_problem s.
Proof. reflexivity. Qed.
Lemma model_engine_set_conversation v s :
  model_engine (set_conversation v s) = model_engine s.
Proof. reflexivity. Qed.
Lemma conversation_set_conversation v s :
  conversation (set_conversation v s) = v.
Proof. reflexivity. Qed.
Lemma conversation_len_before_first_response_set_conversation v s :
  _conversation_len_before_first_response (set_conversation v s) = _conversation_len_before_first_response s.
Proof. reflexivity. Qed.
Lemma working_directory_set_conversation v s :
  working_directory (set_conversation v s) = working_directory s.
Proof. reflexivity. Qed.
Lemma trace_set_conversation v s : trace (set_conversation v s) = trace s.
Proof. reflexivity. Qed.

(** [set_working_directory] *)
Lemma data_folder_set_working_directory v s :
  data_folder (set_working_directory v s) = data_folder s.
Proof. reflexivity. Qed.
Lemma data_filenames_set_working_directory v s :
  data_filenames (set_working_directory v s) = data_filenames s.
Proof. reflexivity. Qed.
Lemma output_file_requirements_set_working_directory v s :
  output_file_requirements (set_working_directory v s) = output_file_requirements s.
Proof. reflexivity. Qed.
Lemma allow_dataframes_to_change_existing_series_set_working_directory v s :
  allow_dataframes_to_change_existing_series (set_working_directory v s) = allow_dataframes_to_change_existing_series s.
Proof. reflexivity. Qed.
Lemma enforce_saving_altered_dataframes_set_working_directory v s :
  enforce_saving_altered_dataframes (set_working_directory v s) = enforce_saving_altered_dataframes s.
Proof. reflexivity. Qed.
Lemma supported_packages_set_working_directory v s :
  supported_packages (set_working_directory v s) = supported_packages s.
Proof. reflexivity. Qed.
Lemma prompt_to_append_at_end_of_response_set_working_directory v s :
  prompt_to_append_at_end_of_response (set_working_directory v s) = prompt_to_append_at_end_of_response s.
Proof. reflexivity. Qed.
Lemma max_debug_iterations_set_working_directory v s :
  max_debug_iterations (set_working_directory v s) = max_debug_iterations s.
Proof. reflexivity. Qed.
Lemma debug_iteration_set_working_directory v s :
  debug_iteration (set_working_directory v s) = debug_iteration s.
Proof. reflexivity. Qed.
Lemma previous_code_set_working_directory v s :
  previous_code (set_working_directory v s) = previous_code s.
Proof. reflexivity. Qed.
Lemma requesting_small_change_set_working_directory v s :
  _requesting_small_change (set_working_directory v s) = _requesting_small_change s.
Proof. reflexivity. Qed.
Lemma previous_code_problem_set_working_directory v s :
  _previous_code_problem (set_working_directory v s) = _previous_code_problem s.
Proof. reflexivity. Qed.
Lemma model_engine_set_working_directory v s :
  model_engine (set_working_directory v s) = model_engine s.
Proof. reflexivity. Qed.
Lemma conversation_set_working_directory v s :
  conversation (set_working_directory v s) = conversation s.
Proof. reflexivity. Qed.
Lemma conversation_len_before_first_response_set_working_directory v s :
  _conversation_len_before_first_response (set_working_directory v s) = _conversation_len_before_first_response s.
Proof. reflexivity. Qed.
Lemma working_directory_set_working_directory v s :
  working_directory (set_working_directory v s) = v.
Proof. reflexivity. Qed.
Lemma trace_set_working_directory v s :
  trace (set_working_directory v s) = trace s.
Proof. reflexivity. Qed.

(** [set_trace] *)
Lemma data_folder_set_trace v s : data_folder (set_trace v s) = data_folder s.
Proof. reflexivity. Qed.
Lemma data_filenames_set_trace v s :
  data_filenames (set_trace v s) = data_filenames s.
Proof. reflexivity. Qed.
Lemma output_file_requirements_set_trace v s :
  output_file_requirements (set_trace v s) = output_file_requirements s.
Proof. reflexivity. Qed.
Lemma allow_dataframes_to_change_existing_series_set_trace v s :
  allow_dataframes_to_change_existing_series (set_trace v s) = allow_dataframes_to_change_existing_series s.
Proof. reflexivity. Qed.
Lemma enforce_saving_altered_dataframes_set_trace v s :
  enforce_saving_altered_dataframes (set_trace v s) = enforce_saving_altered_dataframes s.
Proof. reflexivity. Qed.
Lemma supported_packages_set_trace v s :
  supported_packages (set_trace v s) = supported_packages s.
Proof. reflexivity. Qed.
Lemma prompt_to_append_at_end_of_response_set_trace v s :
  prompt_to_append_at_end_of_response (set_trace v s) = prompt_to_append_at_end_of_response s.
Proof. reflexivity. Qed.
Lemma max_debug_iterations_set_trace v s :
  max_debug_iterations (set_trace v s) = max_debug_iterations s.
Proof. reflexivity. Qed.
Lemma debug_iteration_set_trace v s :
  debug_iteration (set_trace v s) = debug_iteration s.
Proof. reflexivity. Qed.
Lemma previous_code_set_trace v s :
  previous_code (set_trace v s) = previous_code s.
Proof. reflexivity. Qed.
Lemma requesting_small_change_set_trace v s :
  _requesting_small_change (set_trace v s) = _requesting_small_change s.
Proof. reflexivity. Qed.
Lemma previous_code_problem_set_trace v s :
  _previous_code_problem (set_trace v s) = _previous_code_problem s.
Proof. reflexivity. Qed.
Lemma model_engine_set_trace v s :
  model_engine (set_trace v s) = model_engine s.
Proof. reflexivity. Qed.
Lemma conversation_set_trace v s :
  conversation (set_trace v s) = conversation s.
Proof. reflexivity. Qed.
Lemma conversation_len_before_first_response_set_trace v s :
  _conversation_len_before_first_response (set_trace v s) = _conversation_len_before_first_response s.
Proof. reflexivity. Qed.
Lemma working_directory_set_trace v s :
  working_directory (set_trace v s) = working_directory s.
Proof. reflexivity. Qed.
Lemma trace_set_trace v s : trace (set_trace v s) = v.
Proof. reflexivity. Qed.

End Fields.

Create Rewrite HintDb fields.
#[global] Hint Rewrite
  @data_folder_set_debug_iteration @data_filenames_set_debug_iteration
  @output_file_requirements_set_debug_iteration @allow_dataframes_to_change_existing_series_set_debug_iteration
  @enforce_saving_altered_dataframes_set_debug_iteration @supported_packages_set_debug_iteration
  @prompt_to_append_at_end_of_response_set_debug_iteration @max_debug_iterations_set_debug_iteration
  @debug_iteration_set_debug_iteration @previous_code_set_debug_iteration
  @requesting_small_change_set_debug_iteration @previous_code_problem_set_debug_iteration
  @model_engine_set_debug_iteration @conversation_set_debug_iteration
  @conversation_len_before_first_response_set_debug_iteration @working_directory_set_debug_iteration
  @trace_set_debug_iteration @data_folder_set_previous_code
  @data_filenames_set_previous_code @output_file_requirements_set_previous_code
  @allow_dataframes_to_change_existing_series_set_previous_code @enforce_saving_altered_dataframes_set_previous_code
  @supported_packages_set_previous_code @prompt_to_append_at_end_of_response_set_previous_code
  @max_debug_iterations_set_previous_code @debug_iteration_set_previous_code
  @previous_code_set_previous_code @requesting_small_change_set_previous_code
  @previous_code_problem_set_previous_code @model_engine_set_previous_code
  @conversation_set_previous_code @conversation_len_before_first_response_set_previous_code
  @working_directory_set_previous_code @trace_set_previous_code
  @data_folder_set_requesting_small_change @data_filenames_set_requesting_small_change
  @output_file_requirements_set_requesting_small_change @allow_dataframes_to_change_existing_series_set_requesting_small_change
  @enforce_saving_altered_dataframes_set_requesting_small_change @supported_packages_set_requesting_small_change
  @prompt_to_append_at_end_of_response_set_requesting_small_change @max_debug_iterations_set_requesting_small_change
  @debug_iteration_set_requesting_small_change @previous_code_set_requesting_small_change
  @requesting_small_change_set_requesting_small_change @previous_code_problem_set_requesting_small_change
  @model_engine_set_requesting_small_change @conversation_set_requesting_small_change
  @conversation_len_before_first_response_set_requesting_small_change @working_directory_set_requesting_small_change
  @trace_set_requesting_small_change @data_folder_set_previous_code_problem
  @data_filenames_set_previous_code_problem @output_file_requirements_set_previous_code_problem
  @allow_dataframes_to_change_existing_series_set_previous_code_problem @enforce_saving_altered_dataframes_set_previous_code_problem
  @supported_packages_set_previous_code_problem @prompt_to_append_at_end_of_response_set_previous_code_problem
  @max_debug_iterations_set_previous_code_problem @debug_iteration_set_previous_code_problem
  @previous_code_set_previous_code_problem @requesting_small_change_set_previous_code_problem
  @previous_code_problem_set_previous_code_problem @model_engine_set_previous_code_problem
  @conversation_set_previous_code_problem @conversation_len_before_first_response_set_previous_code_problem
  @working_directory_set_previous_code_problem @trace_set_previous_code_problem
  @data_folder_set_model_engine @data_filenames_set_model_engine
  @output_file_requirements_set_model_engine @allow_dataframes_to_change_existing_series_set_model_engine
  @enforce_saving_altered_dataframes_set_model_engine @supported_packages_set_model_engine
  @prompt_to_append_at_end_of_response_set_model_engine @max_debug_iterations_set_model_engine
  @debug_iteration_set_model_engine @previous_code_set_model_engine
  @requesting_small_change_set_model_engine @previous_code_problem_set_model_engine
  @model_engine_set_model_engine @conversation_set_model_engine
  @conversation_len_before_first_response_set_model_engine @working_directory_set_model_engine
  @trace_set_model_engine @data_folder_set_conversation
  @data_filenames_set_conversation @output_file_requirements_set_conversation
  @allow_dataframes_to_change_existing_series_set_conversation @enforce_saving_altered_dataframes_set_conversation
  @supported_packages_set_conversation @prompt_to_append_at_end_of_response_set_conversation
  @max_debug_iterations_set_conversation @debug_iteration_set_conversation
  @previous_code_set_conversation @requesting_small_change_set_conversation
  @previous_code_problem_set_conversation @model_engine_set_conversation
  @conversation_set_conversation @conversation_len_before_first_response_set_conversation
  @working_directory_set_conversation @trace_set_conversation
  @data_folder_set_working_directory @data_filenames_set_working_directory
  @output_file_requirements_set_working_directory @allow_dataframes_to_change_existing_series_set_working_directory
  @enforce_saving_altered_dataframes_set_working_directory @supported_packages_set_working_directory
  @prompt_to_append_at_end_of_response_set_working_directory @max_debug_iterations_set_working_directory
  @debug_iteration_set_working_directory @previous_code_set_working_directory
  @requesting_small_change_set_working_directory @previous_code_problem_set_working_directory
  @model_engine_set_working_directory @conversation_set_working_directory
  @conversation_len_before_first_response_set_working_directory @working_directory_set_working_directory
  @trace_set_working_directory @data_folder_set_trace
  @data_filenames_set_trace @output_file_requirements_set_trace
  @allow_dataframes_to_change_existing_series_set_trace @enforce_saving_altered_dataframes_set_trace
  @supported_packages_set_trace @prompt_to_append_at_end_of_response_set_trace
  @max_debug_iterations_set_trace @debug_iteration_set_trace
  @previous_code_set_trace @requesting_small_change_set_trace
  @previous_code_problem_set_trace @model_engine_set_trace
  @conversation_set_trace @conversation_len_before_first_response_set_trace
  @working_directory_set_trace @trace_set_trace
  : fields.

(** Read the fields of updated controllers. *)
Ltac project := autorewrite with fields.

(** ** Text and formatting *)

Arguments str_format : simpl never.
Arguments fresh_code_template : simpl never.

Lemma append_cons (c : ascii) (a b : string) : String c a +:+ b = String c (a +:+ b).
Proof. reflexivity. Qed.

Lemma append_nil_l (a : string) : EmptyString +:+ a = a.
Proof. reflexivity. Qed.

Lemma append_nil_r (a : string) : a +:+ EmptyString = a.
Proof. induction a as [|x a IH]; [reflexivity | rewrite append_cons, IH; reflexivity]. Qed.

Lemma append_assoc (a b c : string) : (a +:+ b) +:+ c = a +:+ (b +:+ c).
Proof.
  induction a as [|x a IH]; [reflexivity |].
  rewrite !append_cons, IH. reflexivity.
Qed.

Ltac string_normalize :=
  repeat (rewrite append_cons || rewrite append_nil_l || rewrite append_assoc).

Lemma occurs_in_refl (piece : string) : occurs_in piece piece.
Proof. exists EmptyString, EmptyString. rewrite append_nil_r. reflexivity. Qed.

Lemma occurs_in_here (piece after : string) : occurs_in piece (piece +:+ after).
Proof. exists EmptyString, after. reflexivity. Qed.

Lemma occurs_in_later (piece before text : string) :
  occurs_in piece text -> occurs_in piece (before +:+ text).
Proof.
  intros (b & a & ->). exists (before +:+ b), a.
  rewrite append_assoc. reflexivity.
Qed.

Lemma occurs_in_trans (a b c : string) : occurs_in a b -> occurs_in b c -> occurs_in a c.
Proof.
  intros (b1 & a1 & ->) (b2 & a2 & ->).
  exists (b2 +:+ b1), (a1 +:+ a2). rewrite !append_assoc. reflexivity.
Qed.




(** Only the fields of a template decide which values are used. *)
Lemma supply_fields (pieces : list Piece) :
  forall args kwargs,
    supply (List.filter is_field pieces) args kwargs = supply pieces args kwargs.
Proof.
  induction pieces as [|p pieces IH]; intros args kwargs; [reflexivity |].
  destruct p as [c| |name]; simpl.
  - apply IH.
  - destruct args as [|a args]; [reflexivity |]. rewrite IH. reflexivity.
  - destruct (getitem kwargs name); [| reflexivity]. rewrite IH. reflexivity.
Qed.

(** [fill] fails exactly when a field has no value, with the same error, and
    otherwise every value it used stands in the text. *)
Lemma fill_supply (pieces : list Piece) :
  forall args kwargs,
    match supply pieces args kwargs with
    | inl e => fill pieces args kwargs = inl e
    | inr values =>
        exists text, fill pieces args kwargs = inr text /\
                     forall v, In v values -> occurs_in v text
    end.
Proof.
  induction pieces as [|p pieces IH]; intros args kwargs; simpl.
  - exists EmptyString. split; [reflexivity | intros v []].
  - destruct p as [c| |name].
    + specialize (IH args kwargs). destruct (supply pieces args kwargs) as [e|values].
      * rewrite IH. reflexivity.
      * destruct IH as (text & -> & Hin). exists (String c text). split; [reflexivity |].
        intros v Hv. apply (occurs_in_later v (String c EmptyString) text). auto.
    + destruct args as [|a args]; [reflexivity |].
      specialize (IH args kwargs). destruct (supply pieces args kwargs) as [e|values].
      * rewrite IH. reflexivity.
      * destruct IH as (text & -> & Hin). exists (a +:+ text). split; [reflexivity |].
        intros v [<- | Hv]; [apply occurs_in_here | apply occurs_in_later; auto].
    + destruct (getitem kwargs name) as [v0|]; [| reflexivity].
      specialize (IH args kwargs). destruct (supply pieces args kwargs) as [e|values].
      * rewrite IH. reflexivity.
      * destruct IH as (text & -> & Hin). exists (v0 +:+ text). split; [reflexivity |].
        intros v [<- | Hv]; [apply occurs_in_here | apply occurs_in_later; auto].
Qed.

(** Formatting a template whose fields are known. *)
Lemma str_format_values (template : string) (fs : list Piece) args kwargs values :
  fields template = Some fs ->
  supply fs args kwargs = inr values ->
  exists text, str_format template args kwargs = inr text /\
               forall v, In v values -> occurs_in v text.
Proof.
  unfold fields, str_format. destruct (parse template) as [pieces|]; [| discriminate].
  intros [= <-] Hs. rewrite supply_fields in Hs.
  pose proof (fill_supply pieces args kwargs) as Hf. rewrite Hs in Hf. exact Hf.
Qed.

Lemma str_format_error (template : string) (fs : list Piece) args kwargs e :
  fields template = Some fs ->
  supply fs args kwargs = inl e ->
  str_format template args kwargs = inl e.
Proof.
  unfold fields, str_format. destruct (parse template) as [pieces|]; [| discriminate].
  intros [= <-] Hs. rewrite supply_fields in Hs.
  pose proof (fill_supply pieces args kwargs) as Hf. rewrite Hs in Hf. exact Hf.
Qed.

Lemma fresh_code_format (code : option string) :
  str_format fresh_code_template [str_optional code] [] = inr (fresh_code_text code).
Proof.
  unfold str_format.
  destruct (parse fresh_code_template) as [pieces|] eqn:E; vm_compute in E; [| discriminate].
  injection E as <-. unfold fresh_code_text, newline. simpl fill.
  string_normalize. reflexivity.
Qed.

(** ** Deleting the last two messages *)

Lemma delete_from_last_two (c : list Message.t) :
  forall i : Z,
    delete_from [i + Z.of_nat (length c) - 2; i + Z.of_nat (length c) - 1] i c =
    take (length c - 2) c.
Proof.
  induction c as [|m c IH]; intros i; [reflexivity |].
  cbn [delete_from length].
  destruct c as [|m1 c].
  - cbn [length]. rewrite bool_decide_eq_true_2; [reflexivity |].
    apply list_elem_of_In. right. left. lia.
  - destruct c as [|m2 c].
    + cbn [length]. rewrite bool_decide_eq_true_2.
      2:{ apply list_elem_of_In. left. lia. }
      cbn [delete_from]. rewrite bool_decide_eq_true_2; [reflexivity |].
      apply list_elem_of_In. right. left. lia.
    + rewrite bool_decide_eq_false_2.
      2:{ intros Hin. apply list_elem_of_In in Hin. cbn [length] in Hin.
          destruct Hin as [Hi | [Hi | []]]; lia. }
      specialize (IH (i + 1)).
      replace (i + 1 + Z.of_nat (length (m1 :: m2 :: c)) - 2)
        with (i + Z.of_nat (S (length (m1 :: m2 :: c))) - 2) in IH by lia.
      replace (i + 1 + Z.of_nat (length (m1 :: m2 :: c)) - 1)
        with (i + Z.of_nat (S (length (m1 :: m2 :: c))) - 1) in IH by lia.
      rewrite IH. cbn [length]. simpl. rewrite Nat.sub_0_r. reflexivity.
Qed.

Lemma delete_last_two (c : list Message.t) :
  delete_messages [-2; -1] c = take (length c - 2) c.
Proof.
  unfold delete_messages. rewrite <- (delete_from_last_two c 0).
  f_equal.
Qed.

(** The message just appended goes, and the one before it. *)
Lemma delete_last_two_appended (c : list Message.t) (rejected correction : Message.t) :
  delete_messages [-2; -1] ((c ++ [rejected]) ++ [correction]) = c.
Proof.
  rewrite delete_last_two. rewrite <- app_assoc. simpl.
  rewrite length_app. simpl.
  replace (length c + 2 - 2)%nat with (length c) by lia.
  apply take_app_length.
Qed.

(** ** Stepping through a method *)

Section Monad.
Context `{the_text : Text} `{the_engine : Engine} `{the_world : !World}.

Lemma bind_returned {A B} (m : M A) (k : A -> M B) (s s' : DebuggerConverser) (a : A) :
  m s = Returned a s' -> bind m k s = k a s'.
Proof. intros E. unfold bind. rewrite E. reflexivity. Qed.

Lemma bind_raised {A B} (m : M A) (k : A -> M B) (s s' : DebuggerConverser) (e : PyError) :
  m s = Raised e s' -> bind m k s = Raised e s'.
Proof. intros E. unfold bind. rewrite E. reflexivity. Qed.

Lemma self_run (s : DebuggerConverser) : self s = Returned s s.
Proof. reflexivity. Qed.

Lemma ret_run {A} (a : A) (s : DebuggerConverser) : ret a s = Returned a s.
Proof. reflexivity. Qed.

Lemma modify_run f (s : DebuggerConverser) : modify f s = Returned tt (f s).
Proof. reflexivity. Qed.

Lemma log_run ev (s : DebuggerConverser) : log ev s = Returned tt (logged ev s).
Proof. reflexivity. Qed.

Lemma format_run template args kwargs text (s : DebuggerConverser) :
  str_format template args kwargs = inr text ->
  format template args kwargs s = Returned text s.
Proof. intros E. unfold format. rewrite E. reflexivity. Qed.

Lemma append_user_run content comment ignore (s : DebuggerConverser) :
  apply_append_user_message content comment ignore s =
  Returned tt
    (set_conversation (conversation s ++ [user_message content comment ignore])
       (set_trace (trace s ++ [AppendUserMessage content]) s)).
Proof. reflexivity. Qed.

Lemma append_surrogate_run content comment (s : DebuggerConverser) :
  apply_append_surrogate_message content comment s =
  Returned tt
    (set_conversation (conversation s ++ [surrogate_message content comment])
       (set_trace (trace s ++ [AppendSurrogateMessage content]) s)).
Proof. reflexivity. Qed.

Lemma delete_run indices (s : DebuggerConverser) :
  apply_delete_messages indices s =
  Returned tt
    (set_conversation (delete_messages indices (conversation s))
       (set_trace (trace s ++ [DeleteMessages indices]) s)).
Proof. reflexivity. Qed.

Lemma rewind_run (s : DebuggerConverser) :
  _rewind_conversation_to_first_response s =
  Returned tt
    (set_conversation (rewound s) (set_trace (trace s ++ [RewindToFirstResponse]) s)).
Proof. reflexivity. Qed.

Lemma get_assistant_message_run previous (s : DebuggerConverser) :
  apply_get_and_append_assistant_message previous s =
  Returned (chatgpt s)
    (with_message (assistant_message (chatgpt s))
       (logged (GetAssistantMessage (chatgpt s)) s)).
Proof. reflexivity. Qed.

Lemma get_code_runner_run response (s : DebuggerConverser) :
  _get_code_runner response s =
  Returned
    (runner_cls response (data_filenames s) (output_file_requirements s)
       (allow_dataframes_to_change_existing_series s) None (data_folder s))
    (logged (BuildRunner response) s).
Proof. reflexivity. Qed.

Lemma extract_run code_runner (s : DebuggerConverser) :
  extract code_runner s = Returned (extract_code code_runner) (logged ExtractCode s).
Proof. reflexivity. Qed.

Lemma run_code_run code_runner code (s : DebuggerConverser) :
  run code_runner code s =
  Returned (run_code code_runner (working_directory s)).1
    (set_working_directory (run_code code_runner (working_directory s)).2
       (logged (RunCode code) s)).
Proof. reflexivity. Qed.

End Monad.

(** Step through a [bind] whose first method is known to return. *)
Ltac step lemma :=
  erewrite bind_returned by (apply lemma); cbv beta.

Section Properties.
Context `{the_text : Text} `{the_engine : Engine} `{the_world : !World}.

(** ** The decision *)

Lemma choose_action_first (p : option CodeProblem) (s : DebuggerConverser) :
  choose_action 0 p s =
  Returned (if bool_decide (p = Some IncompleteBlock) then regenerate
            else if bool_decide (p = Some NotSingleBlock) then leave
            else repost) s.
Proof.
  unfold choose_action. simpl.
  repeat case_bool_decide; reflexivity.
Qed.

Lemma choose_action_later (n : Z) (p : CodeProblem) (s : DebuggerConverser) :
  n <> 0 ->
  choose_action n (Some p) s =
  Returned (if CodeProblem_gt p StaticCheck then repost else regenerate) s.
Proof.
  intros Hn. unfold choose_action.
  destruct (n =? 0) eqn:E; [apply Z.eqb_eq in E; contradiction |].
  destruct (CodeProblem_gt p StaticCheck); reflexivity.
Qed.

(** With a classification at hand the decision never raises and leaves the
    controller alone. *)
Lemma choose_action_returns (n : Z) (p : CodeProblem) (s : DebuggerConverser) :
  exists action, choose_action n (Some p) s = Returned action s.
Proof.
  destruct (Z.eq_dec n 0) as [-> | Hn].
  - rewrite choose_action_first. eauto.
  - rewrite choose_action_later by assumption. eauto.
Qed.

(** ** What each edit does *)

Lemma post_code_as_fresh_run code p (s : DebuggerConverser) :
  exists s',
    _post_code_as_fresh code p s = Returned tt s' /\
    trace s' = trace s ++ [RewindToFirstResponse;
                           AppendSurrogateMessage (fresh_code_text code)] /\
    conversation s' = rewound s ++ [fresh_code_message code] /\
    previous_code s' = code /\
    _previous_code_problem s' = p /\
    prompt_to_append_at_end_of_response s' = prompt_to_append_at_end_of_response s /\
    debug_iteration s' = debug_iteration s /\
    max_debug_iterations s' = max_debug_iterations s /\
    _conversation_len_before_first_response s' = _conversation_len_before_first_response s /\
    model_engine s' = model_engine s /\
    working_directory s' = working_directory s.
Proof.
  unfold _post_code_as_fresh.
  step rewind_run.
  erewrite bind_returned by (apply format_run, fresh_code_format). cbv beta.
  step append_surrogate_run.
  step modify_run.
  rewrite modify_run.
  eexists. split; [reflexivity |]. unfold rewound. project.
  rewrite <- app_assoc. repeat split.
Qed.

Lemma respond_leave issues code p (s : DebuggerConverser) :
  choose_action (_get_response_count s) p s = Returned leave s ->
  exists s',
    _respond_to_issues issues code p s = Returned tt s' /\
    trace s' = trace s ++ [AppendUserMessage (corrective_text s issues leave)] /\
    conversation s' = conversation s ++ [corrective_message s issues leave] /\
    previous_code s' = previous_code s /\
    _previous_code_problem s' = _previous_code_problem s /\
    _requesting_small_change s' = do_all_issues_request_small_change (as_list issues) /\
    _conversation_len_before_first_response s' = _conversation_len_before_first_response s /\
    model_engine s' = model_engine s /\
    working_directory s' = working_directory s.
Proof.
  intros Hc. unfold _respond_to_issues.
  step self_run. erewrite bind_returned by exact Hc. cbv beta.
  rewrite (decide_False (P := leave = repost)) by discriminate.
  rewrite (decide_False (P := leave = regenerate)) by discriminate.
  erewrite bind_returned by reflexivity. cbv beta.
  step self_run. step append_user_run.
  erewrite bind_returned by reflexivity. cbv beta.
  rewrite modify_run.
  eexists. split; [reflexivity |]. project. repeat split.
Qed.

Lemma respond_regenerate issues code p (s : DebuggerConverser) :
  choose_action (_get_response_count s) p s = Returned regenerate s ->
  exists s',
    _respond_to_issues issues code p s = Returned tt s' /\
    trace s' = trace s ++ [AppendUserMessage (corrective_text s issues regenerate);
                           DeleteMessages [-2; -1]] /\
    conversation s' =
      delete_messages [-2; -1] (conversation s ++ [corrective_message s issues regenerate]) /\
    previous_code s' = previous_code s /\
    _previous_code_problem s' = _previous_code_problem s /\
    _requesting_small_change s' = do_all_issues_request_small_change (as_list issues) /\
    _conversation_len_before_first_response s' = _conversation_len_before_first_response s /\
    model_engine s' = model_engine s /\
    working_directory s' = working_directory s.
Proof.
  intros Hc. unfold _respond_to_issues.
  step self_run. erewrite bind_returned by exact Hc. cbv beta.
  rewrite (decide_False (P := regenerate = repost)) by discriminate.
  rewrite (decide_True (P := regenerate = regenerate)) by reflexivity.
  erewrite bind_returned by reflexivity. cbv beta.
  step self_run. step append_user_run. step delete_run.
  rewrite modify_run.
  eexists. split; [reflexivity |]. project.
  rewrite <- app_assoc. repeat split.
Qed.

Lemma respond_repost issues code p (s : DebuggerConverser) :
  choose_action (_get_response_count s) p s = Returned repost s ->
  exists s',
    _respond_to_issues issues code p s = Returned tt s' /\
    trace s' = trace s ++ [RewindToFirstResponse;
                           AppendSurrogateMessage (fresh_code_text code);
                           AppendUserMessage (corrective_text s issues repost)] /\
    conversation s' =
      rewound s ++ [fresh_code_message code; corrective_message s issues repost] /\
    previous_code s' = code /\
    _previous_code_problem s' = p /\
    _requesting_small_change s' = do_all_issues_request_small_change (as_list issues) /\
    _conversation_len_before_first_response s' = _conversation_len_before_first_response s /\
    model_engine s' = model_engine s /\
    working_directory s' = working_directory s.
Proof.
  intros Hc. unfold _respond_to_issues.
  step self_run. erewrite bind_returned by exact Hc. cbv beta.
  rewrite (decide_True (P := repost = repost)) by reflexivity.
  rewrite (decide_False (P := repost = regenerate)) by discriminate.
  destruct (post_code_as_fresh_run code p s)
    as (s1 & Hpost & Ht & Hconv & Hcode & Hp & Hprompt & Hi & Hmax & Hl & He & Hw).
  erewrite bind_returned by exact Hpost. cbv beta.
  step self_run. step append_user_run.
  erewrite bind_returned by reflexivity. cbv beta.
  rewrite modify_run.
  eexists. split; [reflexivity |]. project.
  unfold corrective_text, corrective_message, iteration_str.
  rewrite Ht, Hconv, Hcode, Hp, Hprompt, Hi, Hmax, Hl, He, Hw, <- !app_assoc.
  repeat split.
Qed.

End Properties.

(** ** The claims about [_respond_to_issues] *)

Section RespondClaims.
Context `{the_text : Text} `{the_engine : Engine} `{the_world : !World}.

Lemma new_events_app (s s' : DebuggerConverser) (events : list Event) :
  trace s' = trace s ++ events -> new_events s s' = events.
Proof.
  intros E. unfold new_events. rewrite E. apply drop_app_length.
Qed.

(** Whatever was chosen, [_respond_to_issues] returns, and what it did to the
    conversation is the chosen edit. *)
Lemma respond_performs issues code p (s : DebuggerConverser) (action : Action) :
  choose_action (_get_response_count s) p s = Returned action s ->
  exists s',
    _respond_to_issues issues code p s = Returned tt s' /\
    performed (new_events s s') = Some action.
Proof.
  intros Hc. destruct action.
  - destruct (respond_repost issues code p s Hc) as (s' & Hr & Ht & _).
    exists s'. split; [exact Hr |]. rewrite (new_events_app _ _ _ Ht). reflexivity.
  - destruct (respond_leave issues code p s Hc) as (s' & Hr & Ht & _).
    exists s'. split; [exact Hr |]. rewrite (new_events_app _ _ _ Ht). reflexivity.
  - destruct (respond_regenerate issues code p s Hc) as (s' & Hr & Ht & _).
    exists s'. split; [exact Hr |]. rewrite (new_events_app _ _ _ Ht). reflexivity.
Qed.

Lemma respond_performs_final issues code p (s : DebuggerConverser) (action : Action) :
  choose_action (_get_response_count s) p s = Returned action s ->
  performed (new_events s (final (_respond_to_issues issues code p s))) = Some action.
Proof.
  intros Hc. destruct (respond_performs issues code p s action Hc) as (s' & -> & Hp).
  exact Hp.
Qed.

(** C1.  The edit that [_respond_to_issues] performs is the one of the table:
    on the first response (response count 0) an incomplete block is
    regenerated, several blocks are left as they are and everything else is
    re-posted; on a later response (response count above 0) a classification
    more severe than StaticCheck is re-posted and one up to StaticCheck is
    regenerated.  The call returns in all these cases. *)
Theorem respond_to_issues_follows_table
    issues code (p : CodeProblem) (s : DebuggerConverser) :
  let n := _get_response_count s in
  let after := _respond_to_issues issues code (Some p) s in
  let done := performed (new_events s (final after)) in
  (exists s', after = Returned tt s') /\
  (n = 0 -> p = IncompleteBlock -> done = Some regenerate) /\
  (n = 0 -> p = NotSingleBlock -> done = Some leave) /\
  (n = 0 -> p <> IncompleteBlock -> p <> NotSingleBlock -> done = Some repost) /\
  (0 < n -> severity StaticCheck < severity p -> done = Some repost) /\
  (0 < n -> severity p <= severity StaticCheck -> done = Some regenerate).
Proof.
  intros n after done. subst n after done. repeat split.
  - destruct (choose_action_returns (_get_response_count s) p s) as (action & Hc).
    destruct (respond_performs issues code (Some p) s action Hc) as (s' & Hr & _). eauto.
  - intros Hn ->. apply respond_performs_final. rewrite Hn, choose_action_first. reflexivity.
  - intros Hn ->. apply respond_performs_final. rewrite Hn, choose_action_first. reflexivity.
  - intros Hn Hp1 Hp2. apply respond_performs_final. rewrite Hn, choose_action_first.
    rewrite !bool_decide_eq_false_2 by congruence. reflexivity.
  - intros Hn Hp. apply respond_performs_final.
    rewrite choose_action_later by lia. unfold CodeProblem_gt.
    destruct (severity StaticCheck <? severity p) eqn:E; [reflexivity |].
    apply Z.ltb_ge in E. lia.
  - intros Hn Hp. apply respond_performs_final.
    rewrite choose_action_later by lia. unfold CodeProblem_gt.
    destruct (severity StaticCheck <? severity p) eqn:E; [| reflexivity].
    apply Z.ltb_lt in E. lia.
Qed.

(** The conversation cut immediately after the first model response. *)
Lemma rewound_after_first_response (s : DebuggerConverser) before first later :
  conversation s = before ++ first :: later ->
  Z.of_nat (length before) = _conversation_len_before_first_response s ->
  rewound s = before ++ [first].
Proof.
  intros Hc Hl. unfold rewound. rewrite Hc, <- Hl.
  replace (Z.to_nat (Z.of_nat (length before) + 1)) with (length (before ++ [first])).
  - replace (before ++ first :: later) with ((before ++ [first]) ++ later)
      by (rewrite <- app_assoc; reflexivity).
    apply take_app_length.
  - rewrite length_app. simpl. lia.
Qed.

(** C5.  When the re-post is selected, [_respond_to_issues] first rewinds the
    conversation to immediately after the first model response, then appends
    the code as a surrogate message, as if it had been that response, and
    only then the corrective message; [previous_code] becomes that code and
    [_previous_code_problem] the classification it was called with. *)
Theorem repost_rewinds_and_posts_code issues code p (s : DebuggerConverser) :
  choose_action (_get_response_count s) p s = Returned repost s ->
  exists s',
    _respond_to_issues issues code p s = Returned tt s' /\
    new_events s s' = [RewindToFirstResponse;
                       AppendSurrogateMessage (fresh_code_text code);
                       AppendUserMessage (corrective_text s issues repost)] /\
    conversation s' =
      rewound s ++ [fresh_code_message code; corrective_message s issues repost] /\
    (forall before first later,
        conversation s = before ++ first :: later ->
        Z.of_nat (length before) = _conversation_len_before_first_response s ->
        conversation s' =
          before ++ [first; fresh_code_message code; corrective_message s issues repost]) /\
    previous_code s' = code /\
    _previous_code_problem s' = p.
Proof.
  intros Hc.
  destruct (respond_repost issues code p s Hc) as (s' & Hr & Ht & Hconv & Hcode & Hp & _).
  exists s'. split; [exact Hr |]. split; [apply new_events_app; exact Ht |].
  split; [exact Hconv |]. split; [| split; assumption].
  intros before first later Hb Hl. rewrite Hconv.
  rewrite (rewound_after_first_response s before first later Hb Hl).
  rewrite <- app_assoc. reflexivity.
Qed.

(** C6.  When the regeneration is selected, [_respond_to_issues] first appends
    the corrective user message and then deletes the last two messages: the
    answer that was rejected and the correction.  The conversation is back to
    what it was before the rejected answer, and so is its length. *)
Theorem regenerate_deletes_last_two issues code p (s : DebuggerConverser) :
  choose_action (_get_response_count s) p s = Returned regenerate s ->
  exists s',
    _respond_to_issues issues code p s = Returned tt s' /\
    new_events s s' = [AppendUserMessage (corrective_text s issues regenerate);
                       DeleteMessages [-2; -1]] /\
    conversation s' =
      delete_messages [-2; -1] (conversation s ++ [corrective_message s issues regenerate]) /\
    (forall before rejected,
        conversation s = before ++ [rejected] ->
        conversation s' = before /\ length (conversation s') = length before).
Proof.
  intros Hc.
  destruct (respond_regenerate issues code p s Hc) as (s' & Hr & Ht & Hconv & _).
  exists s'. split; [exact Hr |]. split; [apply new_events_app; exact Ht |].
  split; [exact Hconv |].
  intros before rejected Hb. rewrite Hconv, Hb, delete_last_two_appended.
  split; reflexivity.
Qed.

(** C10.  Whatever edit is chosen, [_respond_to_issues] recomputes
    [_requesting_small_change] from the issues; [previous_code] and
    [_previous_code_problem] keep their values unless the edit is the
    re-post, which sets them to the code and the classification of the
    call. *)
Theorem only_repost_changes_previous_code
    issues code p (s : DebuggerConverser) (action : Action) :
  choose_action (_get_response_count s) p s = Returned action s ->
  exists s',
    _respond_to_issues issues code p s = Returned tt s' /\
    _requesting_small_change s' = do_all_issues_request_small_change (as_list issues) /\
    (action = leave \/ action = regenerate ->
       previous_code s' = previous_code s /\
       _previous_code_problem s' = _previous_code_problem s) /\
    (action = repost ->
       previous_code s' = code /\ _previous_code_problem s' = p).
Proof.
  intros Hc. destruct action.
  - destruct (respond_repost issues code p s Hc) as (s' & Hr & _ & _ & Hcode & Hp & Hs & _).
    exists s'. split; [exact Hr |]. split; [exact Hs |]. split.
    + intros [? | ?]; discriminate.
    + intros _. split; assumption.
  - destruct (respond_leave issues code p s Hc) as (s' & Hr & _ & _ & Hcode & Hp & Hs & _).
    exists s'. split; [exact Hr |]. split; [exact Hs |]. split.
    + intros _. split; assumption.
    + discriminate.
  - destruct (respond_regenerate issues code p s Hc)
      as (s' & Hr & _ & _ & Hcode & Hp & Hs & _).
    exists s'. split; [exact Hr |]. split; [exact Hs |]. split.
    + intros _. split; assumption.
    + discriminate.
Qed.

End RespondClaims.

(** ** Methods that only read the controller *)

Section ReadOnly.
Context `{the_text : Text} `{the_engine : Engine} `{the_world : !World}.

Lemma reads_only_ret {A} (a : A) : reads_only (ret a).
Proof. intros s. exists (inr a). reflexivity. Qed.

Lemma reads_only_raise {A} (e : PyError) : reads_only (raise (A := A) e).
Proof. intros s. exists (inl e). reflexivity. Qed.

Lemma reads_only_format template args kwargs : reads_only (format template args kwargs).
Proof.
  intros s. unfold format. exists (str_format template args kwargs).
  destruct (str_format template args kwargs); reflexivity.
Qed.

Lemma reads_only_bind {A B} (m : M A) (k : A -> M B) :
  reads_only m -> (forall a, reads_only (k a)) -> reads_only (bind m k).
Proof.
  intros Hm Hk s. unfold bind. destruct (Hm s) as ([e|a] & ->); simpl.
  - exists (inl e). reflexivity.
  - apply Hk.
Qed.

Lemma reads_only_self {B} (k : DebuggerConverser -> M B) :
  (forall s, reads_only (k s)) -> reads_only (bind self k).
Proof. intros Hk s. unfold bind, self. apply Hk. Qed.

Lemma reads_only_if {A} (b : bool) (m1 m2 : M A) :
  reads_only m1 -> reads_only m2 -> reads_only (if b then m1 else m2).
Proof. destruct b; auto. Qed.

Lemma reads_only_gather {A B} (xs : list A) (body : A -> M (list B)) :
  (forall x, reads_only (body x)) -> reads_only (gather xs body).
Proof.
  intros Hb. induction xs as [|x xs IH]; simpl.
  - apply reads_only_ret.
  - apply reads_only_bind; [apply Hb |]. intros found.
    apply reads_only_bind; [exact IH |]. intros more. apply reads_only_ret.
Qed.

Create HintDb readonly.
#[local] Hint Resolve reads_only_ret reads_only_raise reads_only_format
  reads_only_gather : readonly.
#[local] Hint Extern 2 (reads_only (bind self _)) =>
  apply reads_only_self; intros : readonly.
#[local] Hint Extern 3 (reads_only (bind _ _)) =>
  apply reads_only_bind; [| intros] : readonly.
#[local] Hint Extern 2 (reads_only (if _ then _ else _)) =>
  apply reads_only_if : readonly.
#[local] Hint Extern 2 (reads_only (match ?x with _ => _ end)) =>
  destruct x : readonly.

Ltac read_only := auto 20 with readonly.

Lemma reads_only_description : reads_only description_of_allowed_output_files.
Proof. unfold description_of_allowed_output_files. read_only. Qed.
#[local] Hint Resolve reads_only_description : readonly.

Lemma reads_only_output_file_content requirement filename content :
  reads_only (_get_issues_for_output_file_content requirement filename content).
Proof. unfold _get_issues_for_output_file_content. read_only. Qed.
#[local] Hint Resolve reads_only_output_file_content : readonly.

Lemma reads_only_output_files_of code_and_output requirement :
  reads_only (output_files_of code_and_output requirement).
Proof. unfold output_files_of. read_only. Qed.
#[local] Hint Resolve reads_only_output_files_of : readonly.

Lemma reads_only_num_files_created code_and_output :
  reads_only (_get_issues_for_num_files_created code_and_output).
Proof. unfold _get_issues_for_num_files_created. read_only. Qed.

Lemma reads_only_unsaved_dataframes code_and_output :
  reads_only (_get_issues_for_unsaved_dataframes code_and_output).
Proof. unfold _get_issues_for_unsaved_dataframes. read_only. Qed.

Lemma reads_only_created_output_files code_and_output :
  reads_only (_get_issues_for_created_output_files code_and_output).
Proof. unfold _get_issues_for_created_output_files. read_only. Qed.

Lemma reads_only_not_a_modification new_code old_code :
  reads_only
    (_get_issue_for_new_code_not_being_a_modification_of_old_code new_code old_code).
Proof. unfold _get_issue_for_new_code_not_being_a_modification_of_old_code. read_only. Qed.

Lemma reads_only_static_code_check code :
  reads_only (_get_issues_for_static_code_check code).
Proof. unfold _get_issues_for_static_code_check. read_only. Qed.

Lemma reads_only_choose_action n p : reads_only (choose_action n p).
Proof. unfold choose_action. read_only. Qed.

Lemma reads_only_known_mis_imports e : reads_only (_get_issue_for_known_mis_imports e).
Proof. unfold _get_issue_for_known_mis_imports. read_only. Qed.
#[local] Hint Resolve reads_only_known_mis_imports : readonly.

Lemma reads_only_allowed_packages e : reads_only (_get_issue_for_allowed_packages e).
Proof. unfold _get_issue_for_allowed_packages. read_only. Qed.

Lemma reads_only_timeout e : reads_only (_get_issue_for_timeout e).
Proof. unfold _get_issue_for_timeout. read_only. Qed.

Lemma reads_only_un_allowed_files_created e :
  reads_only (_get_issue_for_un_allowed_files_created e).
Proof. unfold _get_issue_for_un_allowed_files_created. read_only. Qed.

Lemma reads_only_file_not_found e : reads_only (_get_issue_for_file_not_found e).
Proof. unfold _get_issue_for_file_not_found. read_only. Qed.

Lemma reads_only_forbidden_functions e : reads_only (_get_issue_for_forbidden_functions e).
Proof. unfold _get_issue_for_forbidden_functions. read_only. Qed.

Lemma reads_only_forbidden_method e : reads_only (_get_issue_for_forbidden_method e).
Proof. unfold _get_issue_for_forbidden_method. read_only. Qed.

Lemma reads_only_forbidden_import e : reads_only (_get_issue_for_forbidden_import e).
Proof. unfold _get_issue_for_forbidden_import. read_only. Qed.

Lemma reads_only_forbidden_write e : reads_only (_get_issue_for_forbidden_write e).
Proof. unfold _get_issue_for_forbidden_write. read_only. Qed.

Lemma reads_only_forbidden_read e : reads_only (_get_issue_for_forbidden_read e).
Proof. unfold _get_issue_for_forbidden_read. read_only. Qed.

Lemma reads_only_dataframe_series_change e :
  reads_only (_get_issue_for_dataframe_series_change e).
Proof. unfold _get_issue_for_dataframe_series_change. read_only. Qed.

Lemma reads_only_run_utils_error e : reads_only (_get_issue_for_run_utils_error e).
Proof. unfold _get_issue_for_run_utils_error. read_only. Qed.

Lemma reads_only_regular_exception e runner :
  reads_only (_get_issue_for_regular_exception_or_warning e runner).
Proof. unfold _get_issue_for_regular_exception_or_warning. read_only. Qed.

Lemma reads_only_missing_or_multiple str_e :
  reads_only (_get_issue_for_missing_or_multiple_code str_e).
Proof. unfold _get_issue_for_missing_or_multiple_code. read_only. Qed.

(** Every function of the dispatch table only reads the controller. *)
Lemma reads_only_table (k : ExcClass) (f : Classifier) :
  In (k, f) exceptions_to_funcs -> forall e, reads_only (f e).
Proof.
  unfold exceptions_to_funcs. intros Hin e. simpl in Hin.
  repeat (destruct Hin as [[= <- <-] | Hin];
          [first [ apply reads_only_allowed_packages | apply reads_only_timeout
                 | apply reads_only_un_allowed_files_created
                 | apply reads_only_file_not_found
                 | apply reads_only_forbidden_functions
                 | apply reads_only_forbidden_method
                 | apply reads_only_forbidden_import
                 | apply reads_only_forbidden_write
                 | apply reads_only_forbidden_read
                 | apply reads_only_dataframe_series_change
                 | apply reads_only_run_utils_error ] |]).
  destruct Hin.
Qed.

Lemma first_match_in (table : list (ExcClass * Classifier)) exc f :
  first_match table exc = Some f -> exists k, In (k, f) table /\ isinstance exc k = true.
Proof.
  induction table as [|[k g] table IH]; simpl; [discriminate |].
  destruct (isinstance exc k) eqn:E.
  - intros [= <-]. exists k. auto.
  - intros Hf. destruct (IH Hf) as (k' & Hin & Hk). exists k'. auto.
Qed.

Lemma reads_only_classify_failure e runner : reads_only (classify_failure e runner).
Proof.
  unfold classify_failure.
  destruct (first_match exceptions_to_funcs (exception e)) as [f|] eqn:E.
  - destruct (first_match_in _ _ _ E) as (k & Hin & _).
    apply (reads_only_table k f Hin).
  - apply reads_only_regular_exception.
Qed.

(** A method that only reads gives the same result when called again. *)
Lemma reads_only_twice {A} (m : M A) :
  reads_only m -> forall s, twice m s = once_for_both m s.
Proof.
  intros Hm s. unfold twice, once_for_both, bind.
  destruct (Hm s) as ([e|a] & E); rewrite E; simpl; [reflexivity |].
  rewrite E. reflexivity.
Qed.

Lemma reads_only_final {A} (m : M A) :
  reads_only m -> forall s, final (m s) = s.
Proof. intros Hm s. destruct (Hm s) as ([e|a] & ->); reflexivity. Qed.

End ReadOnly.

(** ** The fields of the templates *)

Lemma fields_known_mis_import :
  fields known_mis_import_template =
  Some [Auto; Named "supported_packages"; Named "var"; Named "correct_package"].
Proof. vm_compute. reflexivity. Qed.



Lemma fields_forbidden_read :
  fields forbidden_read_template = Some [Auto; Auto].
Proof. vm_compute. reflexivity. Qed.

Lemma fields_un_allowed_files :
  fields un_allowed_files_template =
  Some [Auto; Named "description_of_allowed_output_files"].
Proof. vm_compute. reflexivity. Qed.

(** ** The top-level package *)



(** ** Lists in a text *)

Lemma occurs_in_middle (piece before text after : string) :
  occurs_in piece text -> occurs_in piece (before +:+ text +:+ after).
Proof.
  intros (b & a & ->). exists (before +:+ b), (a +:+ after).
  rewrite !append_assoc. reflexivity.
Qed.

Lemma occurs_in_join (sep x : string) (parts : list string) :
  In x parts -> occurs_in x (join sep parts).
Proof.
  induction parts as [|p rest IH]; [intros [] |].
  intros Hin. cbn [join]. destruct rest as [|q rest].
  - destruct Hin as [<- | []]. apply occurs_in_refl.
  - destruct Hin as [<- | Hin]; [apply occurs_in_here |].
    apply occurs_in_later, occurs_in_later, IH, Hin.
Qed.

Section ClassifierClaims.
Context `{the_text : Text} `{the_engine : Engine} `{the_world : !World}.


Lemma occurs_in_str_list (x : string) (l : list string) :
  In x l -> occurs_in (repr x) (str_list l).
Proof.
  intros Hin. unfold str_list. apply occurs_in_middle, occurs_in_join, in_map, Hin.
Qed.

(** Formatting a dedented literal: the fields are those of the literal. *)
Lemma format_dedented (template : string) (fs : list Piece) args kwargs values
    (s : DebuggerConverser) :
  fields template = Some fs ->
  supply fs args kwargs = inr values ->
  exists text,
    format (dedent_triple_quote_str template) args kwargs s = Returned text s /\
    forall v, In v values -> occurs_in v text.
Proof.
  intros Hf Hs. rewrite <- (dedent_triple_quote_str_fields template) in Hf.
  destruct (str_format_values _ _ _ _ _ Hf Hs) as (text & E & Hv).
  exists text. split; [| exact Hv]. unfold format. rewrite E. reflexivity.
Qed.

Lemma format_dedented_error (template : string) (fs : list Piece) args kwargs e
    (s : DebuggerConverser) :
  fields template = Some fs ->
  supply fs args kwargs = inl e ->
  format (dedent_triple_quote_str template) args kwargs s = Raised e s.
Proof.
  intros Hf Hs. rewrite <- (dedent_triple_quote_str_fields template) in Hf.
  unfold format. rewrite (str_format_error _ _ _ _ _ Hf Hs). reflexivity.
Qed.


(** The issue with the hint. *)
Lemma allowed_packages_hint (e : PyException) (var module : string) (s : DebuggerConverser) :
  exists text,
    format (dedent_triple_quote_str known_mis_import_template) [exc_str e]
      [("supported_packages"%string, str_tuple (supported_packages s));
       ("var"%string, var); ("correct_package"%string, module)] s
    = Returned text s /\
    occurs_in (str_tuple (supported_packages s)) text /\
    occurs_in var text /\ occurs_in module text.
Proof.
  destruct (format_dedented known_mis_import_template _ [exc_str e]
              [("supported_packages"%string, str_tuple (supported_packages s));
               ("var"%string, var); ("correct_package"%string, module)]
              [exc_str e; str_tuple (supported_packages s); var; module] s
              fields_known_mis_import)
    as (text & E & Hv); [reflexivity |].
  exists text. split; [exact E |]. repeat split; apply Hv; simpl; auto.
Qed.


Lemma no_read_back_in_text (file : string) (inputs : list string) :
  occurs_in no_read_back_sentence (forbidden_read_output_text file inputs).
Proof.
  unfold forbidden_read_output_text, triple_quote.
  eapply occurs_in_trans; [| apply occurs_in_join; right; right; left; reflexivity].
  exists "                "%string, EmptyString. reflexivity.
Qed.

(** C9.  The issue for a forbidden read is the one that tells the model not
    to read its output file back exactly when the file of the failure is the
    single content file of the output requirements; that issue is built from
    a text with the sentence saying so.  For every other file the issue is
    the one about a file outside the dataset, and it carries the list of the
    input files, hence every one of them. *)
Theorem forbidden_read_issue (e : PyException) (s : DebuggerConverser) :
  exists i,
    _get_issue_for_forbidden_read e s = Returned i s /\
    (i = reads_output_file_issue s (file e) <-> Some (file e) = output_filename s) /\
    occurs_in no_read_back_sentence
      (forbidden_read_output_text (file e) (data_filenames s)) /\
    (Some (file e) <> output_filename s ->
       comment i = "Code reads from forbidden file"%string /\
       occurs_in (str_list (data_filenames s)) (issue i) /\
       forall input, In input (data_filenames s) -> occurs_in (repr input) (issue i)).
Proof.
  unfold _get_issue_for_forbidden_read, bind, self.
  destruct (bool_decide (Some (file e) = output_filename s)) eqn:Hb.
  - apply bool_decide_eq_true in Hb. eexists. split; [reflexivity |].
    split; [split; [intros _; exact Hb | intros _; reflexivity] |].
    split; [apply no_read_back_in_text |]. intros Hne. contradiction.
  - apply bool_decide_eq_false in Hb.
    destruct (format_dedented forbidden_read_template _
                [file e; str_list (data_filenames s)] []
                [file e; str_list (data_filenames s)] s fields_forbidden_read)
      as (text & -> & Hv); [reflexivity |].
    cbv beta iota. eexists. split; [reflexivity |].
    split; [split; [intros [=] | intros Heq; contradiction] |].
    split; [apply no_read_back_in_text |]. intros _. cbn [comment issue].
    assert (Hl : occurs_in (str_list (data_filenames s)) text)
      by (apply Hv; right; left; reflexivity).
    split; [reflexivity |]. split; [exact Hl |].
    intros input Hin. eapply occurs_in_trans; [| exact Hl].
    apply occurs_in_str_list, Hin.
Qed.

(** What [_get_issue_for_incomplete_code] does to the controller. *)
Lemma incomplete_code_run (s : DebuggerConverser) :
  _get_issue_for_incomplete_code s =
  if engine_lt (model_engine s) MAX_MODEL_ENGINE then
    Returned
      {| issue := "Your sent incomplete code. Let's bump you up to " +:+
                  engine_str (get_next (get_next (model_engine s))) +:+ " and retry!";
         comment := "Code is incomplete"; end_with := None |}
      (set_model_engine (get_next (model_engine s)) s)
  else
    Returned
      {| issue := "Your sent incomplete code. Please regenerate response.";
         comment := "Code is incomplete"; end_with := None |}
      s.
Proof.
  unfold _get_issue_for_incomplete_code, bind, self.
  destruct (engine_lt (model_engine s) MAX_MODEL_ENGINE); reflexivity.
Qed.

(** C4, as the code has it.  Every function that makes issues only reads
    the controller, with one exception.  The functions of the dispatch
    table, the classifier of unrecognised failures, the one for missing or
    multiple code blocks, the check for known mis-imports, and the checks
    made after a run or before it (the number of created files, the unsaved
    dataframes, the created output files and the content of one of them, the
    new code not being a modification of the old one, the static check):
    whether they return or raise, the controller is unchanged, and a second
    call on the same input gives what the first one gave.
    [_get_issue_for_incomplete_code] is the exception: below
    [MAX_MODEL_ENGINE] it moves the controller to the next engine and
    nothing else, and from there on it changes nothing. *)
Theorem classifiers_only_read_but_incomplete_code :
  (forall k f e (s : DebuggerConverser),
      In (k, f) exceptions_to_funcs ->
      final (f e s) = s /\ twice (f e) s = once_for_both (f e) s) /\
  (forall e runner (s : DebuggerConverser),
      final (_get_issue_for_regular_exception_or_warning e runner s) = s /\
      twice (_get_issue_for_regular_exception_or_warning e runner) s =
      once_for_both (_get_issue_for_regular_exception_or_warning e runner) s) /\
  (forall str_e (s : DebuggerConverser),
      final (_get_issue_for_missing_or_multiple_code str_e s) = s /\
      twice (_get_issue_for_missing_or_multiple_code str_e) s =
      once_for_both (_get_issue_for_missing_or_multiple_code str_e) s) /\
  (forall e (s : DebuggerConverser),
      final (_get_issue_for_known_mis_imports e s) = s /\
      twice (_get_issue_for_known_mis_imports e) s =
      once_for_both (_get_issue_for_known_mis_imports e) s) /\
  (forall code_and_output (s : DebuggerConverser),
      final (_get_issues_for_num_files_created code_and_output s) = s /\
      twice (_get_issues_for_num_files_created code_and_output) s =
      once_for_both (_get_issues_for_num_files_created code_and_output) s) /\
  (forall code_and_output (s : DebuggerConverser),
      final (_get_issues_for_unsaved_dataframes code_and_output s) = s /\
      twice (_get_issues_for_unsaved_dataframes code_and_output) s =
      once_for_both (_get_issues_for_unsaved_dataframes code_and_output) s) /\
  (forall code_and_output (s : DebuggerConverser),
      final (_get_issues_for_created_output_files code_and_output s) = s /\
      twice (_get_issues_for_created_output_files code_and_output) s =
      once_for_both (_get_issues_for_created_output_files code_and_output) s) /\
  (forall requirement name content (s : DebuggerConverser),
      final (_get_issues_for_output_file_content requirement name content s) = s /\
      twice (_get_issues_for_output_file_content requirement name content) s =
      once_for_both (_get_issues_for_output_file_content requirement name content) s) /\
  (forall new_code old_code (s : DebuggerConverser),
      final (_get_issue_for_new_code_not_being_a_modification_of_old_code
               new_code old_code s) = s /\
      twice (_get_issue_for_new_code_not_being_a_modification_of_old_code
               new_code old_code) s =
      once_for_both (_get_issue_for_new_code_not_being_a_modification_of_old_code
                       new_code old_code) s) /\
  (forall code (s : DebuggerConverser),
      final (_get_issues_for_static_code_check code s) = s /\
      twice (_get_issues_for_static_code_check code) s =
      once_for_both (_get_issues_for_static_code_check code) s) /\
  (forall s : DebuggerConverser,
      exists i,
        _get_issue_for_incomplete_code s =
        Returned i
          (if engine_lt (model_engine s) MAX_MODEL_ENGINE
           then set_model_engine (get_next (model_engine s)) s
           else s)).
Proof.
  assert (Hread : forall A (m : M A) (s : DebuggerConverser),
             reads_only m -> final (m s) = s /\ twice m s = once_for_both m s).
  { intros A m s Hm. split; [apply reads_only_final | apply reads_only_twice]; exact Hm. }
  repeat match goal with |- _ /\ _ => split end.
  - intros k f e s Hin. apply Hread. eapply reads_only_table; eassumption.
  - intros e runner s. apply Hread, reads_only_regular_exception.
  - intros str_e s. apply Hread, reads_only_missing_or_multiple.
  - intros e s. apply Hread, reads_only_known_mis_imports.
  - intros code_and_output s. apply Hread, reads_only_num_files_created.
  - intros code_and_output s. apply Hread, reads_only_unsaved_dataframes.
  - intros code_and_output s. apply Hread, reads_only_created_output_files.
  - intros requirement name content s. apply Hread, reads_only_output_file_content.
  - intros new_code old_code s. apply Hread, reads_only_not_a_modification.
  - intros code s. apply Hread, reads_only_static_code_check.
  - intros s. rewrite incomplete_code_run.
    destruct (engine_lt (model_engine s) MAX_MODEL_ENGINE); eauto.
Qed.

(** *** The dispatch *)

Lemma first_match_first (table before after : list (ExcClass * Classifier))
    (k : ExcClass) (f : Classifier) (exc : PyException) :
  table = before ++ (k, f) :: after ->
  (forall k' f', In (k', f') before -> isinstance exc k' = false) ->
  isinstance exc k = true ->
  first_match table exc = Some f.
Proof.
  intros -> Hb Hk. induction before as [|[k' f'] before IH]; simpl.
  - rewrite Hk. reflexivity.
  - rewrite (Hb k' f') by (left; reflexivity).
    apply IH. intros k0 f0 Hin. apply (Hb k0 f0). right. exact Hin.
Qed.



Lemma description_returns (s : DebuggerConverser) :
  exists description, description_of_allowed_output_files s = Returned description s.
Proof.
  unfold description_of_allowed_output_files, bind, self.
  destruct (Z.of_nat (length (output_file_requirements s)) =? 0); [eauto |].
  unfold format.
  match goal with
  | |- context [str_format ?t ?a ?k] =>
      destruct (str_format_values t [Auto] a k a) as (text & -> & _)
  end; [vm_compute; reflexivity | reflexivity | eauto].
Qed.

(** The function for files created without permission raises: its template
    has a named field, and both values are passed by position. *)
Lemma un_allowed_files_created_raises e (s : DebuggerConverser) :
  _get_issue_for_un_allowed_files_created e s =
  Raised (KeyError "description_of_allowed_output_files") s.
Proof.
  unfold _get_issue_for_un_allowed_files_created, bind at 1.
  destruct (description_returns s) as (description & ->). cbv beta iota.
  unfold bind.
  rewrite (format_dedented_error un_allowed_files_template _ _ _
             (KeyError "description_of_allowed_output_files") s fields_un_allowed_files)
    by reflexivity.
  reflexivity.
Qed.

End ClassifierClaims.

(** ** One iteration *)

Section Iteration.
Context `{the_text : Text} `{the_engine : Engine} `{the_world : !World}.

Lemma quiet_nil : quiet [].
Proof. constructor. Qed.

Lemma quiet_app (a b : list Event) : quiet a -> quiet b -> quiet (a ++ b).
Proof. apply Forall_app_2. Qed.

Lemma quiet_reads_only {A} (m : M A) : reads_only m -> quiet_method m.
Proof.
  intros Hm s. exists []. rewrite (reads_only_final m Hm s), app_nil_r.
  split; [reflexivity |]. split; [apply quiet_nil | reflexivity].
Qed.

Lemma quiet_ret {A} (a : A) : quiet_method (ret a).
Proof. apply quiet_reads_only, reads_only_ret. Qed.

Lemma quiet_bind {A B} (m : M A) (k : A -> M B) :
  quiet_method m -> (forall a, quiet_method (k a)) -> quiet_method (bind m k).
Proof.
  intros Hm Hk s. destruct (Hm s) as (e1 & Ht & Hq & Hl). unfold bind.
  destruct (m s) as [a s1 | err s1]; cbn [final] in *.
  - destruct (Hk a s1) as (e2 & Ht2 & Hq2 & Hl2). exists (e1 ++ e2).
    rewrite Ht2, Ht, Hl2, Hl, app_assoc.
    split; [reflexivity |]. split; [apply quiet_app; assumption | reflexivity].
  - exists e1. auto.
Qed.

Lemma quiet_self {B} (k : DebuggerConverser -> M B) :
  (forall s, quiet_method (k s)) -> quiet_method (bind self k).
Proof. intros Hk s. unfold bind, self. apply Hk. Qed.

Lemma quiet_if {A} (b : bool) (m1 m2 : M A) :
  quiet_method m1 -> quiet_method m2 -> quiet_method (if b then m1 else m2).
Proof. destruct b; auto. Qed.

Lemma quiet_modify (f : DebuggerConverser -> DebuggerConverser) :
  (forall s, trace (f s) = trace s) ->
  (forall s, _conversation_len_before_first_response (f s) =
             _conversation_len_before_first_response s) ->
  quiet_method (modify f).
Proof.
  intros Ht Hl s. exists []. cbn [modify final]. rewrite Ht, Hl, app_nil_r.
  split; [reflexivity |]. split; [apply quiet_nil | reflexivity].
Qed.

Lemma quiet_log (ev : Event) :
  is_get_assistant_message ev = false -> is_build_runner ev = false ->
  is_extract_code ev = false -> is_run_code ev = false ->
  quiet_method (log ev).
Proof.
  intros Hg Hb He Hr s. exists [ev]. unfold log. rewrite modify_run. cbn [final]. project.
  split; [reflexivity |]. split; [| reflexivity].
  constructor; [auto | constructor].
Qed.

Lemma quiet_append_message (m : Message.t) : quiet_method (append_message m).
Proof. apply quiet_modify; reflexivity. Qed.

Lemma quiet_append_user content comment ignore :
  quiet_method (apply_append_user_message content comment ignore).
Proof.
  apply quiet_bind; [apply quiet_log; reflexivity | intros _; apply quiet_append_message].
Qed.

Lemma quiet_append_surrogate content comment :
  quiet_method (apply_append_surrogate_message content comment).
Proof.
  apply quiet_bind; [apply quiet_log; reflexivity | intros _; apply quiet_append_message].
Qed.

Lemma quiet_delete indices : quiet_method (apply_delete_messages indices).
Proof.
  apply quiet_bind; [apply quiet_log; reflexivity | intros _].
  apply quiet_modify; reflexivity.
Qed.

Lemma quiet_rewind : quiet_method _rewind_conversation_to_first_response.
Proof.
  apply quiet_bind; [apply quiet_log; reflexivity | intros _].
  apply quiet_modify; reflexivity.
Qed.

Lemma quiet_post_code_as_fresh code p : quiet_method (_post_code_as_fresh code p).
Proof.
  unfold _post_code_as_fresh.
  apply quiet_bind; [apply quiet_rewind | intros _].
  apply quiet_bind; [apply quiet_reads_only, reads_only_format | intros content].
  apply quiet_bind; [apply quiet_append_surrogate | intros _].
  apply quiet_bind; apply quiet_modify || intros _; try reflexivity.
  apply quiet_modify; reflexivity.
Qed.

Lemma quiet_respond issues code p : quiet_method (_respond_to_issues issues code p).
Proof.
  unfold _respond_to_issues.
  apply quiet_self; intros s0.
  apply quiet_bind; [apply quiet_reads_only, reads_only_choose_action | intros action].
  apply quiet_bind.
  { destruct (decide (action = repost)); [apply quiet_post_code_as_fresh | apply quiet_ret]. }
  intros _. apply quiet_self; intros s1.
  apply quiet_bind; [apply quiet_append_user | intros _].
  apply quiet_bind.
  { destruct (decide (action = regenerate)); [apply quiet_delete | apply quiet_ret]. }
  intros _. apply quiet_modify; reflexivity.
Qed.

Lemma quiet_os_remove file : quiet_method (os_remove file).
Proof.
  unfold os_remove. apply quiet_self; intros s.
  destruct (bool_decide (file ∈ working_directory s)).
  - apply quiet_bind; [apply quiet_log; reflexivity | intros _].
    apply quiet_modify; reflexivity.
  - apply quiet_reads_only, reads_only_raise.
Qed.

Lemma quiet_for_each {A} (xs : list A) (body : A -> M unit) :
  (forall x, quiet_method (body x)) -> quiet_method (for_each xs body).
Proof.
  intros Hb. induction xs as [|x xs IH]; cbn [for_each].
  - apply quiet_ret.
  - apply quiet_bind; [apply Hb | intros _; exact IH].
Qed.

Lemma quiet_incomplete_code : quiet_method _get_issue_for_incomplete_code.
Proof.
  unfold _get_issue_for_incomplete_code. apply quiet_self; intros s.
  apply quiet_bind; [| intros text; apply quiet_ret].
  destruct (engine_lt (model_engine s) MAX_MODEL_ENGINE); [| apply quiet_ret].
  apply quiet_bind; [apply quiet_modify; reflexivity | intros _].
  apply quiet_self; intros s'. apply quiet_ret.
Qed.

(** Responding and giving up the iteration. *)
Lemma quiet_respond_none issues code p :
  quiet_method
    (bind (_respond_to_issues issues code p) (fun _ => ret (None (A := CodeAndOutput)))).
Proof. apply quiet_bind; [apply quiet_respond | intros _; apply quiet_ret]. Qed.

Lemma quiet_check_outputs code code_and_output collected :
  quiet_method (check_outputs code code_and_output collected).
Proof.
  unfold check_outputs.
  apply quiet_bind; [apply quiet_reads_only, reads_only_num_files_created | intros missing].
  apply quiet_bind; [apply quiet_reads_only, reads_only_unsaved_dataframes | intros unsaved].
  apply quiet_bind; [apply quiet_reads_only, reads_only_created_output_files | intros bad].
  apply quiet_if; [| apply quiet_ret].
  apply quiet_bind; [apply quiet_for_each, quiet_os_remove | intros _].
  apply quiet_respond_none.
Qed.

(** After the code is run, nothing but edits and removals. *)
Lemma run_extracted_events code_runner code (s : DebuggerConverser) :
  exists events,
    trace (final (run_extracted code_runner code s)) = trace s ++ RunCode code :: events /\
    quiet events /\
    _conversation_len_before_first_response (final (run_extracted code_runner code s)) =
    _conversation_len_before_first_response s.
Proof.
  unfold run_extracted. step run_code_run.
  set (s1 := set_working_directory _ _).
  assert (Ht : trace s1 = trace s ++ [RunCode code])
    by (subst s1; unfold logged; project; reflexivity).
  assert (Hl : _conversation_len_before_first_response s1 =
               _conversation_len_before_first_response s)
    by (subst s1; unfold logged; project; reflexivity).
  match goal with
  | |- context [final (?k s1)] =>
      assert (Hq : quiet_method k);
      [| destruct (Hq s1) as (events & Hte & Hqe & Hle); exists events;
         rewrite Hte, Hle, Ht, Hl, <- app_assoc; auto]
  end.
  destruct (run_code code_runner (working_directory s)).1 as [cao collected | e].
  - apply quiet_check_outputs.
  - apply quiet_bind; [apply quiet_reads_only, reads_only_classify_failure | intros i].
    apply quiet_respond_none.
Qed.

(** The static check never lets an incremental change through: its list then
    holds one entry, an issue or [None]. *)
Lemma check_statically_events code_runner code (s : DebuggerConverser) :
  exists events,
    trace (final (check_statically code_runner code s)) = trace s ++ events /\
    _conversation_len_before_first_response (final (check_statically code_runner code s)) =
    _conversation_len_before_first_response s /\
    if _requesting_small_change s then quiet events
    else exists tail, events = RunCode code :: tail /\ quiet tail.
Proof.
  unfold check_statically. step self_run.
  destruct (_requesting_small_change s) eqn:Hs.
  - destruct (reads_only_not_a_modification code (previous_code s) s) as ([e | i] & E);
      cbn [stops_with] in E.
    + erewrite bind_raised by (erewrite bind_raised by exact E; reflexivity).
      exists []. rewrite app_nil_r. cbn [final]. split; [reflexivity |].
      split; [reflexivity | apply quiet_nil].
    + erewrite bind_returned by (erewrite bind_returned by exact E; reflexivity).
      cbv beta. erewrite bind_returned by reflexivity. cbv beta.
      cbn [app]. rewrite bool_decide_eq_false_2 by discriminate. cbn [negb].
      destruct (quiet_respond_none (inr [i]) (Some code) (Some StaticCheck) s)
        as (events & Ht & Hq & Hl).
      exists events. auto.
  - erewrite bind_returned by reflexivity. cbv beta.
    erewrite bind_returned by reflexivity. cbv beta.
    cbn [app]. rewrite bool_decide_eq_true_2 by reflexivity. cbn [negb].
    destruct (run_extracted_events code_runner code s) as (tail & Ht & Hq & Hl).
    exists (RunCode code :: tail). eauto.
Qed.

(** The stages after the code is asked for, by what the runner found. *)
Lemma iteration_opening (s : DebuggerConverser) :
  _get_code_and_respond_to_issues s =
  match extract_code (runner_at s) with
  | IncompleteBlockFailedExtractingBlock =>
      bind _get_issue_for_incomplete_code (fun incomplete =>
        bind (_respond_to_issues (inl incomplete) None (Some IncompleteBlock))
          (fun _ => ret None))
  | FailedExtractingBlock str_e =>
      bind (_get_issue_for_missing_or_multiple_code str_e) (fun missing =>
        bind (_respond_to_issues (inl missing) None (Some NotSingleBlock))
          (fun _ => ret None))
  | Extracted code => check_statically (runner_at s) code
  end (extracting s).
Proof.
  unfold _get_code_and_respond_to_issues.
  step self_run. step get_assistant_message_run. step get_code_runner_run.
  step extract_run. fold (extracting s).
  match goal with
  | |- context [extract_code ?r] =>
      replace r with (runner_at s)
        by (unfold runner_at, with_message, logged; project; reflexivity)
  end.
  reflexivity.
Qed.

(** What an iteration adds to the trace, whether it returns or raises. *)
Lemma iteration_events (s : DebuggerConverser) :
  exists events,
    trace (final (_get_code_and_respond_to_issues s)) = trace s ++ opening s ++ events /\
    _conversation_len_before_first_response (final (_get_code_and_respond_to_issues s)) =
    _conversation_len_before_first_response s /\
    if reaches_run s
    then exists code tail, events = RunCode code :: tail /\ quiet tail
    else quiet events.
Proof.
  rewrite iteration_opening. unfold reaches_run.
  assert (Ht : trace (extracting s) = trace s ++ opening s).
  { unfold extracting, opening, with_message, logged. project.
    rewrite <- !app_assoc. reflexivity. }
  assert (Hl : _conversation_len_before_first_response (extracting s) =
               _conversation_len_before_first_response s).
  { unfold extracting, with_message, logged. project. reflexivity. }
  assert (Hsmall : _requesting_small_change (extracting s) = _requesting_small_change s).
  { unfold extracting, with_message, logged. project. reflexivity. }
  assert (Hquiet : forall k : M (option CodeAndOutput),
             quiet_method k ->
             exists events,
               trace (final (k (extracting s))) = trace s ++ opening s ++ events /\
               _conversation_len_before_first_response (final (k (extracting s))) =
               _conversation_len_before_first_response s /\ quiet events).
  { intros k Hk. destruct (Hk (extracting s)) as (events & Hte & Hqe & Hle).
    exists events. rewrite Hte, Hle, Ht, Hl, <- app_assoc. auto. }
  destruct (extract_code (runner_at s)) as [code | | str_e].
  - destruct (check_statically_events (runner_at s) code (extracting s))
      as (events & Hte & Hle & Hcase).
    exists events. rewrite Hte, Hle, Ht, Hl, <- app_assoc.
    split; [reflexivity |]. split; [reflexivity |].
    rewrite Hsmall in Hcase.
    destruct (_requesting_small_change s); cbn [negb]; [exact Hcase |].
    destruct Hcase as (tail & -> & Hq). eauto.
  - apply Hquiet. apply quiet_bind; [apply quiet_incomplete_code | intros i].
    apply quiet_respond_none.
  - apply Hquiet.
    apply quiet_bind; [apply quiet_reads_only, reads_only_missing_or_multiple | intros i].
    apply quiet_respond_none.
Qed.

(** *** Counting *)

Lemma count_app kind (a b : list Event) : count kind (a ++ b) = count kind a + count kind b.
Proof. unfold count. rewrite List.filter_app, length_app. lia. Qed.

Lemma count_nil kind : count kind [] = 0.
Proof. reflexivity. Qed.

Lemma count_quiet (events : list Event) :
  quiet events ->
  count is_get_assistant_message events = 0 /\ count is_build_runner events = 0 /\
  count is_extract_code events = 0 /\ count is_run_code events = 0.
Proof.
  unfold count. induction 1 as [|ev events (Hg & Hb & He & Hr) _ IH]; cbn [List.filter].
  - auto.
  - rewrite Hg, Hb, He, Hr. exact IH.
Qed.

Lemma count_bounds kind (events : list Event) :
  0 <= count kind events <= Z.of_nat (length events).
Proof.
  unfold count. pose proof (List.filter_length_le kind events). lia.
Qed.

Lemma iteration_counts (s : DebuggerConverser) :
  exists events,
    trace (final (_get_code_and_respond_to_issues s)) = trace s ++ events /\
    _conversation_len_before_first_response (final (_get_code_and_respond_to_issues s)) =
    _conversation_len_before_first_response s /\
    count is_get_assistant_message events = 1 /\
    count is_build_runner events = 1 /\
    count is_extract_code events = 1 /\
    count is_run_code events = (if reaches_run s then 1 else 0).
Proof.
  destruct (iteration_events s) as (events & Ht & Hl & Hcase).
  exists (opening s ++ events). split; [exact Ht |]. split; [exact Hl |].
  rewrite !count_app.
  destruct (reaches_run s).
  - destruct Hcase as (code & tail & -> & Hq).
    destruct (count_quiet tail Hq) as (Hg & Hb & He & Hr).
    change (RunCode code :: tail) with ([RunCode code] ++ tail).
    rewrite !count_app, Hg, Hb, He, Hr. repeat split; reflexivity.
  - destruct (count_quiet events Hcase) as (-> & -> & -> & ->).
    repeat split; reflexivity.
Qed.

(** *** The loop *)

Lemma range_cons (i : Z) (n : nat) :
  range i (i + Z.of_nat (S n)) = i :: range (i + 1) (i + 1 + Z.of_nat n).
Proof.
  unfold range.
  replace (Z.to_nat (i + Z.of_nat (S n) - i)) with (S n) by lia.
  replace (Z.to_nat (i + 1 + Z.of_nat n - (i + 1))) with n by lia.
  cbn [seq map]. f_equal; [lia |].
  rewrite <- seq_shift, map_map. apply map_ext. intros k. lia.
Qed.

Lemma range_nil (i : Z) : range i (i + Z.of_nat 0) = [].
Proof. unfold range. replace (Z.to_nat (i + Z.of_nat 0 - i)) with 0%nat by lia. reflexivity. Qed.

(** As long as every iteration fails, the loop goes through all of them. *)
Lemma debug_iterations_fail (n : nat) :
  forall (i : Z) (s : DebuggerConverser),
    Forall fails (iteration_starts n i s) ->
    debug_iterations (range i (i + Z.of_nat n)) s = Returned None (after_iterations n i s).
Proof.
  induction n as [|n IH]; intros i s Hf.
  - rewrite range_nil. reflexivity.
  - rewrite range_cons. cbn [iteration_starts after_iterations] in *.
    inversion Hf as [|s0 rest (s' & Hs') Hrest]; subst.
    cbn [debug_iterations]. unfold bind at 1, modify at 1.
    unfold bind at 1. rewrite Hs'. cbn [final] in *. rewrite Hs' in Hrest. cbn [final] in Hrest.
    replace (i + 1 + Z.of_nat n) with (i + 1 + Z.of_nat n) by reflexivity.
    apply IH. exact Hrest.
Qed.

Lemma iteration_starts_length (n : nat) :
  forall i (s : DebuggerConverser), length (iteration_starts n i s) = n.
Proof. induction n as [|n IH]; intros i s; cbn; [reflexivity | rewrite IH; reflexivity]. Qed.

(** What [k] iterations add to the trace. *)
Lemma after_iterations_counts (n : nat) :
  forall (i : Z) (s : DebuggerConverser),
  exists events,
    trace (after_iterations n i s) = trace s ++ events /\
    _conversation_len_before_first_response (after_iterations n i s) =
    _conversation_len_before_first_response s /\
    count is_get_assistant_message events = Z.of_nat n /\
    count is_build_runner events = Z.of_nat n /\
    count is_extract_code events = Z.of_nat n /\
    count is_run_code events =
      Z.of_nat (length (List.filter reaches_run (iteration_starts n i s))).
Proof.
  induction n as [|n IH]; intros i s.
  - exists []. cbn. rewrite app_nil_r. repeat split; reflexivity.
  - cbn [after_iterations iteration_starts List.filter].
    destruct (iteration_counts (set_debug_iteration i s))
      as (e1 & Ht1 & Hl1 & Hg1 & Hb1 & He1 & Hr1).
    destruct (IH (i + 1) (final (_get_code_and_respond_to_issues (set_debug_iteration i s))))
      as (e2 & Ht2 & Hl2 & Hg2 & Hb2 & He2 & Hr2).
    exists (e1 ++ e2). rewrite Ht2, Ht1, Hl2, Hl1, !count_app, <- app_assoc.
    cbn [trace set_debug_iteration _conversation_len_before_first_response].
    rewrite Hg1, Hg2, Hb1, Hb2, He1, He2, Hr1, Hr2.
    repeat split; try lia.
    destruct (reaches_run (set_debug_iteration i s)); cbn [length]; lia.
Qed.

End Iteration.

(** ** Methods that do not read the controller *)

Section Stateless.
Context `{the_text : Text} `{the_engine : Engine} `{the_world : !World}.

Lemma stateless_ret {A} (a : A) : stateless (ret a).
Proof. exists (inr a). reflexivity. Qed.

Lemma stateless_raise {A} (e : PyError) : stateless (raise (A := A) e).
Proof. exists (inl e). reflexivity. Qed.

Lemma stateless_format template args kwargs : stateless (format template args kwargs).
Proof.
  exists (str_format template args kwargs). intros s. unfold format.
  destruct (str_format template args kwargs); reflexivity.
Qed.

Lemma stateless_bind {A B} (m : M A) (k : A -> M B) :
  stateless m -> (forall a, stateless (k a)) -> stateless (bind m k).
Proof.
  intros ([e | a] & Hm) Hk.
  - exists (inl e). intros s. unfold bind. rewrite Hm. reflexivity.
  - destruct (Hk a) as (r & Hr). exists r. intros s. unfold bind. rewrite Hm. apply Hr.
Qed.

Lemma stateless_if {A} (b : bool) (m1 m2 : M A) :
  stateless m1 -> stateless m2 -> stateless (if b then m1 else m2).
Proof. destruct b; auto. Qed.

Lemma stateless_gather {A B} (xs : list A) (body : A -> M (list B)) :
  (forall x, stateless (body x)) -> stateless (gather xs body).
Proof.
  intros Hb. induction xs as [|x xs IH]; cbn [gather].
  - apply stateless_ret.
  - apply stateless_bind; [apply Hb | intros found].
    apply stateless_bind; [exact IH | intros more; apply stateless_ret].
Qed.

(** What such a method returns from one controller it returns from any. *)
Lemma stateless_anywhere {A} (m : M A) (a : A) (s s' : DebuggerConverser) :
  stateless m -> m s = Returned a s -> m s' = Returned a s'.
Proof.
  intros ([e | a'] & Hm) E; rewrite Hm in E; cbn [stops_with] in E.
  - discriminate.
  - injection E as <-. rewrite Hm. reflexivity.
Qed.

Lemma stateless_output_file_content requirement name content :
  stateless (_get_issues_for_output_file_content requirement name content).
Proof.
  unfold _get_issues_for_output_file_content.
  apply stateless_bind.
  - apply stateless_if; [| apply stateless_ret].
    apply stateless_bind; [apply stateless_format | intros text; apply stateless_ret].
  - intros [text |]; apply stateless_ret.
Qed.

Lemma stateless_output_files_of code_and_output requirement :
  stateless (output_files_of code_and_output requirement).
Proof.
  unfold output_files_of.
  destruct (getitem _ requirement); [apply stateless_ret | apply stateless_raise].
Qed.

(** The checks of the outputs read the output requirements and the flag
    about saving dataframes, nothing else of the controller. *)
Lemma num_files_created_anywhere code_and_output found (s s' : DebuggerConverser) :
  output_file_requirements s' = output_file_requirements s ->
  _get_issues_for_num_files_created code_and_output s = Returned found s ->
  _get_issues_for_num_files_created code_and_output s' = Returned found s'.
Proof.
  unfold _get_issues_for_num_files_created. intros Hr.
  step self_run. step self_run. rewrite Hr.
  apply stateless_anywhere, stateless_gather. intros requirement.
  apply stateless_bind; [apply stateless_output_files_of | intros output_files].
  apply stateless_if; apply stateless_ret.
Qed.

Lemma unsaved_dataframes_anywhere code_and_output found (s s' : DebuggerConverser) :
  enforce_saving_altered_dataframes s' = enforce_saving_altered_dataframes s ->
  _get_issues_for_unsaved_dataframes code_and_output s = Returned found s ->
  _get_issues_for_unsaved_dataframes code_and_output s' = Returned found s'.
Proof.
  unfold _get_issues_for_unsaved_dataframes. intros Hr.
  step self_run. step self_run. rewrite Hr.
  apply stateless_anywhere, stateless_if; apply stateless_ret.
Qed.

Lemma created_output_files_anywhere code_and_output found (s s' : DebuggerConverser) :
  output_file_requirements s' = output_file_requirements s ->
  _get_issues_for_created_output_files code_and_output s = Returned found s ->
  _get_issues_for_created_output_files code_and_output s' = Returned found s'.
Proof.
  unfold _get_issues_for_created_output_files. intros Hr.
  step self_run. step self_run. rewrite Hr.
  apply stateless_anywhere, stateless_gather. intros requirement.
  apply stateless_bind; [apply stateless_output_files_of | intros output_files].
  apply stateless_if; [| apply stateless_ret].
  apply stateless_gather. intros name.
  destruct (getitem _ name);
    [apply stateless_output_file_content | apply stateless_raise].
Qed.

End Stateless.

(** ** Removing the files a run created *)

Lemma difference_list_cons (w : gset string) (file : string) (files : list string) :
  w ∖ {[ file ]} ∖ list_to_set files = w ∖ list_to_set (file :: files).
Proof.
  cbn [list_to_set]. apply set_eq. intros x.
  rewrite !elem_of_difference, elem_of_union, elem_of_singleton. tauto.
Qed.

Section RemovingFiles.
Context `{the_text : Text} `{the_engine : Engine} `{the_world : !World}.

(** Updates of the trace and of the files override earlier ones. *)
Lemma set_files_and_trace_again w1 t1 w2 t2 (s : DebuggerConverser) :
  set_working_directory w2 (set_trace t2 (set_working_directory w1 (set_trace t1 s))) =
  set_working_directory w2 (set_trace t2 s).
Proof. destruct s. reflexivity. Qed.

Lemma set_files_and_trace_same (s : DebuggerConverser) :
  set_working_directory (working_directory s) (set_trace (trace s) s) = s.
Proof. destruct s. reflexivity. Qed.

Lemma os_remove_present file (s : DebuggerConverser) :
  file ∈ working_directory s ->
  os_remove file s =
  Returned tt
    (set_working_directory (working_directory s ∖ {[ file ]})
       (set_trace (trace s ++ [OsRemove file]) s)).
Proof.
  intros Hin. unfold os_remove. step self_run.
  rewrite bool_decide_eq_true_2 by exact Hin.
  step log_run. rewrite modify_run. unfold logged. project. reflexivity.
Qed.

(** A file that is not there stops the removal with an error, the files
    still in place. *)
Lemma os_remove_missing file (s : DebuggerConverser) :
  file ∉ working_directory s ->
  os_remove file s = Raised (OsFileNotFoundError file) s.
Proof.
  intros Hin. unfold os_remove. step self_run.
  rewrite bool_decide_eq_false_2 by exact Hin. reflexivity.
Qed.

(** Removing files that are all there, each listed once, removes them all,
    in the order of the list, and touches nothing else. *)
Lemma remove_created_files (files : list string) :
  forall s : DebuggerConverser,
    NoDup files ->
    (forall file, In file files -> file ∈ working_directory s) ->
    for_each files os_remove s =
    Returned tt
      (set_working_directory (working_directory s ∖ list_to_set files)
         (set_trace (trace s ++ map OsRemove files) s)).
Proof.
  induction files as [|file files IH]; intros s Hnd Hin; cbn [for_each map].
  - rewrite ret_run, app_nil_r. f_equal. cbn [list_to_set].
    rewrite difference_empty_L. symmetry. apply set_files_and_trace_same.
  - apply NoDup_cons in Hnd as [Hnot Hnd].
    erewrite bind_returned by (apply os_remove_present, Hin; left; reflexivity).
    cbv beta. rewrite IH.
    + project. rewrite set_files_and_trace_again. f_equal. f_equal.
      * apply difference_list_cons.
      * f_equal. rewrite <- app_assoc. reflexivity.
    + exact Hnd.
    + intros other Hother. project.
      apply elem_of_difference. split; [apply Hin; right; exact Hother |].
      intros Heq. apply elem_of_singleton in Heq. subst other.
      apply Hnot. apply list_elem_of_In. exact Hother.
Qed.

End RemovingFiles.

(** ** The claims about an iteration and about the loop *)

Section IterationClaims.
Context `{the_text : Text} `{the_engine : Engine} `{the_world : !World}.

(** A classification above StaticCheck is re-posted, first response or not. *)
Lemma choose_action_severe (n : Z) (p : CodeProblem) (s : DebuggerConverser) :
  CodeProblem_gt p StaticCheck = true ->
  choose_action n (Some p) s = Returned repost s.
Proof.
  intros Hp. destruct (Z.eq_dec n 0) as [-> | Hn].
  - rewrite choose_action_first. destruct p; try discriminate; reflexivity.
  - rewrite choose_action_later by exact Hn. rewrite Hp. reflexivity.
Qed.

Lemma extracting_fields (s : DebuggerConverser) :
  trace (extracting s) = trace s ++ opening s /\
  working_directory (extracting s) = working_directory s /\
  _requesting_small_change (extracting s) = _requesting_small_change s /\
  output_file_requirements (extracting s) = output_file_requirements s /\
  enforce_saving_altered_dataframes (extracting s) = enforce_saving_altered_dataframes s /\
  prompt_to_append_at_end_of_response (extracting s) =
    prompt_to_append_at_end_of_response s /\
  conversation (extracting s) = conversation s ++ [assistant_message (chatgpt s)] /\
  _conversation_len_before_first_response (extracting s) =
    _conversation_len_before_first_response s.
Proof.
  unfold extracting, opening, with_message, logged. project.
  rewrite <- !app_assoc. repeat split.
Qed.

(** From the extraction of a block to the run, when no static check is due. *)
Lemma iteration_runs (s : DebuggerConverser) (code : string) :
  extract_code (runner_at s) = Extracted code ->
  _requesting_small_change s = false ->
  _get_code_and_respond_to_issues s = run_extracted (runner_at s) code (extracting s).
Proof.
  intros Hx Hs. rewrite iteration_opening, Hx. unfold check_statically.
  step self_run.
  destruct (extracting_fields s) as (_ & _ & -> & _). rewrite Hs.
  erewrite bind_returned by reflexivity. cbv beta.
  erewrite bind_returned by reflexivity. cbv beta.
  cbn [app]. rewrite bool_decide_eq_true_2 by reflexivity. reflexivity.
Qed.

Lemma ran_fields (s : DebuggerConverser) code files :
  trace (ran s code files) = trace s ++ opening s ++ [RunCode code] /\
  working_directory (ran s code files) = files /\
  output_file_requirements (ran s code files) = output_file_requirements s /\
  enforce_saving_altered_dataframes (ran s code files) =
    enforce_saving_altered_dataframes s /\
  prompt_to_append_at_end_of_response (ran s code files) =
    prompt_to_append_at_end_of_response s /\
  conversation (ran s code files) = conversation s ++ [assistant_message (chatgpt s)] /\
  _conversation_len_before_first_response (ran s code files) =
    _conversation_len_before_first_response s /\
  debug_iteration (ran s code files) = debug_iteration s /\
  max_debug_iterations (ran s code files) = max_debug_iterations s.
Proof.
  unfold ran, extracting, opening, with_message, logged. project.
  rewrite <- !app_assoc. repeat split.
Qed.



(** The restart message, as it is appended. *)
Lemma range_to_nat (n : Z) : 0 <= n -> range 1 (n + 1) = range 1 (1 + Z.of_nat (Z.to_nat n)).
Proof. intros Hn. f_equal. lia. Qed.

(** C2, as the code has it.  With [max_debug_iterations = N], [N] at least 1,
    and every iteration failing, [run_debugging] asks the model [N] times,
    builds [N] runners and asks each for the code once; it runs code once in
    each iteration that gets past the extraction and the static check, so at
    most [N] times, and [N] times when every iteration gets that far.  Then
    it appends the restart message, rewinds the conversation to immediately
    after the first response and returns no result. *)
Theorem exhausted_iterations (s : DebuggerConverser) :
  let s0 := initialize_conversation s in
  let N := max_debug_iterations s0 in
  let starts := iteration_starts (Z.to_nat N) 1 s0 in
  let last := after_iterations (Z.to_nat N) 1 s0 in
  1 <= N ->
  Forall fails starts ->
  exists s' events,
    run_debugging s = Returned None s' /\
    trace s' =
      trace s0 ++ events ++ [AppendUserMessage restart_message; RewindToFirstResponse] /\
    count is_get_assistant_message events = N /\
    count is_build_runner events = N /\
    count is_extract_code events = N /\
    count is_run_code events = Z.of_nat (length (List.filter reaches_run starts)) /\
    count is_run_code events <= N /\
    (Forall (fun start => reaches_run start = true) starts ->
     count is_run_code events = N) /\
    conversation s' =
      take (Z.to_nat (_conversation_len_before_first_response s0 + 1))
        (conversation last ++ [user_message restart_message None true]).
Proof.
  intros s0 N starts last HN Hfail.
  destruct (after_iterations_counts (Z.to_nat N) 1 s0)
    as (events & Ht & Hl & Hg & Hb & He & Hr).
  fold last in Ht, Hl. fold starts in Hr.
  unfold run_debugging.
  erewrite bind_returned by (unfold initialize_conversation_if_needed; apply modify_run).
  cbv beta. step self_run. fold s0. fold N.
  rewrite range_to_nat by lia.
  erewrite bind_returned by (apply debug_iterations_fail; exact Hfail).
  cbv beta iota. fold last.
  step append_user_run. step rewind_run. rewrite ret_run.
  eexists. exists events. split; [reflexivity |].
  unfold rewound. project. rewrite Ht, Hl, <- !app_assoc.
  split; [reflexivity |].
  split; [rewrite Hg; lia |]. split; [rewrite Hb; lia |]. split; [rewrite He; lia |].
  split; [exact Hr |].
  assert (Hlen : length starts = Z.to_nat N) by apply iteration_starts_length.
  split.
  - rewrite Hr. pose proof (List.filter_length_le reaches_run starts). lia.
  - split; [| reflexivity].
    intros Hall. rewrite Hr.
    replace (List.filter reaches_run starts) with starts; [lia |].
    clear -Hall. induction starts as [|start starts IH]; [reflexivity |].
    inversion Hall as [|? ? Hstart Hrest]; subst. cbn [List.filter].
    rewrite Hstart. f_equal. apply IH. exact Hrest.
Qed.

End IterationClaims.

(** * More about the controller *)

(** ** What the methods leave alone *)

Section Frame.
Context `{the_text : Text} `{the_engine : Engine} `{the_world : !World}.

Lemma keeps_reads_only {A} (m : M A) : reads_only m -> keeps_configuration m.
Proof. intros Hm s. rewrite (reads_only_final m Hm s). split; reflexivity. Qed.

Lemma keeps_ret {A} (a : A) : keeps_configuration (ret a).
Proof. apply keeps_reads_only, reads_only_ret. Qed.

Lemma keeps_bind {A B} (m : M A) (k : A -> M B) :
  keeps_configuration m -> (forall a, keeps_configuration (k a)) ->
  keeps_configuration (bind m k).
Proof.
  intros Hm Hk s. destruct (Hm s) as (Hc & Hi). unfold bind.
  destruct (m s) as [a s1 | err s1]; cbn [final] in *.
  - destruct (Hk a s1) as (Hc2 & Hi2). rewrite Hc2, Hi2. auto.
  - auto.
Qed.

Lemma keeps_self {B} (k : DebuggerConverser -> M B) :
  (forall s, keeps_configuration (k s)) -> keeps_configuration (bind self k).
Proof. intros Hk s. unfold bind, self. apply Hk. Qed.

Lemma keeps_if {A} (b : bool) (m1 m2 : M A) :
  keeps_configuration m1 -> keeps_configuration m2 ->
  keeps_configuration (if b then m1 else m2).
Proof. destruct b; auto. Qed.

Lemma keeps_modify (f : DebuggerConverser -> DebuggerConverser) :
  (forall s, configuration (f s) = configuration s) ->
  (forall s, debug_iteration (f s) = debug_iteration s) ->
  keeps_configuration (modify f).
Proof. intros Hc Hi s. cbn [modify final]. auto. Qed.

Lemma configuration_set_trace t (s : DebuggerConverser) :
  configuration (set_trace t s) = configuration s.
Proof. unfold configuration. project. reflexivity. Qed.

Lemma configuration_set_conversation c (s : DebuggerConverser) :
  configuration (set_conversation c s) = configuration s.
Proof. unfold configuration. project. reflexivity. Qed.

Lemma configuration_set_working_directory w (s : DebuggerConverser) :
  configuration (set_working_directory w s) = configuration s.
Proof. unfold configuration. project. reflexivity. Qed.

Lemma configuration_set_previous_code c (s : DebuggerConverser) :
  configuration (set_previous_code c s) = configuration s.
Proof. unfold configuration. project. reflexivity. Qed.

Lemma configuration_set_previous_code_problem p (s : DebuggerConverser) :
  configuration (set_previous_code_problem p s) = configuration s.
Proof. unfold configuration. project. reflexivity. Qed.

Lemma configuration_set_requesting_small_change b (s : DebuggerConverser) :
  configuration (set_requesting_small_change b s) = configuration s.
Proof. unfold configuration. project. reflexivity. Qed.

Lemma configuration_set_model_engine e (s : DebuggerConverser) :
  configuration (set_model_engine e s) = configuration s.
Proof. unfold configuration. project. reflexivity. Qed.

Lemma configuration_set_debug_iteration i (s : DebuggerConverser) :
  configuration (set_debug_iteration i s) = configuration s.
Proof. unfold configuration. project. reflexivity. Qed.

Lemma keeps_log (ev : Event) : keeps_configuration (log ev).
Proof.
  unfold log. apply keeps_modify; intros s; [apply configuration_set_trace | reflexivity].
Qed.

Lemma keeps_append_message (m : Message.t) : keeps_configuration (append_message m).
Proof.
  apply keeps_modify; intros s; [apply configuration_set_conversation | reflexivity].
Qed.

Lemma keeps_append_user content comment ignore :
  keeps_configuration (apply_append_user_message content comment ignore).
Proof.
  apply keeps_bind; [apply keeps_log | intros _; apply keeps_append_message].
Qed.

Lemma keeps_append_surrogate content comment :
  keeps_configuration (apply_append_surrogate_message content comment).
Proof.
  apply keeps_bind; [apply keeps_log | intros _; apply keeps_append_message].
Qed.

Lemma keeps_delete indices : keeps_configuration (apply_delete_messages indices).
Proof.
  apply keeps_bind; [apply keeps_log | intros _].
  apply keeps_modify; intros s; [apply configuration_set_conversation | reflexivity].
Qed.

Lemma keeps_rewind : keeps_configuration _rewind_conversation_to_first_response.
Proof.
  apply keeps_bind; [apply keeps_log | intros _].
  apply keeps_modify; intros s; [apply configuration_set_conversation | reflexivity].
Qed.

Lemma keeps_post_code_as_fresh code p : keeps_configuration (_post_code_as_fresh code p).
Proof.
  unfold _post_code_as_fresh.
  apply keeps_bind; [apply keeps_rewind | intros _].
  apply keeps_bind; [apply keeps_reads_only, reads_only_format | intros content].
  apply keeps_bind; [apply keeps_append_surrogate | intros _].
  apply keeps_bind; [| intros _];
    apply keeps_modify; intros s;
    first [apply configuration_set_previous_code
          | apply configuration_set_previous_code_problem
          | reflexivity].
Qed.

Lemma keeps_respond issues code p : keeps_configuration (_respond_to_issues issues code p).
Proof.
  unfold _respond_to_issues.
  apply keeps_self; intros s0.
  apply keeps_bind; [apply keeps_reads_only, reads_only_choose_action | intros action].
  apply keeps_bind.
  { destruct (decide (action = repost)); [apply keeps_post_code_as_fresh | apply keeps_ret]. }
  intros _. apply keeps_self; intros s1.
  apply keeps_bind; [apply keeps_append_user | intros _].
  apply keeps_bind.
  { destruct (decide (action = regenerate)); [apply keeps_delete | apply keeps_ret]. }
  intros _. apply keeps_modify; intros s;
    [apply configuration_set_requesting_small_change | reflexivity].
Qed.

Lemma keeps_os_remove file : keeps_configuration (os_remove file).
Proof.
  unfold os_remove. apply keeps_self; intros s.
  destruct (bool_decide (file ∈ working_directory s)).
  - apply keeps_bind; [apply keeps_log | intros _].
    apply keeps_modify; intros s'; [apply configuration_set_working_directory | reflexivity].
  - apply keeps_reads_only, reads_only_raise.
Qed.

Lemma keeps_for_each {A} (xs : list A) (body : A -> M unit) :
  (forall x, keeps_configuration (body x)) -> keeps_configuration (for_each xs body).
Proof.
  intros Hb. induction xs as [|x xs IH]; cbn [for_each].
  - apply keeps_ret.
  - apply keeps_bind; [apply Hb | intros _; exact IH].
Qed.

Lemma keeps_incomplete_code : keeps_configuration _get_issue_for_incomplete_code.
Proof.
  unfold _get_issue_for_incomplete_code. apply keeps_self; intros s.
  apply keeps_bind; [| intros text; apply keeps_ret].
  destruct (engine_lt (model_engine s) MAX_MODEL_ENGINE); [| apply keeps_ret].
  apply keeps_bind.
  - apply keeps_modify; intros s'; [apply configuration_set_model_engine | reflexivity].
  - intros _. apply keeps_self; intros s'. apply keeps_ret.
Qed.

Lemma keeps_respond_none issues code p :
  keeps_configuration
    (bind (_respond_to_issues issues code p) (fun _ => ret (None (A := CodeAndOutput)))).
Proof. apply keeps_bind; [apply keeps_respond | intros _; apply keeps_ret]. Qed.

Lemma keeps_check_outputs code code_and_output collected :
  keeps_configuration (check_outputs code code_and_output collected).
Proof.
  unfold check_outputs.
  apply keeps_bind; [apply keeps_reads_only, reads_only_num_files_created | intros missing].
  apply keeps_bind; [apply keeps_reads_only, reads_only_unsaved_dataframes | intros unsaved].
  apply keeps_bind; [apply keeps_reads_only, reads_only_created_output_files | intros bad].
  apply keeps_if; [| apply keeps_ret].
  apply keeps_bind; [apply keeps_for_each, keeps_os_remove | intros _].
  apply keeps_respond_none.
Qed.

Lemma keeps_run code_runner code : keeps_configuration (run code_runner code).
Proof.
  unfold run. apply keeps_bind; [apply keeps_log | intros _].
  apply keeps_self; intros s.
  apply keeps_bind; [| intros _; apply keeps_ret].
  apply keeps_modify; intros s'; [apply configuration_set_working_directory | reflexivity].
Qed.

Lemma keeps_run_extracted code_runner code :
  keeps_configuration (run_extracted code_runner code).
Proof.
  unfold run_extracted. apply keeps_bind; [apply keeps_run | intros [cao collected | e]].
  - apply keeps_check_outputs.
  - apply keeps_bind; [apply keeps_reads_only, reads_only_classify_failure | intros i].
    apply keeps_respond_none.
Qed.

Lemma keeps_check_statically code_runner code :
  keeps_configuration (check_statically code_runner code).
Proof.
  unfold check_statically. apply keeps_self; intros s.
  apply keeps_bind.
  { apply keeps_if; [| apply keeps_ret].
    apply keeps_bind; [apply keeps_reads_only, reads_only_not_a_modification | intros i].
    apply keeps_ret. }
  intros modification_issues.
  apply keeps_bind; [apply keeps_reads_only, reads_only_static_code_check | intros static].
  apply keeps_if; [apply keeps_respond_none | apply keeps_run_extracted].
Qed.

Lemma keeps_iteration : keeps_configuration _get_code_and_respond_to_issues.
Proof.
  unfold _get_code_and_respond_to_issues. apply keeps_self; intros s.
  apply keeps_bind.
  { unfold apply_get_and_append_assistant_message. apply keeps_self; intros s'.
    apply keeps_bind; [apply keeps_log | intros _].
    apply keeps_bind; [apply keeps_append_message | intros _; apply keeps_ret]. }
  intros response.
  apply keeps_bind.
  { unfold _get_code_runner. apply keeps_self; intros s'.
    apply keeps_bind; [apply keeps_log | intros _; apply keeps_ret]. }
  intros code_runner.
  apply keeps_bind.
  { unfold extract. apply keeps_bind; [apply keeps_log | intros _; apply keeps_ret]. }
  intros [code | | str_e].
  - apply keeps_check_statically.
  - apply keeps_bind; [apply keeps_incomplete_code | intros i]. apply keeps_respond_none.
  - apply keeps_bind; [apply keeps_reads_only, reads_only_missing_or_multiple | intros i].
    apply keeps_respond_none.
Qed.

End Frame.

(** ** The loop of [run_debugging] *)

Section Loop.
Context `{the_text : Text} `{the_engine : Engine} `{the_world : !World}.

Lemma range_first (i stop : Z) : i < stop -> range i stop = i :: range (i + 1) stop.
Proof.
  intros Hlt.
  replace stop with (i + Z.of_nat (S (Z.to_nat (stop - i - 1)))) at 1 by lia.
  rewrite range_cons. f_equal. f_equal. lia.
Qed.

Lemma range_empty (i stop : Z) : stop <= i -> range i stop = [].
Proof. intros Hle. unfold range. replace (Z.to_nat (stop - i)) with 0%nat by lia. reflexivity. Qed.

(** The loop goes through the iterations that give up and ends with the
    first one that does not: its result or its exception is that of the
    loop. *)
Lemma debug_iterations_stop (n : nat) :
  forall (i stop : Z) (s : DebuggerConverser),
    i + Z.of_nat n < stop ->
    Forall fails (iteration_starts n i s) ->
    gives_up (_get_code_and_respond_to_issues
                (set_debug_iteration (i + Z.of_nat n) (after_iterations n i s))) = false ->
    debug_iterations (range i stop) s =
    _get_code_and_respond_to_issues
      (set_debug_iteration (i + Z.of_nat n) (after_iterations n i s)).
Proof.
  induction n as [|n IH]; intros i stop s Hlt Hf Hstop.
  - rewrite range_first by lia. cbn [after_iterations] in *.
    replace (i + Z.of_nat 0) with i in * by lia.
    cbn [debug_iterations]. unfold bind at 1, modify at 1. unfold bind at 1.
    destruct (_get_code_and_respond_to_issues (set_debug_iteration i s))
      as [[result |] s' | e s']; [reflexivity | discriminate Hstop | reflexivity].
  - rewrite range_first by lia. cbn [iteration_starts after_iterations] in *.
    inversion Hf as [|s0 rest (s' & Hs') Hrest]; subst.
    cbn [debug_iterations]. unfold bind at 1, modify at 1. unfold bind at 1.
    rewrite Hs'. rewrite Hs' in Hrest, Hstop. cbn [final] in *.
    replace (i + Z.of_nat (S n)) with (i + 1 + Z.of_nat n) in * by lia.
    apply IH; [lia | exact Hrest | exact Hstop].
Qed.

(** X11.  [run_debugging] ends with the first iteration that does not give
    up.  When the iterations before the one numbered [k + 1] return no
    result and that one, still within [max_debug_iterations], returns a
    result or raises, then what [run_debugging] returns or raises, and the
    controller it leaves, are those of that iteration: no later iteration
    takes place, nothing is appended and the conversation is not rewound.
    The model has then been asked [k + 1] times. *)
Theorem first_conclusive_iteration_decides (s : DebuggerConverser) (k : nat) :
  let s0 := initialize_conversation s in
  let start := set_debug_iteration (1 + Z.of_nat k) (after_iterations k 1 s0) in
  Z.of_nat k < max_debug_iterations s0 ->
  Forall fails (iteration_starts k 1 s0) ->
  gives_up (_get_code_and_respond_to_issues start) = false ->
  run_debugging s = _get_code_and_respond_to_issues start /\
  exists events,
    trace (final (run_debugging s)) = trace s0 ++ events /\
    count is_get_assistant_message events = Z.of_nat k + 1.
Proof.
  intros s0 start Hk Hfail Hstop.
  assert (Hrun : run_debugging s = _get_code_and_respond_to_issues start).
  { unfold run_debugging.
    erewrite bind_returned by (unfold initialize_conversation_if_needed; apply modify_run).
    cbv beta. step self_run. fold s0.
    unfold bind.
    rewrite (debug_iterations_stop k 1 (max_debug_iterations s0 + 1) s0)
      by (lia || assumption).
    fold start.
    destruct (_get_code_and_respond_to_issues start)
      as [[result |] s' | e s']; [reflexivity | discriminate Hstop | reflexivity]. }
  split; [exact Hrun |]. rewrite Hrun.
  destruct (after_iterations_counts k 1 s0) as (before & Ht & _ & Hg & _).
  destruct (iteration_counts start) as (events & Hte & _ & Hge & _).
  exists (before ++ events). rewrite Hte. unfold start at 1. project.
  rewrite Ht, count_app, Hg, Hge, <- app_assoc. split; [reflexivity | lia].
Qed.

(** X12.  Without a budget ([max_debug_iterations] below 1) the range of the
    loop is empty: the model is never asked and no runner is built, the
    number of the iteration stays what it was; the restart message is
    appended, the conversation is rewound, and no result is returned. *)
Theorem no_budget_no_iteration (s : DebuggerConverser) :
  let s0 := initialize_conversation s in
  max_debug_iterations s0 < 1 ->
  exists s',
    run_debugging s = Returned None s' /\
    trace s' = trace s0 ++ [AppendUserMessage restart_message; RewindToFirstResponse] /\
    debug_iteration s' = debug_iteration s0 /\
    working_directory s' = working_directory s0 /\
    previous_code s' = previous_code s0.
Proof.
  intros s0 Hmax. unfold run_debugging.
  erewrite bind_returned by (unfold initialize_conversation_if_needed; apply modify_run).
  cbv beta. step self_run. fold s0.
  rewrite range_empty by lia. cbn [debug_iterations].
  erewrite bind_returned by apply ret_run. cbv beta iota.
  step append_user_run. step rewind_run. rewrite ret_run.
  eexists. split; [reflexivity |]. unfold rewound. project.
  rewrite <- app_assoc. repeat split.
Qed.

(** X13.  An iteration changes nothing of what the controller was built
    with: the data folder and the names of the data files, the requirements
    on the output files, the two flags about dataframes, the supported
    packages, the prompt appended to a response, the bound on the
    iterations and the saved position of the first response; nor the number
    of the iteration.  This holds whether it returns or raises, and so it
    does for the whole of [run_debugging] after the conversation is
    initialised. *)
Theorem configuration_is_kept (s : DebuggerConverser) :
  configuration (final (_get_code_and_respond_to_issues s)) = configuration s /\
  debug_iteration (final (_get_code_and_respond_to_issues s)) = debug_iteration s /\
  configuration (final (run_debugging s)) = configuration (initialize_conversation s).
Proof.
  destruct (keeps_iteration s) as (Hc & Hi). split; [exact Hc |]. split; [exact Hi |].
  assert (Hloop : forall iterations (s1 : DebuggerConverser),
             configuration (final (debug_iterations iterations s1)) = configuration s1).
  { induction iterations as [|i rest IH]; intros s1; [reflexivity |].
    cbn [debug_iterations]. unfold bind at 1, modify at 1. unfold bind at 1.
    destruct (keeps_iteration (set_debug_iteration i s1)) as (Hc1 & _).
    rewrite configuration_set_debug_iteration in Hc1.
    destruct (_get_code_and_respond_to_issues (set_debug_iteration i s1))
      as [[result |] s2 | e s2]; cbn [final] in *; [exact Hc1 | | exact Hc1].
    rewrite IH. exact Hc1. }
  unfold run_debugging.
  erewrite bind_returned by (unfold initialize_conversation_if_needed; apply modify_run).
  cbv beta. step self_run. unfold bind at 1.
  specialize (Hloop (range 1 (max_debug_iterations (initialize_conversation s) + 1))
                (initialize_conversation s)).
  destruct (debug_iterations _ (initialize_conversation s))
    as [[result |] s2 | e s2]; cbn [final] in *; [exact Hloop | | exact Hloop].
  assert (Hk : keeps_configuration
                 (bind (apply_append_user_message restart_message None true) (fun _ =>
                  bind _rewind_conversation_to_first_response (fun _ =>
                  ret (None (A := CodeAndOutput)))))).
  { apply keeps_bind; [apply keeps_append_user | intros _].
    apply keeps_bind; [apply keeps_rewind | intros _; apply keeps_ret]. }
  destruct (Hk s2) as (Hc2 & _). rewrite Hc2. exact Hloop.
Qed.

End Loop.

(** ** One iteration, once more *)

Section IterationOutcomes.
Context `{the_text : Text} `{the_engine : Engine} `{the_world : !World}.

Lemma for_each_app {A} (xs ys : list A) (body : A -> M unit) (s : DebuggerConverser) :
  for_each (xs ++ ys) body s = bind (for_each xs body) (fun _ => for_each ys body) s.
Proof.
  revert s. induction xs as [|x xs IH]; intros s; cbn [for_each app].
  - reflexivity.
  - unfold bind in *.
    destruct (body x s) as [[] s1 | e s1]; [apply IH | reflexivity].
Qed.

(** Responding and giving up never returns a result. *)
Lemma respond_none_no_result issues code p (s : DebuggerConverser)
    (result : CodeAndOutput) s' :
  bind (_respond_to_issues issues code p) (fun _ => ret None) s <> Returned (Some result) s'.
Proof.
  unfold bind. destruct (_respond_to_issues issues code p s); cbn; discriminate.
Qed.

(** X4.  A clean run is handed back as it is.  When a block of code is
    extracted, no static check is due, the runner runs it without a failure
    and without collecting issues, and the three checks of the outputs find
    nothing, the iteration returns the [CodeAndOutput] of the run.  Nothing
    is removed from the data folder, nothing is said to the model: the
    conversation has gained the answer of the model and nothing else, and
    [previous_code] and [_previous_code_problem] are what they were. *)
Theorem clean_run_is_returned
    (s : DebuggerConverser) (code : string) (code_and_output : CodeAndOutput)
    (files : gset string) :
  extract_code (runner_at s) = Extracted code ->
  _requesting_small_change s = false ->
  run_code (runner_at s) (working_directory s) = (Ran code_and_output [], files) ->
  _get_issues_for_num_files_created code_and_output s = Returned [] s ->
  _get_issues_for_unsaved_dataframes code_and_output s = Returned [] s ->
  _get_issues_for_created_output_files code_and_output s = Returned [] s ->
  exists s',
    _get_code_and_respond_to_issues s = Returned (Some code_and_output) s' /\
    new_events s s' = opening s ++ [RunCode code] /\
    conversation s' = conversation s ++ [assistant_message (chatgpt s)] /\
    working_directory s' = files /\
    previous_code s' = previous_code s /\
    _previous_code_problem s' = _previous_code_problem s.
Proof.
  intros Hx Hs Hrun Hmissing Hunsaved Hbad.
  rewrite (iteration_runs s code Hx Hs). unfold run_extracted.
  step run_code_run.
  destruct (extracting_fields s) as (_ & -> & _). rewrite Hrun. cbn [fst snd].
  fold (ran s code files).
  destruct (ran_fields s code files)
    as (Ht & Hw & Hreq & Henf & Hprompt & Hconv & Hlen & Hi & Hmax).
  unfold check_outputs.
  erewrite bind_returned
    by (eapply num_files_created_anywhere; [exact Hreq | exact Hmissing]).
  cbv beta.
  erewrite bind_returned
    by (eapply unsaved_dataframes_anywhere; [exact Henf | exact Hunsaved]).
  cbv beta.
  erewrite bind_returned
    by (eapply created_output_files_anywhere; [exact Hreq | exact Hbad]).
  cbv beta. cbn [app]. rewrite bool_decide_eq_true_2 by reflexivity. cbn [negb].
  rewrite ret_run. exists (ran s code files).
  split; [reflexivity |]. split; [apply new_events_app; exact Ht |].
  split; [exact Hconv |]. split; [exact Hw |].
  unfold ran, extracting, with_message, logged. project. split; reflexivity.
Qed.

(** X5.  The removal of the created files stops at the first file that is
    not in the data folder, be it that the run did not leave it there or
    that it is listed a second time.  The iteration then raises the
    [FileNotFoundError] of [os.remove]: the files listed before are gone,
    the later ones are still there, and no corrective message has been
    appended. *)
Theorem missing_created_file_stops_the_cleanup
    (s : DebuggerConverser) (code : string) (code_and_output : CodeAndOutput)
    (collected missing unsaved bad : list RunIssue) (files : gset string)
    (present : list string) (lost : string) (later : list string) :
  extract_code (runner_at s) = Extracted code ->
  _requesting_small_change s = false ->
  run_code (runner_at s) (working_directory s) = (Ran code_and_output collected, files) ->
  _get_issues_for_num_files_created code_and_output s = Returned missing s ->
  _get_issues_for_unsaved_dataframes code_and_output s = Returned unsaved s ->
  _get_issues_for_created_output_files code_and_output s = Returned bad s ->
  missing ++ collected ++ unsaved ++ bad <> [] ->
  get_created_data_files code_and_output = present ++ lost :: later ->
  NoDup present ->
  (forall file, In file present -> file ∈ files) ->
  lost ∉ files ∖ list_to_set present ->
  exists s',
    _get_code_and_respond_to_issues s = Raised (OsFileNotFoundError lost) s' /\
    new_events s s' = opening s ++ [RunCode code] ++ map OsRemove present /\
    working_directory s' = files ∖ list_to_set present /\
    conversation s' = conversation s ++ [assistant_message (chatgpt s)].
Proof.
  intros Hx Hs Hrun Hmissing Hunsaved Hbad Hissues Hcreated Hnd Hin Hlost.
  rewrite (iteration_runs s code Hx Hs). unfold run_extracted.
  step run_code_run.
  destruct (extracting_fields s) as (_ & -> & _). rewrite Hrun. cbn [fst snd].
  fold (ran s code files).
  destruct (ran_fields s code files)
    as (Ht & Hw & Hreq & Henf & Hprompt & Hconv & Hlen & Hi & Hmax).
  unfold check_outputs.
  erewrite bind_returned
    by (eapply num_files_created_anywhere; [exact Hreq | exact Hmissing]).
  cbv beta.
  erewrite bind_returned
    by (eapply unsaved_dataframes_anywhere; [exact Henf | exact Hunsaved]).
  cbv beta.
  erewrite bind_returned
    by (eapply created_output_files_anywhere; [exact Hreq | exact Hbad]).
  cbv beta. rewrite bool_decide_eq_false_2 by exact Hissues. cbn [negb].
  rewrite Hcreated.
  set (cleaned :=
         set_working_directory (files ∖ list_to_set present)
           (set_trace (trace (ran s code files) ++ map OsRemove present) (ran s code files))).
  assert (Hremoved : for_each present os_remove (ran s code files) = Returned tt cleaned).
  { rewrite remove_created_files; [rewrite Hw; reflexivity | exact Hnd |].
    intros file Hfile. rewrite Hw. apply Hin, Hfile. }
  assert (Hstop : for_each (present ++ lost :: later) os_remove (ran s code files)
                  = Raised (OsFileNotFoundError lost) cleaned).
  { rewrite for_each_app. erewrite bind_returned by exact Hremoved. cbv beta.
    cbn [for_each]. erewrite bind_raised; [reflexivity |].
    apply os_remove_missing. unfold cleaned. project. exact Hlost. }
  erewrite bind_raised by exact Hstop.
  exists cleaned. split; [reflexivity |]. unfold cleaned. project.
  split; [apply new_events_app; project; rewrite Ht, <- !app_assoc; reflexivity |].
  split; [reflexivity | exact Hconv].
Qed.

(** X1.  [_get_issue_for_un_allowed_files_created] never returns an issue:
    its template names the field [description_of_allowed_output_files] and
    both values are passed by position, so [str.format] raises [KeyError].
    Hence an iteration whose run fails with [UnAllowedFilesCreated] (and with
    no class that stands before it in the table) raises that [KeyError]
    right after the run: no corrective message is appended and
    [previous_code] is not set. *)
Theorem files_created_without_permission_crash
    (s : DebuggerConverser) (code : string) (e : FailedRunningCode) (files : gset string) :
  extract_code (runner_at s) = Extracted code ->
  _requesting_small_change s = false ->
  run_code (runner_at s) (working_directory s) = (Failed e, files) ->
  isinstance (exception e) ImportError = false ->
  isinstance (exception e) TimeoutError = false ->
  isinstance (exception e) UnAllowedFilesCreated = true ->
  exists s',
    _get_code_and_respond_to_issues s =
      Raised (KeyError "description_of_allowed_output_files") s' /\
    new_events s s' = opening s ++ [RunCode code] /\
    conversation s' = conversation s ++ [assistant_message (chatgpt s)] /\
    previous_code s' = previous_code s.
Proof.
  intros Hx Hs Hrun Himport Htimeout Hfiles.
  rewrite (iteration_runs s code Hx Hs). unfold run_extracted.
  step run_code_run.
  destruct (extracting_fields s) as (_ & -> & _). rewrite Hrun. cbn [fst snd].
  fold (ran s code files).
  destruct (ran_fields s code files)
    as (Ht & Hw & Hreq & Henf & Hprompt & Hconv & Hlen & Hi & Hmax).
  assert (Hclass : classify_failure e (runner_at s) =
                   _get_issue_for_un_allowed_files_created (exception e)).
  { unfold classify_failure.
    rewrite (first_match_first exceptions_to_funcs
               [(ImportError, _get_issue_for_allowed_packages);
                (TimeoutError, _get_issue_for_timeout)]
               _ UnAllowedFilesCreated _get_issue_for_un_allowed_files_created
               (exception e) eq_refl); [reflexivity | | exact Hfiles].
    intros k f [Hk | [Hk | []]]; injection Hk as <- <-; assumption. }
  erewrite bind_raised
    by (rewrite Hclass; apply un_allowed_files_created_raises).
  exists (ran s code files). split; [reflexivity |].
  split; [apply new_events_app; exact Ht |]. split; [exact Hconv |].
  unfold ran, extracting, with_message, logged. project. reflexivity.
Qed.

(** X17.  After a run that raised, the code that was run is the code of
    record.  When the classifier of the failure returns an issue for the
    controller as the run left it, the iteration returns no result and
    re-posts: it rewinds, posts the code as if it had been the first answer,
    then the corrective message with that issue.  [previous_code] is the
    code that failed and [_previous_code_problem] is RuntimeError.  The files
    the run left in the data folder are not removed. *)
Theorem failed_run_is_reposted
    (s : DebuggerConverser) (code : string) (e : FailedRunningCode) (files : gset string)
    (i : RunIssue) :
  extract_code (runner_at s) = Extracted code ->
  _requesting_small_change s = false ->
  run_code (runner_at s) (working_directory s) = (Failed e, files) ->
  classify_failure e (runner_at s) (ran s code files) = Returned i (ran s code files) ->
  exists s',
    _get_code_and_respond_to_issues s = Returned None s' /\
    new_events s s' =
      opening s ++
      [RunCode code;
       RewindToFirstResponse;
       AppendSurrogateMessage (fresh_code_text (Some code));
       AppendUserMessage (corrective_text s (inl i) repost)] /\
    previous_code s' = Some code /\
    _previous_code_problem s' = Some RuntimeError /\
    working_directory s' = files /\
    _requesting_small_change s' = do_all_issues_request_small_change [Some i].
Proof.
  intros Hx Hs Hrun Hclass.
  rewrite (iteration_runs s code Hx Hs). unfold run_extracted.
  step run_code_run.
  destruct (extracting_fields s) as (_ & -> & _). rewrite Hrun. cbn [fst snd].
  fold (ran s code files).
  destruct (ran_fields s code files)
    as (Ht & Hw & Hreq & Henf & Hprompt & Hconv & Hlen & Hi & Hmax).
  erewrite bind_returned by exact Hclass. cbv beta.
  assert (Hchoose : choose_action (_get_response_count (ran s code files))
                      (Some RuntimeError) (ran s code files)
                    = Returned repost (ran s code files))
    by (apply choose_action_severe; reflexivity).
  destruct (respond_repost (inl i) (Some code) (Some RuntimeError) _ Hchoose)
    as (s' & Hr & Ht' & _ & Hcode & Hp & Hsmall & _ & _ & Hw').
  erewrite bind_returned by exact Hr. cbv beta. rewrite ret_run.
  exists s'. split; [reflexivity |].
  split.
  { apply new_events_app. rewrite Ht', Ht. unfold corrective_text.
    rewrite Hprompt, <- !app_assoc. reflexivity. }
  split; [exact Hcode |]. split; [exact Hp |].
  split; [rewrite Hw'; exact Hw | exact Hsmall].
Qed.

(** X2.  Once [_requesting_small_change] is set, the code of the next
    answer is not run.  The list of the static issues then has one entry,
    the issue about the new code not being a modification of the old one or
    [None], so it is not empty: the iteration responds (or raises) and never
    returns a result; it asks the model, builds the runner and extracts the
    code, and [run_code] is not called. *)
Theorem small_change_requests_block_the_run (s : DebuggerConverser) (code : string) :
  extract_code (runner_at s) = Extracted code ->
  _requesting_small_change s = true ->
  (forall result s', _get_code_and_respond_to_issues s <> Returned (Some result) s') /\
  exists events,
    trace (final (_get_code_and_respond_to_issues s)) = trace s ++ opening s ++ events /\
    count is_run_code events = 0.
Proof.
  intros Hx Hs. split.
  - intros result s'. rewrite iteration_opening, Hx. unfold check_statically.
    step self_run.
    destruct (extracting_fields s) as (_ & _ & -> & _). rewrite Hs.
    destruct (reads_only_not_a_modification code (previous_code (extracting s)) (extracting s))
      as ([e | i] & E); cbn [stops_with] in E.
    + erewrite bind_raised by (erewrite bind_raised by exact E; reflexivity).
      discriminate.
    + erewrite bind_returned by (erewrite bind_returned by exact E; reflexivity).
      cbv beta. erewrite bind_returned by reflexivity. cbv beta.
      cbn [app]. rewrite bool_decide_eq_false_2 by discriminate. cbn [negb].
      apply respond_none_no_result.
  - destruct (iteration_events s) as (events & Ht & _ & Hcase).
    unfold reaches_run in Hcase. rewrite Hx, Hs in Hcase. cbn [negb] in Hcase.
    exists events. split; [exact Ht |]. apply count_quiet, Hcase.
Qed.

(** X14.  Every iteration, whatever the model answers and whether the
    iteration returns or raises, asks the model exactly once, builds exactly
    one runner and asks it for the code exactly once; it runs code at most
    once, and exactly once when a block was extracted and no static check
    was due. *)
Theorem one_request_per_iteration (s : DebuggerConverser) :
  exists events,
    trace (final (_get_code_and_respond_to_issues s)) = trace s ++ events /\
    count is_get_assistant_message events = 1 /\
    count is_build_runner events = 1 /\
    count is_extract_code events = 1 /\
    count is_run_code events = (if reaches_run s then 1 else 0) /\
    firstn 3 events = opening s.
Proof.
  destruct (iteration_events s) as (events & Ht & _ & Hcase).
  exists (opening s ++ events). split; [exact Ht |].
  rewrite !count_app.
  assert (Hopen : firstn 3 (opening s ++ events) = opening s) by reflexivity.
  destruct (reaches_run s).
  - destruct Hcase as (code & tail & -> & Hq).
    destruct (count_quiet tail Hq) as (Hg & Hb & He & Hr).
    change (RunCode code :: tail) with ([RunCode code] ++ tail).
    rewrite !count_app, Hg, Hb, He, Hr. repeat split; reflexivity.
  - destruct (count_quiet events Hcase) as (-> & -> & -> & ->).
    repeat split; reflexivity.
Qed.

(** The corrective message depends on the controller through the prompt
    and the numbers of the iteration only. *)
Lemma corrective_text_same (s1 s2 : DebuggerConverser) issues action :
  prompt_to_append_at_end_of_response s1 = prompt_to_append_at_end_of_response s2 ->
  corrective_text s1 issues action = corrective_text s2 issues action.
Proof. intros Hp. unfold corrective_text. rewrite Hp. reflexivity. Qed.

Lemma corrective_message_same (s1 s2 : DebuggerConverser) issues action :
  prompt_to_append_at_end_of_response s1 = prompt_to_append_at_end_of_response s2 ->
  debug_iteration s1 = debug_iteration s2 ->
  max_debug_iterations s1 = max_debug_iterations s2 ->
  corrective_message s1 issues action = corrective_message s2 issues action.
Proof.
  intros Hp Hi Hm. unfold corrective_message, corrective_text, iteration_str.
  rewrite Hp, Hi, Hm. reflexivity.
Qed.

(** X15.  A first answer from which no single block of code can be taken
    is kept in the conversation.  When the conversation has at most one
    message more than before the first response and the runner finds no
    block or several, the iteration returns no result; it appends the
    message with the text of the extraction failure and does nothing else to
    the conversation, which is then the old one, the answer and that message.
    No runner runs code, [previous_code] and the data folder stay. *)
Theorem first_answer_without_single_block (s : DebuggerConverser) (str_e : string) :
  let found :=
    {| issue := str_e; comment := "Failed extracting code from gpt response";
       end_with := None |} in
  0 <= Z.of_nat (length (conversation s)) - _conversation_len_before_first_response s <= 1 ->
  extract_code (runner_at s) = FailedExtractingBlock str_e ->
  exists s',
    _get_code_and_respond_to_issues s = Returned None s' /\
    new_events s s' =
      opening s ++ [AppendUserMessage (corrective_text s (inl found) leave)] /\
    conversation s' =
      conversation s ++ [assistant_message (chatgpt s);
                         corrective_message s (inl found) leave] /\
    previous_code s' = previous_code s /\
    working_directory s' = working_directory s.
Proof.
  intros found Hfirst Hx. rewrite iteration_opening, Hx.
  erewrite bind_returned by reflexivity. cbv beta. fold found.
  destruct (extracting_fields s) as (Ht & Hw & _ & _ & _ & Hprompt & Hconv & Hlen).
  assert (Hcount : _get_response_count (extracting s) = 0).
  { unfold _get_response_count. rewrite Hconv, Hlen, length_app. cbn [length].
    apply Z.div_small. lia. }
  assert (Hc : choose_action (_get_response_count (extracting s)) (Some NotSingleBlock)
                 (extracting s) = Returned leave (extracting s))
    by (rewrite Hcount, choose_action_first; reflexivity).
  destruct (respond_leave (inl found) None (Some NotSingleBlock) (extracting s) Hc)
    as (s' & Hr & Ht' & Hconv' & Hcode & _ & _ & _ & _ & Hw').
  erewrite bind_returned by exact Hr. cbv beta. rewrite ret_run.
  exists s'. split; [reflexivity |].
  assert (Hsame : corrective_message (extracting s) (inl found) leave
                  = corrective_message s (inl found) leave).
  { apply corrective_message_same; [exact Hprompt | |];
      unfold extracting, with_message, logged; project; reflexivity. }
  split.
  { apply new_events_app. rewrite Ht', Ht, <- app_assoc.
    rewrite (corrective_text_same (extracting s) s) by exact Hprompt. reflexivity. }
  split; [rewrite Hconv', Hconv, Hsame, <- app_assoc; reflexivity |].
  split; [| rewrite Hw'; exact Hw].
  rewrite Hcode. unfold extracting, with_message, logged. project. reflexivity.
Qed.

(** X16.  An answer whose block of code is incomplete is asked for again.
    The iteration returns no result; it appends the corrective message
    marked for regeneration and deletes the last two messages, so that the
    conversation is exactly what it was before the model was asked.  What
    has changed is the engine: it is the next one when the engine was below
    [MAX_MODEL_ENGINE].  (On a later response the regeneration is chosen by
    the order of the classifications, in which IncompleteBlock is not above
    StaticCheck.) *)
Theorem incomplete_answer_is_asked_again (s : DebuggerConverser) :
  extract_code (runner_at s) = IncompleteBlockFailedExtractingBlock ->
  exists s' i,
    _get_code_and_respond_to_issues s = Returned None s' /\
    new_events s s' =
      opening s ++ [AppendUserMessage (corrective_text s (inl i) regenerate);
                    DeleteMessages [-2; -1]] /\
    comment i = "Code is incomplete"%string /\
    conversation s' = conversation s /\
    model_engine s' =
      (if engine_lt (model_engine s) MAX_MODEL_ENGINE
       then get_next (model_engine s) else model_engine s) /\
    previous_code s' = previous_code s /\
    working_directory s' = working_directory s.
Proof.
  intros Hx. rewrite iteration_opening, Hx.
  destruct (extracting_fields s) as (Ht & Hw & _ & _ & _ & Hprompt & Hconv & Hlen).
  assert (Hengine : model_engine (extracting s) = model_engine s)
    by (unfold extracting, with_message, logged; project; reflexivity).
  assert (Hprevious : previous_code (extracting s) = previous_code s)
    by (unfold extracting, with_message, logged; project; reflexivity).
  assert (Hissue : exists i s1,
             _get_issue_for_incomplete_code (extracting s) = Returned i s1 /\
             comment i = "Code is incomplete"%string /\
             trace s1 = trace (extracting s) /\
             conversation s1 = conversation (extracting s) /\
             prompt_to_append_at_end_of_response s1 =
               prompt_to_append_at_end_of_response (extracting s) /\
             previous_code s1 = previous_code (extracting s) /\
             working_directory s1 = working_directory (extracting s) /\
             model_engine s1 =
               (if engine_lt (model_engine s) MAX_MODEL_ENGINE
                then get_next (model_engine s) else model_engine s)).
  { rewrite incomplete_code_run, Hengine.
    destruct (engine_lt (model_engine s) MAX_MODEL_ENGINE).
    - eexists. eexists. split; [reflexivity |]. project. repeat split.
    - eexists. eexists. split; [reflexivity |]. rewrite Hengine. repeat split. }
  destruct Hissue as (i & s1 & Hi & Hcomment & Ht1 & Hconv1 & Hprompt1 & Hcode1 & Hw1 & He1).
  erewrite bind_returned by exact Hi. cbv beta.
  assert (Hc : choose_action (_get_response_count s1) (Some IncompleteBlock) s1
               = Returned regenerate s1).
  { destruct (Z.eq_dec (_get_response_count s1) 0) as [-> | Hn].
    - rewrite choose_action_first. reflexivity.
    - rewrite choose_action_later by exact Hn. reflexivity. }
  destruct (respond_regenerate (inl i) None (Some IncompleteBlock) s1 Hc)
    as (s' & Hr & Ht' & Hconv' & Hcode & _ & _ & _ & He' & Hw').
  erewrite bind_returned by exact Hr. cbv beta. rewrite ret_run.
  exists s', i. split; [reflexivity |].
  split.
  { apply new_events_app. rewrite Ht', Ht1, Ht, <- app_assoc.
    rewrite (corrective_text_same s1 s) by (rewrite Hprompt1; exact Hprompt).
    reflexivity. }
  split; [exact Hcomment |].
  split; [rewrite Hconv', Hconv1, Hconv; apply delete_last_two_appended |].
  split; [rewrite He'; exact He1 |].
  split; [rewrite Hcode, Hcode1; exact Hprevious | rewrite Hw', Hw1; exact Hw].
Qed.

(** X3.  [_get_response_count] counts the exchanges after the first
    response: it is [n] exactly when the conversation has [1 + 2 * n] or
    [2 + 2 * n] messages more than it had before the first response, so it is
    0 right after the first response and after the reply to it, and a further
    pair of messages raises it by one. *)
Theorem response_count_counts_exchanges (s : DebuggerConverser) (n : Z) (a b : Message.t) :
  let extra :=
    Z.of_nat (length (conversation s)) - _conversation_len_before_first_response s in
  (_get_response_count s = n <-> 1 + 2 * n <= extra <= 2 + 2 * n) /\
  _get_response_count (set_conversation (conversation s ++ [a; b]) s)
  = _get_response_count s + 1.
Proof.
  intros extra. subst extra. unfold _get_response_count. project.
  rewrite length_app. cbn [length]. split.
  - pose proof (Z.div_mod
                  (Z.of_nat (length (conversation s))
                   - _conversation_len_before_first_response s - 1) 2 ltac:(lia)).
    pose proof (Z.mod_pos_bound
                  (Z.of_nat (length (conversation s))
                   - _conversation_len_before_first_response s - 1) 2 ltac:(lia)).
    lia.
  - replace (Z.of_nat (length (conversation s) + 2)
             - _conversation_len_before_first_response s - 1)
      with (Z.of_nat (length (conversation s))
            - _conversation_len_before_first_response s - 1 + 1 * 2) by lia.
    rewrite Z.div_add by lia. reflexivity.
Qed.

End IterationOutcomes.

(** ** The issues, once more *)

Lemma fields_forbidden_write :
  fields forbidden_write_template =
  Some [Auto; Named "description_of_allowed_output_files"].
Proof. vm_compute. reflexivity. Qed.

Lemma fields_output_file_too_long :
  fields output_file_too_long_template = Some [Auto; Auto].
Proof. vm_compute. reflexivity. Qed.

Lemma fields_file_not_found :
  fields file_not_found_template = Some [Auto; Auto].
Proof. vm_compute. reflexivity. Qed.

Section Issues.
Context `{the_text : Text} `{the_engine : Engine} `{the_world : !World}.

(** The description of the allowed output files names each of them. *)
Lemma description_names_files (s : DebuggerConverser) :
  exists description,
    description_of_allowed_output_files s = Returned description s /\
    (output_file_requirements s = [] ->
     description = "Your code should not write to any file."%string) /\
    (forall requirement,
        In requirement (output_file_requirements s) ->
        occurs_in (quoted (filename requirement)) description).
Proof.
  unfold description_of_allowed_output_files. step self_run.
  destruct (output_file_requirements s) as [|first others] eqn:Hreq.
  - exists "Your code should not write to any file."%string. split; [reflexivity |].
    split; [reflexivity | intros requirement []].
  - replace (Z.of_nat (length (first :: others)) =? 0) with false
      by (symmetry; apply Z.eqb_neq; cbn [length]; lia).
    unfold format.
    match goal with
    | |- context [str_format ?t ?a ?k] =>
        destruct (str_format_values t [Auto] a k a) as (text & -> & Hv)
    end; [vm_compute; reflexivity | reflexivity |].
    exists text. split; [reflexivity |]. split; [discriminate |].
    intros requirement Hin.
    eapply occurs_in_trans; [| apply Hv; left; reflexivity].
    apply occurs_in_join.
    apply (in_map (fun r => dquote +:+ filename r +:+ dquote) _ requirement Hin).
Qed.

(** X9.  The issue for a write to a forbidden file is always returned (its
    template gets the description by name); its text names the file of the
    failure and carries the description of the allowed output files: the
    sentence that no file may be written when there is no requirement, and
    otherwise the quoted name of every required file. *)
Theorem forbidden_write_issue (e : PyException) (s : DebuggerConverser) :
  exists i,
    _get_issue_for_forbidden_write e s = Returned i s /\
    comment i = "Code writes to forbidden file"%string /\
    occurs_in (file e) (issue i) /\
    (output_file_requirements s = [] ->
     occurs_in "Your code should not write to any file." (issue i)) /\
    (forall requirement,
        In requirement (output_file_requirements s) ->
        occurs_in (quoted (filename requirement)) (issue i)).
Proof.
  unfold _get_issue_for_forbidden_write.
  destruct (description_names_files s) as (description & Hd & Hnone & Hnames).
  erewrite bind_returned by exact Hd. cbv beta.
  destruct (format_dedented forbidden_write_template _ [file e]
              [("description_of_allowed_output_files"%string, description)]
              [file e; description] s fields_forbidden_write)
    as (text & E & Hv); [reflexivity |].
  erewrite bind_returned by exact E. cbv beta. rewrite ret_run.
  eexists. split; [reflexivity |]. cbn [issue comment].
  split; [reflexivity |]. split; [apply Hv; left; reflexivity |].
  assert (Hin : occurs_in description text) by (apply Hv; right; left; reflexivity).
  split.
  - intros Hreq. rewrite <- (Hnone Hreq). exact Hin.
  - intros requirement Hr. eapply occurs_in_trans; [apply Hnames, Hr | exact Hin].
Qed.

(** X6.  [_get_issue_for_known_mis_imports] raises in one case: the
    exception has a [fromlist] and it is [None], so that its length cannot
    be taken ([TypeError]).  In every other case it returns, and it returns
    an issue rather than [None] in one case only: the failed import names
    exactly one symbol, that symbol is [Mediation], and [statsmodels] is a
    supported package.  The issue then names the module
    [statsmodels.stats.mediation].  Without a [fromlist], with no name or
    several, with another name or with [statsmodels] not supported it
    returns [None]. *)
Theorem known_mis_import_hint_iff (e : PyException) (s : DebuggerConverser) :
  (fromlist e = Some None ->
   _get_issue_for_known_mis_imports e s = Raised TypeError s) /\
  (fromlist e <> Some None ->
   exists r,
     _get_issue_for_known_mis_imports e s = Returned r s /\
     (r <> None <->
      fromlist e = Some (Some ["Mediation"%string]) /\
      In "statsmodels"%string (supported_packages s)) /\
     (forall i,
         r = Some i ->
         comment i = "ImportError detected in gpt code"%string /\
         occurs_in "statsmodels.stats.mediation" (issue i) /\
         occurs_in (str_tuple (supported_packages s)) (issue i))).
Proof.
  split.
  { intros Hfl. unfold _get_issue_for_known_mis_imports, bind, self.
    rewrite Hfl. reflexivity. }
  intros Hnot.
  assert (Hnone : forall o,
             (fromlist e = Some (Some ["Mediation"%string]) ->
              In "statsmodels"%string (supported_packages s) -> False) ->
             o = Returned None s ->
             exists r, o = Returned r s /\
               (r <> None <->
                fromlist e = Some (Some ["Mediation"%string]) /\
                In "statsmodels"%string (supported_packages s)) /\
               (forall i, r = Some i ->
                  comment i = "ImportError detected in gpt code"%string /\
                  occurs_in "statsmodels.stats.mediation" (issue i) /\
                  occurs_in (str_tuple (supported_packages s)) (issue i))).
  { intros o Hno ->. exists None. split; [reflexivity |]. split.
    - split; [intros Hr; destruct Hr; reflexivity | intros (Hf & Hin); destruct (Hno Hf Hin)].
    - intros i Hi. discriminate Hi. }
  unfold _get_issue_for_known_mis_imports. step self_run.
  destruct (fromlist e) as [[[|var [|var2 names]]|]|] eqn:Hfl.
  - apply Hnone; [intros [=] | reflexivity].
  - destruct (decide (var = "Mediation"%string)) as [-> | Hvar].
    + unfold KNOWN_MIS_IMPORTS. rewrite lookup_singleton_eq.
      replace (package_base "statsmodels.stats.mediation") with "statsmodels"%string
        by (vm_compute; reflexivity).
      destruct (bool_decide ("statsmodels"%string ∈ supported_packages s)) eqn:Hb.
      * apply bool_decide_eq_true in Hb. apply list_elem_of_In in Hb.
        destruct (allowed_packages_hint e "Mediation" "statsmodels.stats.mediation" s)
          as (text & E & Ht & _ & Hm).
        erewrite bind_returned by exact E. cbv beta. rewrite ret_run.
        eexists. split; [reflexivity |]. split.
        -- split; [intros _; split; [reflexivity | exact Hb] | discriminate].
        -- intros i [= <-]. cbn [issue comment]. auto.
      * apply bool_decide_eq_false in Hb.
        apply Hnone; [| reflexivity].
        intros _ Hin. apply Hb, list_elem_of_In, Hin.
    + unfold KNOWN_MIS_IMPORTS. rewrite lookup_singleton_ne by congruence.
      apply Hnone; [| reflexivity]. intros [= Heq]. congruence.
  - apply Hnone; [intros [=] | reflexivity].
  - destruct Hnot. reflexivity.
  - apply Hnone; [intros [=] | reflexivity].
Qed.

(** X7.  The check of the content of an output file always returns, with
    at most one issue.  It returns none exactly when the content is not
    blank and has no more tokens than the requirement allows.  When it has
    more, the issue is the one about the length, also for a content that is
    blank: it names the file and shows the beginning of the content. *)
Theorem output_file_content_issues
    (requirement : OutputFileRequirement) (name content : string) (s : DebuggerConverser) :
  exists issues,
    _get_issues_for_output_file_content requirement name content s = Returned issues s /\
    (length issues <= 1)%nat /\
    (issues = [] <->
     strip content <> EmptyString /\
     count_number_of_tokens_in_message content <= max_tokens requirement) /\
    (forall i, In i issues -> comment i = "Output file content"%string) /\
    (max_tokens requirement < count_number_of_tokens_in_message content ->
     exists i,
       issues = [i] /\
       occurs_in name (issue i) /\
       occurs_in (extract_to_nearest_newline content (max_tokens requirement)) (issue i)) /\
    (count_number_of_tokens_in_message content <= max_tokens requirement ->
     strip content = EmptyString ->
     exists i,
       issues = [i] /\ issue i = dedent_triple_quote_str (output_file_empty_text name)).
Proof.
  unfold _get_issues_for_output_file_content.
  destruct (max_tokens requirement <? count_number_of_tokens_in_message content) eqn:Hlong.
  - apply Z.ltb_lt in Hlong.
    destruct (format_dedented output_file_too_long_template _
                [name; extract_to_nearest_newline content (max_tokens requirement)] []
                [name; extract_to_nearest_newline content (max_tokens requirement)] s
                fields_output_file_too_long)
      as (text & E & Hv); [reflexivity |].
    erewrite bind_returned
      by (erewrite bind_returned by exact E; cbv beta; apply ret_run).
    cbv beta iota. rewrite ret_run. eexists. split; [reflexivity |].
    split; [cbn [length]; lia |]. split.
    { split; [discriminate | intros (_ & Hle); lia]. }
    split.
    { intros i [<- | []]. reflexivity. }
    split.
    + intros _. eexists. split; [reflexivity |]. cbn [issue].
      split; apply Hv; [left | right; left]; reflexivity.
    + intros Hle. lia.
  - apply Z.ltb_ge in Hlong.
    erewrite bind_returned by apply ret_run. cbv beta.
    destruct (bool_decide (strip content = EmptyString)) eqn:Hblank.
    + apply bool_decide_eq_true in Hblank. rewrite ret_run.
      eexists. split; [reflexivity |]. split; [cbn [length]; lia |]. split.
      { split; [discriminate | intros (Hne & _); destruct (Hne Hblank)]. }
      split.
      { intros i [<- | []]. reflexivity. }
      split; [intros Hlt; lia |].
      intros _ _. eexists. split; reflexivity.
    + apply bool_decide_eq_false in Hblank. rewrite ret_run.
      exists []. split; [reflexivity |]. split; [cbn [length]; lia |]. split.
      { split; [intros _; split; assumption | reflexivity]. }
      split; [intros i [] |]. split; [intros Hlt; lia |].
      intros _ Hb. destruct (Hblank Hb).
Qed.

(** X8.  When the run reports its files for every requirement, the check of
    the number of created files returns one issue for each requirement that
    got fewer files than its [minimal_count], and no other: none at all
    exactly when no requirement falls short.  Every one of these issues has
    the comment of a missing file. *)
Theorem num_files_created_issues (code_and_output : CodeAndOutput) (s : DebuggerConverser) :
  (forall requirement,
      In requirement (output_file_requirements s) ->
      getitem (requirements_to_output_files_to_contents code_and_output) requirement
      <> None) ->
  exists issues,
    _get_issues_for_num_files_created code_and_output s = Returned issues s /\
    length issues =
      length (List.filter (falls_short code_and_output) (output_file_requirements s)) /\
    (issues = [] <->
     forall requirement,
       In requirement (output_file_requirements s) ->
       falls_short code_and_output requirement = false) /\
    Forall (fun i => comment i = "Code did not create all required files"%string) issues.
Proof.
  unfold _get_issues_for_num_files_created. step self_run.
  generalize (output_file_requirements s) as requirements.
  induction requirements as [|requirement requirements IH]; intros Hall; cbn [gather].
  - rewrite ret_run. exists []. split; [reflexivity |]. split; [reflexivity |].
    split; [split; [intros _ r [] | reflexivity] | constructor].
  - destruct IH as (more & Hmore & Hlen & Hnil & Hcomments).
    { intros r Hr. apply Hall. right. exact Hr. }
    cbn [List.filter]. unfold falls_short at 1 3.
    destruct (getitem (requirements_to_output_files_to_contents code_and_output) requirement)
      as [files_to_contents |] eqn:Hget;
      [| destruct (Hall requirement (or_introl eq_refl)); exact Hget].
    assert (Hfiles : output_files_of code_and_output requirement s
                     = Returned (map fst files_to_contents) s)
      by (unfold output_files_of; rewrite Hget; reflexivity).
    destruct (Z.of_nat (length files_to_contents) <? minimal_count requirement) eqn:Hshort.
    + erewrite bind_returned
        by (erewrite bind_returned by exact Hfiles; cbv beta;
            rewrite length_map, Hshort; apply ret_run).
      cbv beta. erewrite bind_returned by exact Hmore. cbv beta. rewrite ret_run.
      eexists. split; [reflexivity |]. cbn [app length]. split; [rewrite Hlen; reflexivity |].
      split.
      * split; [discriminate |]. intros Hno.
        specialize (Hno requirement (or_introl eq_refl)).
        unfold falls_short in Hno. rewrite Hget, Hshort in Hno. discriminate Hno.
      * constructor; [reflexivity | exact Hcomments].
    + erewrite bind_returned
        by (erewrite bind_returned by exact Hfiles; cbv beta;
            rewrite length_map, Hshort; apply ret_run).
      cbv beta. erewrite bind_returned by exact Hmore. cbv beta. rewrite ret_run.
      exists more. split; [reflexivity |]. split; [exact Hlen |]. split; [| exact Hcomments].
      rewrite Hnil. split.
      * intros Hrest r [<- | Hr]; [| apply Hrest, Hr].
        unfold falls_short. rewrite Hget. exact Hshort.
      * intros Hno r Hr. apply Hno. right. exact Hr.
Qed.

(** X10.  The issues for a forbidden function other than [print], for a
    forbidden dataframe method and for a file that was not found are always
    returned and name what the failure is about: the function and the method
    stand in the text and in the comment of the issue, and the issue for the
    missing file carries the message of the error and the list of the data
    files, hence every one of them. *)
Theorem issues_name_what_was_wrong (e : PyException) (s : DebuggerConverser) :
  (func e <> "print"%string ->
   exists i,
     _get_issue_for_forbidden_functions e s = Returned i s /\
     occurs_in (func e) (issue i) /\
     comment i = ("Code uses forbidden function " +:+ func e)%string) /\
  (exists i,
     _get_issue_for_forbidden_method e s = Returned i s /\
     occurs_in (method_name e) (issue i) /\
     comment i = ("Code uses forbidden method " +:+ method_name e)%string) /\
  (exists i,
     _get_issue_for_file_not_found e s = Returned i s /\
     occurs_in (exc_str e) (issue i) /\
     occurs_in (str_list (data_filenames s)) (issue i) /\
     forall input, In input (data_filenames s) -> occurs_in (repr input) (issue i)).
Proof.
  split; [| split].
  - intros Hfunc. unfold _get_issue_for_forbidden_functions. step self_run.
    rewrite bool_decide_eq_false_2 by exact Hfunc.
    match goal with
    | |- context [format (dedent_triple_quote_str ?t) ?a ?k] =>
        destruct (format_dedented t [Auto] a k a s) as (text & E & Hv);
          [vm_compute; reflexivity | reflexivity |]
    end.
    erewrite bind_returned by exact E. cbv beta. rewrite ret_run.
    eexists. split; [reflexivity |]. cbn [issue comment].
    split; [apply Hv; left; reflexivity | reflexivity].
  - unfold _get_issue_for_forbidden_method.
    match goal with
    | |- context [format (dedent_triple_quote_str ?t) ?a ?k] =>
        destruct (format_dedented t [Auto] a k a s) as (text & E & Hv);
          [vm_compute; reflexivity | reflexivity |]
    end.
    erewrite bind_returned by exact E. cbv beta. rewrite ret_run.
    eexists. split; [reflexivity |]. cbn [issue comment].
    split; [apply Hv; left; reflexivity | reflexivity].
  - unfold _get_issue_for_file_not_found.
    destruct (format_dedented file_not_found_template _
                [exc_str e; str_list (data_filenames s)] []
                [exc_str e; str_list (data_filenames s)] s fields_file_not_found)
      as (text & E & Hv); [reflexivity |].
    step self_run. erewrite bind_returned by exact E. cbv beta. rewrite ret_run.
    eexists. split; [reflexivity |]. cbn [issue].
    assert (Hl : occurs_in (str_list (data_filenames s)) text)
      by (apply Hv; right; left; reflexivity).
    split; [apply Hv; left; reflexivity |]. split; [exact Hl |].
    intros input Hin. eapply occurs_in_trans; [| exact Hl].
    apply occurs_in_str_list, Hin.
Qed.

End Issues.
(** * The statements at concrete inputs *)

Import Demo.

Section Dividing.
#[local] Existing Instance always_dividing.

(** After two answers a runtime error is re-posted: the conversation is cut
    back to the first answer and the code stands in its place. *)
Lemma repost_rewinds_and_posts_code_witness :
  let s := answered_twice 5 in
  let code := Some "print(1 / 0)"%string in
  choose_action (_get_response_count s) (Some RuntimeError) s = Returned repost s /\
  exists s',
    _respond_to_issues (inl some_issue) code (Some RuntimeError) s = Returned tt s' /\
    conversation s' =
      request ++ [reply_message "first answer"; fresh_code_message code;
                  corrective_message s (inl some_issue) repost] /\
    previous_code s' = code /\
    _previous_code_problem s' = Some RuntimeError.
Proof.
  intros s code.
  assert (Hc : choose_action (_get_response_count s) (Some RuntimeError) s
               = Returned repost s) by (vm_compute; reflexivity).
  split; [exact Hc |].
  destruct (repost_rewinds_and_posts_code (inl some_issue) code (Some RuntimeError) s Hc)
    as (s' & Hr & _ & _ & Hconv & Hcode & Hp).
  exists s'. split; [exact Hr |]. split; [| split; assumption].
  apply (Hconv request (reply_message "first answer")
           [ {| Message.role := USER; Message.content := "There is a bug.";
                Message.comment := None; Message.ignore := false |};
             reply_message "second answer" ]); reflexivity.
Defined.

(** A first answer with several blocks is left as it is; the code and the
    problem recorded before stay. *)
Lemma only_repost_changes_previous_code_witness :
  let s := answered_once 5 in
  choose_action (_get_response_count s) (Some NotSingleBlock) s = Returned leave s /\
  exists s',
    _respond_to_issues (inl some_issue) None (Some NotSingleBlock) s = Returned tt s' /\
    _requesting_small_change s' = false /\
    previous_code s' = None /\
    _previous_code_problem s' = Some NoCode.
Proof.
  intros s.
  assert (Hc : choose_action (_get_response_count s) (Some NotSingleBlock) s
               = Returned leave s) by (vm_compute; reflexivity).
  split; [exact Hc |].
  destruct (only_repost_changes_previous_code (inl some_issue) None (Some NotSingleBlock)
              s leave Hc) as (s' & Hr & Hsmall & Hkeep & _).
  exists s'. split; [exact Hr |]. split; [exact Hsmall |].
  apply Hkeep. left. reflexivity.
Defined.

(** A first answer that is incomplete is regenerated: the conversation is
    the request again. *)
Lemma regenerate_deletes_last_two_witness :
  let s := answered_once 5 in
  choose_action (_get_response_count s) (Some IncompleteBlock) s = Returned regenerate s /\
  exists s',
    _respond_to_issues (inl some_issue) None (Some IncompleteBlock) s = Returned tt s' /\
    conversation s' = request /\
    length (conversation s') = 2%nat.
Proof.
  intros s.
  assert (Hc : choose_action (_get_response_count s) (Some IncompleteBlock) s
               = Returned regenerate s) by (vm_compute; reflexivity).
  split; [exact Hc |].
  destruct (regenerate_deletes_last_two (inl some_issue) None (Some IncompleteBlock) s Hc)
    as (s' & Hr & _ & _ & Hconv).
  exists s'. split; [exact Hr |].
  apply (Hconv request (reply_message "first answer")). reflexivity.
Defined.

(** Two iterations that both end in a division by zero: the code is run
    twice and the session gives up. *)
Lemma exhausted_iterations_witness :
  let s := fresh 2 in
  Forall fails (iteration_starts 2 1 s) /\
  exists s' events,
    run_debugging s = Returned None s' /\
    trace s' = events ++ [AppendUserMessage restart_message; RewindToFirstResponse] /\
    count is_get_assistant_message events = 2 /\
    count is_run_code events = 2.
Proof.
  intros s.
  assert (Hfail : Forall fails (iteration_starts 2 1 s)).
  { repeat constructor;
      match goal with
      | |- fails ?start => exists (final (_get_code_and_respond_to_issues start))
      end; vm_compute; reflexivity. }
  split; [exact Hfail |].
  assert (HN : 1 <= max_debug_iterations (initialize_conversation s))
    by (vm_compute; discriminate).
  destruct (exhausted_iterations s HN Hfail)
    as (s' & events & Hr & Ht & Hg & _ & _ & Hrun & _ & Hall & _).
  exists s', events. split; [exact Hr |]. split; [exact Ht |]. split; [exact Hg |].
  apply Hall. repeat constructor.
Defined.

End Dividing.

Section Saving.
#[local] Existing Instance always_saving.


End Saving.

Section Incomplete.
#[local] Existing Instance always_incomplete.

(** Every answer is incomplete: both iterations fail, a runner is built in
    each, and no code is ever run. *)
Lemma incomplete_answers_are_never_run :
  let s := fresh 2 in
  max_debug_iterations s = 2 /\
  Forall fails (iteration_starts 2 1 s) /\
  exists s',
    run_debugging s = Returned None s' /\
    count is_build_runner (trace s') = 2 /\
    count is_run_code (trace s') = 0.
Proof.
  intros s. split; [reflexivity |]. split.
  - repeat constructor;
      match goal with
      | |- fails ?start => exists (final (_get_code_and_respond_to_issues start))
      end; vm_compute; reflexivity.
  - exists (final (run_debugging s)).
    split; [vm_compute; reflexivity |]. split; vm_compute; reflexivity.
Qed.

End Incomplete.

(** Below the last engine, [_get_issue_for_incomplete_code] changes the
    controller, and a second call gives another issue than the first. *)
Lemma incomplete_code_moves_to_the_next_engine :
  let s := fresh 2 in
  exists first second s1 s2,
    _get_issue_for_incomplete_code s = Returned first s1 /\
    _get_issue_for_incomplete_code s1 = Returned second s2 /\
    model_engine s = 0%nat /\
    model_engine s1 = 1%nat /\
    s1 <> s /\
    first <> second.
Proof.
  intros s.
  exists (returned_or some_issue (_get_issue_for_incomplete_code s)),
         (returned_or some_issue
            (_get_issue_for_incomplete_code (final (_get_issue_for_incomplete_code s)))),
         (final (_get_issue_for_incomplete_code s)),
         (final (_get_issue_for_incomplete_code (final (_get_issue_for_incomplete_code s)))).
  split; [vm_compute; reflexivity |]. split; [vm_compute; reflexivity |].
  split; [reflexivity |]. split; [vm_compute; reflexivity |]. split.
  - intros E. apply (f_equal model_engine) in E. vm_compute in E. discriminate E.
  - intros E. apply (f_equal issue) in E. vm_compute in E. discriminate E.
Qed.



Section GhostFile.
#[local] Existing Instance leaving_a_ghost.


End GhostFile.

(** ** The further statements at concrete inputs *)

Section Improving.
#[local] Existing Instance improving.

(** The first iteration divides by zero, the second writes the output: the
    session ends there, with the output. *)
Lemma first_conclusive_iteration_decides_witness :
  let s := fresh 3 in
  Forall fails (iteration_starts 1 1 s) /\
  exists s',
    run_debugging s = Returned (Some written_output) s' /\
    debug_iteration s' = 2 /\
    count is_get_assistant_message (trace s') = 2.
Proof.
  intros s.
  assert (Hfail : Forall fails (iteration_starts 1 1 s)).
  { repeat constructor;
      match goal with
      | |- fails ?start => exists (final (_get_code_and_respond_to_issues start))
      end; vm_compute; reflexivity. }
  split; [exact Hfail |].
  assert (Hk : Z.of_nat 1 < max_debug_iterations (initialize_conversation s))
    by (vm_compute; reflexivity).
  assert (Hstop : gives_up
                    (_get_code_and_respond_to_issues
                       (set_debug_iteration (1 + Z.of_nat 1)
                          (after_iterations 1 1 (initialize_conversation s)))) = false)
    by (vm_compute; reflexivity).
  destruct (first_conclusive_iteration_decides s 1 Hk Hfail Hstop) as (Hrun & _).
  exists (final (run_debugging s)). rewrite Hrun.
  split; [vm_compute; reflexivity |]. split; vm_compute; reflexivity.
Defined.

(** No budget: the model is not asked. *)
Lemma no_budget_no_iteration_witness :
  let s := fresh 0 in
  exists s',
    run_debugging s = Returned None s' /\
    trace s' = [AppendUserMessage restart_message; RewindToFirstResponse].
Proof.
  intros s.
  assert (Hmax : max_debug_iterations (initialize_conversation s) < 1)
    by (vm_compute; reflexivity).
  destruct (no_budget_no_iteration s Hmax) as (s' & Hr & Ht & _).
  exists s'. split; [exact Hr | exact Ht].
Defined.

End Improving.

Section Writing.
#[local] Existing Instance always_writing.

(** The run writes the required output and nothing else. *)
Lemma clean_run_is_returned_witness :
  let s := fresh 3 in
  exists s',
    _get_code_and_respond_to_issues s = Returned (Some written_output) s' /\
    working_directory s' = {[ "data.csv"%string ]} ∪ {[ "out.txt"%string ]} /\
    previous_code s' = None.
Proof.
  intros s.
  destruct (clean_run_is_returned s "open('out.txt', 'w').write('mean = 3')" written_output
              ({[ "data.csv"%string ]} ∪ {[ "out.txt"%string ]}))
    as (s' & Hr & _ & _ & Hw & Hcode & _).
  - vm_compute; reflexivity.
  - reflexivity.
  - vm_compute; reflexivity.
  - vm_compute; reflexivity.
  - vm_compute; reflexivity.
  - vm_compute; reflexivity.
  - exists s'. split; [exact Hr |]. split; [exact Hw | exact Hcode].
Defined.

(** A small change was asked for: the new code is not run. *)
Lemma small_change_requests_block_the_run_witness :
  let s := asked_for_a_small_change "print(1)" in
  exists events,
    trace (final (_get_code_and_respond_to_issues s)) = trace s ++ opening s ++ events /\
    count is_run_code events = 0.
Proof.
  intros s.
  assert (Hx : extract_code (runner_at s)
               = Extracted "open('out.txt', 'w').write('mean = 3')")
    by (vm_compute; reflexivity).
  assert (Hs : _requesting_small_change s = true) by reflexivity.
  destruct (small_change_requests_block_the_run s _ Hx Hs) as (_ & Hevents).
  exact Hevents.
Defined.

(** The one requirement of the demonstration has its entry in the report of
    the run, and the run created nothing for it. *)
Lemma num_files_created_issues_witness :
  let s := fresh 3 in
  exists issues,
    _get_issues_for_num_files_created nothing_required s = Returned issues s /\
    length issues = 1%nat.
Proof.
  intros s.
  destruct (num_files_created_issues nothing_required s) as (issues & Hr & Hlen & _).
  - intros requirement [<- | []]. vm_compute. discriminate.
  - exists issues. split; [exact Hr | exact Hlen].
Defined.

End Writing.

Section Littering.
#[local] Existing Instance always_littering.

(** The run leaves a file it may not create: the iteration raises. *)
Lemma files_created_without_permission_crash_witness :
  let s := fresh 3 in
  exists s',
    _get_code_and_respond_to_issues s =
      Raised (KeyError "description_of_allowed_output_files") s' /\
    previous_code s' = None.
Proof.
  intros s.
  destruct (files_created_without_permission_crash s "open('notes.txt', 'w')"
              failed_littering ({[ "data.csv"%string ]} ∪ {[ "notes.txt"%string ]}))
    as (s' & Hr & _ & _ & Hcode).
  - vm_compute; reflexivity.
  - reflexivity.
  - vm_compute; reflexivity.
  - vm_compute; reflexivity.
  - vm_compute; reflexivity.
  - vm_compute; reflexivity.
  - exists s'. split; [exact Hr | exact Hcode].
Defined.

End Littering.

Section Ghost.
#[local] Existing Instance leaving_a_ghost.

(** The run reports [ghost.csv], which is not in the folder: the scratch
    file is removed, then the removal fails. *)
Lemma missing_created_file_stops_the_cleanup_witness :
  let s := fresh 3 in
  exists s',
    _get_code_and_respond_to_issues s = Raised (OsFileNotFoundError "ghost.csv") s' /\
    new_events s s' =
      opening s ++ [RunCode "df.to_csv('scratch.csv')"; OsRemove "scratch.csv"].
Proof.
  intros s.
  destruct (missing_created_file_stops_the_cleanup s "df.to_csv('scratch.csv')" ghost_output
              [] (returned_or [] (_get_issues_for_num_files_created ghost_output s)) [] []
              ({[ "data.csv"%string ]} ∪ {[ "scratch.csv"%string ]})
              ["scratch.csv"%string] "ghost.csv" [])
    as (s' & Hr & Hev & _).
  - vm_compute; reflexivity.
  - reflexivity.
  - vm_compute; reflexivity.
  - vm_compute; reflexivity.
  - vm_compute; reflexivity.
  - vm_compute; reflexivity.
  - vm_compute; discriminate.
  - reflexivity.
  - apply NoDup_singleton.
  - intros file [<- | []]. apply elem_of_union_r, elem_of_singleton. reflexivity.
  - rewrite elem_of_difference, elem_of_union, !elem_of_singleton.
    intros ([Hd | Hs] & _); discriminate.
  - exists s'. split; [exact Hr | exact Hev].
Defined.

End Ghost.

Section TwoBlocks.
#[local] Instance two_blocks : World := replying "two blocks".

(** The first answer has two blocks: it stays, with the message about it. *)
Lemma first_answer_without_single_block_witness :
  let s := fresh 3 in
  exists s',
    _get_code_and_respond_to_issues s = Returned None s' /\
    length (conversation s') = 4%nat /\
    previous_code s' = None.
Proof.
  intros s.
  destruct (first_answer_without_single_block s "More than one code snippet were found.")
    as (s' & Hr & _ & Hconv & Hcode & _).
  - vm_compute. split; discriminate.
  - vm_compute; reflexivity.
  - exists s'. split; [exact Hr |]. split; [rewrite Hconv; reflexivity | exact Hcode].
Defined.

End TwoBlocks.

Section IncompleteOnce.
#[local] Existing Instance always_incomplete.

(** An incomplete answer: the conversation is the request again, the engine
    is the next one. *)
Lemma incomplete_answer_is_asked_again_witness :
  let s := fresh 3 in
  exists s',
    _get_code_and_respond_to_issues s = Returned None s' /\
    conversation s' = request /\
    model_engine s' = 1%nat.
Proof.
  intros s.
  assert (Hx : extract_code (runner_at s) = IncompleteBlockFailedExtractingBlock)
    by (vm_compute; reflexivity).
  destruct (incomplete_answer_is_asked_again s Hx)
    as (s' & i & Hr & _ & _ & Hconv & Hengine & _).
  exists s'. split; [exact Hr |]. split; [exact Hconv | exact Hengine].
Defined.

End IncompleteOnce.

Section DividingAgain.
#[local] Existing Instance always_dividing.

(** The run divides by zero: the code is re-posted and is the code of
    record. *)
Lemma failed_run_is_reposted_witness :
  let s := fresh 3 in
  exists s',
    _get_code_and_respond_to_issues s = Returned None s' /\
    previous_code s' = Some "print(1 / 0)"%string /\
    _previous_code_problem s' = Some RuntimeError /\
    working_directory s' = {[ "data.csv"%string ]}.
Proof.
  intros s.
  destruct (failed_run_is_reposted s "print(1 / 0)" failed_dividing {[ "data.csv"%string ]}
              (returned_or some_issue
                 (classify_failure failed_dividing (runner_at s)
                    (ran s "print(1 / 0)" {[ "data.csv"%string ]}))))
    as (s' & Hr & _ & Hcode & Hp & Hw & _).
  - vm_compute; reflexivity.
  - reflexivity.
  - vm_compute; reflexivity.
  - vm_compute; reflexivity.
  - exists s'. split; [exact Hr |]. split; [exact Hcode |]. split; [exact Hp | exact Hw].
Defined.

End DividingAgain.
